(** * Library-Management-System: the loan lifecycle and the book ledger

    A shallow embedding of [app/services/library_service.py] and
    [app/services/settings_service.py] together with the models and the
    request schemas they use, followed by the properties of the loan state
    machine, the copy counters, the fine computation and the settings
    provider.

    Conventions of the embedding:
    - the SQLAlchemy session is an explicit store [DB]: one finite map per
      table, keyed by the primary key, and the optional singleton settings
      row; an ORM object is the row under its key, so a mutation of the
      object followed by [db.commit()] is an update of the map;
    - every service function takes the store and returns the committed store
      together with its outcome: a value, or the exception it raises;
    - [datetime.utcnow()] is the argument [now] of the function that calls it;
    - a [datetime] is a number of microseconds since midnight of day 0, so
      that [.date()] is the floor division by the length of a day;
    - a Python [float] is a binary64 primitive float. *)

From Stdlib Require Import ZArith Floats Uint63 String Bool Lia.
From stdpp Require Import gmap strings list fin_maps.

Set Warnings "-inexact-float".
Open Scope Z_scope.

(** ** Time *)

Module Datetime.

Definition us_per_day : Z := 86400000000.

(** [timedelta(days=n)] *)
Definition timedelta_days (n : Z) : Z := n * us_per_day.

(** [t.date()], as the ordinal of the day *)
Definition date (t : Z) : Z := t / us_per_day.

End Datetime.

(** ** Floats *)

(** The product [days_late * rate] of a Python [int] and a [float] converts
    the integer first.  A difference of two dates is below [2^22] in
    absolute value, far inside the range where the conversion is exact; the
    product is only ever taken with [days_late > 0]. *)
Definition float_of_int (z : Z) : float := PrimFloat.of_uint63 (Uint63.of_Z z).

Definition fmul (days_late : Z) (rate : float) : float :=
  PrimFloat.mul (float_of_int days_late) rate.

(** ** Models (app/models) *)

Inductive LoanStatus := RESERVED | ACTIVE | RETURNED | EXPIRED | OVERDUE | CANCELLED.

Definition LoanStatus_value (s : LoanStatus) : string :=
  match s with
  | RESERVED => "reserved"
  | ACTIVE => "active"
  | RETURNED => "returned"
  | EXPIRED => "expired"
  | OVERDUE => "overdue"
  | CANCELLED => "cancelled"
  end.

Definition LoanStatus_eqb (a b : LoanStatus) : bool :=
  match a, b with
  | RESERVED, RESERVED | ACTIVE, ACTIVE | RETURNED, RETURNED
  | EXPIRED, EXPIRED | OVERDUE, OVERDUE | CANCELLED, CANCELLED => true
  | _, _ => false
  end.

Inductive UserRole := ADMIN | LIBRARIAN | MEMBER.

Definition UserRole_eqb (a b : UserRole) : bool :=
  match a, b with
  | ADMIN, ADMIN | LIBRARIAN, LIBRARIAN | MEMBER, MEMBER => true
  | _, _ => false
  end.

(** The columns of [users] that the services read. *)
Record User := mkUser {
  role : UserRole;
  is_banned : bool
}.

Record Book := mkBook {
  title : string;
  author : string;
  isbn : string;
  description : option string;
  total_copies : Z;
  available_copies : Z;
  is_available : bool
}.

Record Loan := mkLoan {
  user_id : Z;
  book_id : Z;
  status : LoanStatus;
  reservation_date : Z;
  pickup_deadline : option Z;
  start_date : option Z;
  due_date : option Z;
  returned_at : option Z;
  canceled_at : option Z;
  fine_amount : float
}.

(** The settings object as the services use it, once [get_settings] has
    returned it: the three values are there. *)
Record SystemSettings := mkSettings {
  pickup_window_days : Z;
  standard_loan_days : Z;
  daily_fine_amount : float
}.

(** The row of [system_settings] as the table may hold it: [get_settings]
    provides for columns that are [None]. *)
Record SystemSettingsRow := mkRow {
  row_pickup_window_days : option Z;
  row_standard_loan_days : option Z;
  row_daily_fine_amount : option float
}.

(** The row of a settings object that has all its values. *)
Definition stored (s : SystemSettings) : SystemSettingsRow :=
  mkRow (Some (pickup_window_days s)) (Some (standard_loan_days s))
        (Some (daily_fine_amount s)).

(** Attribute assignments on the ORM objects. *)

Definition set_available_copies (v : Z) (b : Book) : Book :=
  mkBook (title b) (author b) (isbn b) (description b) (total_copies b) v (is_available b).
Definition set_is_available (v : bool) (b : Book) : Book :=
  mkBook (title b) (author b) (isbn b) (description b) (total_copies b) (available_copies b) v.
Definition set_total_copies (v : Z) (b : Book) : Book :=
  mkBook (title b) (author b) (isbn b) (description b) v (available_copies b) (is_available b).
Definition set_title (v : string) (b : Book) : Book :=
  mkBook v (author b) (isbn b) (description b) (total_copies b) (available_copies b) (is_available b).
Definition set_author (v : string) (b : Book) : Book :=
  mkBook (title b) v (isbn b) (description b) (total_copies b) (available_copies b) (is_available b).
Definition set_isbn (v : string) (b : Book) : Book :=
  mkBook (title b) (author b) v (description b) (total_copies b) (available_copies b) (is_available b).
Definition set_description (v : option string) (b : Book) : Book :=
  mkBook (title b) (author b) (isbn b) v (total_copies b) (available_copies b) (is_available b).

Definition set_status (v : LoanStatus) (l : Loan) : Loan :=
  mkLoan (user_id l) (book_id l) v (reservation_date l) (pickup_deadline l)
         (start_date l) (due_date l) (returned_at l) (canceled_at l) (fine_amount l).
Definition set_start_date (v : option Z) (l : Loan) : Loan :=
  mkLoan (user_id l) (book_id l) (status l) (reservation_date l) (pickup_deadline l)
         v (due_date l) (returned_at l) (canceled_at l) (fine_amount l).
Definition set_due_date (v : option Z) (l : Loan) : Loan :=
  mkLoan (user_id l) (book_id l) (status l) (reservation_date l) (pickup_deadline l)
         (start_date l) v (returned_at l) (canceled_at l) (fine_amount l).
Definition set_returned_at (v : option Z) (l : Loan) : Loan :=
  mkLoan (user_id l) (book_id l) (status l) (reservation_date l) (pickup_deadline l)
         (start_date l) (due_date l) v (canceled_at l) (fine_amount l).
Definition set_canceled_at (v : option Z) (l : Loan) : Loan :=
  mkLoan (user_id l) (book_id l) (status l) (reservation_date l) (pickup_deadline l)
         (start_date l) (due_date l) (returned_at l) v (fine_amount l).
Definition set_fine_amount (v : float) (l : Loan) : Loan :=
  mkLoan (user_id l) (book_id l) (status l) (reservation_date l) (pickup_deadline l)
         (start_date l) (due_date l) (returned_at l) (canceled_at l) v.

Definition set_daily_fine_amount (v : float) (s : SystemSettings) : SystemSettings :=
  mkSettings (pickup_window_days s) (standard_loan_days s) v.

(** ** Request schemas (app/schemas) *)

Module BookCreate.
Record t := mk {
  title : string;
  author : string;
  isbn : string;
  description : option string;
  total_copies : Z;
  available_copies : Z
}.

(** The [Field] constraints of [BookBase]. *)
Definition valid (d : t) : bool :=
  (1 <=? Z.of_nat (String.length (title d))) && (Z.of_nat (String.length (title d)) <=? 200)
  && (1 <=? Z.of_nat (String.length (author d))) && (Z.of_nat (String.length (author d)) <=? 100)
  && (10 <=? Z.of_nat (String.length (isbn d))) && (Z.of_nat (String.length (isbn d)) <=? 20)
  && (1 <=? total_copies d) && (total_copies d <=? 1000)
  && (0 <=? available_copies d) && (available_copies d <=? 1000).
End BookCreate.

(** A field of [BookUpdate] is [None] when the request leaves it unset
    ([model_dump(exclude_unset=True)] drops it) and [Some v] when it is set. *)
Module BookUpdate.
Record t := mk {
  title : option string;
  author : option string;
  isbn : option string;
  description : option (option string);
  total_copies : option Z;
  available_copies : option Z
}.

Definition opt_ok {A} (p : A -> bool) (o : option A) : bool :=
  match o with Some v => p v | None => true end.

Definition len_between (lo hi : Z) (s : string) : bool :=
  (lo <=? Z.of_nat (String.length s)) && (Z.of_nat (String.length s) <=? hi).

Definition valid (d : t) : bool :=
  opt_ok (len_between 1 200) (title d)
  && opt_ok (len_between 1 100) (author d)
  && opt_ok (len_between 10 20) (isbn d)
  && opt_ok (fun v => (1 <=? v) && (v <=? 1000)) (total_copies d)
  && opt_ok (fun v => (0 <=? v) && (v <=? 1000)) (available_copies d).

(** The request that sets nothing. *)
Definition unset : t := mk None None None None None None.
End BookUpdate.

Module LoanCreate.
Record t := mk { book_id : Z }.
End LoanCreate.

Module SettingsUpdate.
Record t := mk {
  pickup_window_days : Z;
  standard_loan_days : Z;
  daily_fine_amount : float
}.

(** [ge]/[le] bounds of the three fields. *)
Definition valid (u : t) : bool :=
  (1 <=? pickup_window_days u) && (pickup_window_days u <=? 14)
  && (1 <=? standard_loan_days u) && (standard_loan_days u <=? 120)
  && PrimFloat.leb 0.0 (daily_fine_amount u) && PrimFloat.leb (daily_fine_amount u) 100.0.
End SettingsUpdate.

(** ** The store *)

Record DB := mkDB {
  books : gmap Z Book;
  loans : gmap Z Loan;
  users : gmap Z User;
  settings : option SystemSettingsRow
}.

Definition set_books (v : gmap Z Book) (db : DB) : DB :=
  mkDB v (loans db) (users db) (settings db).
Definition set_loans (v : gmap Z Loan) (db : DB) : DB :=
  mkDB (books db) v (users db) (settings db).
Definition set_settings (v : option SystemSettingsRow) (db : DB) : DB :=
  mkDB (books db) (loans db) (users db) v.

(** The key an autoincrementing primary key gives the next row. *)
Definition next_id {A} (m : gmap Z A) : Z :=
  1 + map_fold (fun k _ acc => Z.max k acc) 0 m.

(** ** Outcomes *)

Inductive exn :=
| HTTPException (status_code : Z) (detail : string)
| IntegrityError.

Inductive result (A : Type) :=
| Ok (a : A)
| Raise (e : exn).
Arguments Ok {A} a.
Arguments Raise {A} e.

(** ** SettingsService *)

Definition default_settings : SystemSettings := mkSettings 2 30 0.1.

(** [x in (None, 0.0, 0.5)]: [x] is [None] or a float equal to one of the
    two. *)
Definition in_None_0_05 (x : option float) : bool :=
  match x with
  | None => true
  | Some v => PrimFloat.eqb v 0.0 || PrimFloat.eqb v 0.5
  end.

(** The three [if]s of the source each set [updated]; the row is written
    back when one of them did. *)
Definition get_settings (db : DB) : DB * SystemSettings :=
  match settings db with
  | Some row =>
      let pickup := default 2 (row_pickup_window_days row) in
      let standard := default 30 (row_standard_loan_days row) in
      let fine :=
        if in_None_0_05 (row_daily_fine_amount row) then 0.1%float
        else default 0.1%float (row_daily_fine_amount row) in
      let updated :=
        bool_decide (row_pickup_window_days row = None)
        || bool_decide (row_standard_loan_days row = None)
        || in_None_0_05 (row_daily_fine_amount row) in
      let s := mkSettings pickup standard fine in
      if updated then (set_settings (Some (stored s)) db, s) else (db, s)
  | None => (set_settings (Some (stored default_settings)) db, default_settings)
  end.

Definition _recalculate_overdue_fines (now : Z) (s : SystemSettings) (db : DB) : DB :=
  let selected (loan : Loan) : bool :=
    (LoanStatus_eqb (status loan) ACTIVE || LoanStatus_eqb (status loan) OVERDUE)
    && match due_date loan with Some d => d <? now | None => false end in
  let recalc (loan : Loan) : Loan :=
    match due_date loan with
    | Some d =>
        let days_late := Datetime.date now - Datetime.date d in
        let days_late := if days_late =? 0 then 1 else days_late in
        if days_late >? 0 then
          set_status OVERDUE (set_fine_amount (fmul days_late (daily_fine_amount s)) loan)
        else loan
    | None => loan
    end in
  set_loans ((fun loan => if selected loan then recalc loan else loan) <$> loans db) db.

(** [updates] is the [model_dump()] of a [SettingsUpdate]: the three keys. *)
Definition update_settings (now : Z) (updates : SettingsUpdate.t) (db : DB)
  : DB * SystemSettings :=
  let '(db1, _) := get_settings db in
  let s := mkSettings (SettingsUpdate.pickup_window_days updates)
                      (SettingsUpdate.standard_loan_days updates)
                      (SettingsUpdate.daily_fine_amount updates) in
  let db2 := set_settings (Some (stored s)) db1 in
  (_recalculate_overdue_fines now s db2, s).

(** ** LibraryService *)

(** The ISBN column is [unique]: a commit that would store two rows with one
    ISBN raises [IntegrityError]. *)
Definition isbn_taken (i : string) (except : option Z) (m : gmap Z Book) : bool :=
  existsb (fun kv => String.eqb (isbn (snd kv)) i
                     && match except with
                        | Some k => negb (fst kv =? k)
                        | None => true
                        end)
          (map_to_list m).

(** [BookCreate] has no [is_available] field: the column default [True]
    is stored.  [payload.get("available_copies")] is never [None], the field
    being an [int] with a default. *)
Definition create_book (book_data : BookCreate.t) (db : DB) : DB * result (Z * Book) :=
  let available :=
    Z.min (BookCreate.available_copies book_data) (BookCreate.total_copies book_data) in
  let book :=
    mkBook (BookCreate.title book_data) (BookCreate.author book_data)
           (BookCreate.isbn book_data) (BookCreate.description book_data)
           (BookCreate.total_copies book_data) available true in
  if isbn_taken (isbn book) None (books db) then
    (db, Raise (HTTPException 400 "Book with this ISBN already exists"))
  else
    let id := next_id (books db) in
    (set_books (<[id := book]> (books db)) db, Ok (id, book)).

Definition get_book (bid : Z) (db : DB) : option Book := books db !! bid.

Definition apply_field {A} (o : option A) (set : A -> Book -> Book) (b : Book) : Book :=
  match o with
  | Some v => set v b
  | None => b
  end.

Definition update_book (bid : Z) (book_data : BookUpdate.t) (db : DB)
  : DB * result Book :=
  match books db !! bid with
  | None => (db, Raise (HTTPException 404 "Book not found"))
  | Some book =>
      let book :=
        apply_field (BookUpdate.available_copies book_data) set_available_copies
          (apply_field (BookUpdate.total_copies book_data) set_total_copies
            (apply_field (BookUpdate.description book_data) set_description
              (apply_field (BookUpdate.isbn book_data) set_isbn
                (apply_field (BookUpdate.author book_data) set_author
                  (apply_field (BookUpdate.title book_data) set_title book))))) in
      let book :=
        if bool_decide (is_Some (BookUpdate.total_copies book_data))
           || bool_decide (is_Some (BookUpdate.available_copies book_data))
        then
          if available_copies book >? total_copies book
          then set_available_copies (total_copies book) book
          else book
        else book in
      if isbn_taken (isbn book) (Some bid) (books db) then (db, Raise IntegrityError)
      else (set_books (<[bid := book]> (books db)) db, Ok book)
  end.

(** Deleting a book cascades to its loans. *)
Definition delete_book (bid : Z) (db : DB) : DB * result unit :=
  match books db !! bid with
  | None => (db, Raise (HTTPException 404 "Book not found"))
  | Some _ =>
      (set_loans (filter (fun kv => book_id (snd kv) <> bid) (loans db))
         (set_books (delete bid (books db)) db), Ok tt)
  end.

(** The query of [reserve_book] for a recent cancellation. *)
Definition recent_cancel (now uid bid : Z) (db : DB) : bool :=
  existsb (fun kv =>
             let loan := snd kv in
             (user_id loan =? uid) && (book_id loan =? bid)
             && LoanStatus_eqb (status loan) CANCELLED
             && match canceled_at loan with
                | Some c => c >? now - Datetime.timedelta_days 1
                | None => false
                end)
          (map_to_list (loans db)).

Definition reserve_book (now uid : Z) (loan_data : LoanCreate.t) (db : DB)
  : DB * result (Z * Loan) :=
  match books db !! LoanCreate.book_id loan_data with
  | None => (db, Raise (HTTPException 404 "Book not found"))
  | Some book =>
      if available_copies book <=? 0 then
        (db, Raise (HTTPException 400 "Book is not available for reservation"))
      else
        match users db !! uid with
        | None => (db, Raise (HTTPException 404 "User not found"))
        | Some user =>
            if is_banned user then
              (db, Raise (HTTPException 403 "You are banned from reserving books"))
            else if recent_cancel now uid (LoanCreate.book_id loan_data) db then
              (db, Raise (HTTPException 400
                            "You must wait 24 hours before reserving this book again"))
            else
              let '(db, settings) := get_settings db in
              let pickup_deadline := now + Datetime.timedelta_days (pickup_window_days settings) in
              let loan :=
                mkLoan uid (LoanCreate.book_id loan_data) RESERVED now (Some pickup_deadline)
                       None None None None 0.0 in
              let book := set_available_copies (available_copies book - 1) book in
              let book := set_is_available (available_copies book >? 0) book in
              let id := next_id (loans db) in
              (set_loans (<[id := loan]> (loans db))
                 (set_books (<[LoanCreate.book_id loan_data := book]> (books db)) db),
               Ok (id, loan))
        end
  end.

Definition confirm_pickup (now lid : Z) (db : DB) : DB * result Loan :=
  match loans db !! lid with
  | None => (db, Raise (HTTPException 404 "Loan not found"))
  | Some loan =>
      if negb (LoanStatus_eqb (status loan) RESERVED) then
        (db, Raise (HTTPException 400 "Only reserved loans can be picked up"))
      else if match pickup_deadline loan with Some d => now >? d | None => false end then
        let loan := set_status EXPIRED loan in
        let db := set_loans (<[lid := loan]> (loans db)) db in
        let db :=
          match books db !! book_id loan with
          | Some book =>
              let book := set_available_copies (available_copies book + 1) book in
              let book := set_is_available (available_copies book >? 0) book in
              set_books (<[book_id loan := book]> (books db)) db
          | None => db
          end in
        (db, Raise (HTTPException 400 "Reservation has expired"))
      else
        let '(db, settings) := get_settings db in
        let loan := set_status ACTIVE loan in
        let loan := set_start_date (Some now) loan in
        let loan :=
          set_due_date (Some (now + Datetime.timedelta_days (standard_loan_days settings))) loan in
        (set_loans (<[lid := loan]> (loans db)) db, Ok loan)
  end.

Definition assign_loan (now uid bid : Z) (db : DB) : DB * result (Z * Loan) :=
  match users db !! uid with
  | None => (db, Raise (HTTPException 404 "User not found"))
  | Some user =>
      if negb (UserRole_eqb (role user) MEMBER) then
        (db, Raise (HTTPException 400 "Loans can only be assigned to members"))
      else if is_banned user then
        (db, Raise (HTTPException 403 "User is banned from reserving books"))
      else
        match books db !! bid with
        | None => (db, Raise (HTTPException 404 "Book not found"))
        | Some book =>
            if available_copies book <=? 0 then
              (db, Raise (HTTPException 400 "Book is not available for loan"))
            else
              let '(db, settings) := get_settings db in
              let loan :=
                mkLoan uid bid ACTIVE now None (Some now)
                       (Some (now + Datetime.timedelta_days (standard_loan_days settings)))
                       None None 0.0 in
              let book := set_available_copies (available_copies book - 1) book in
              let book := set_is_available (available_copies book >? 0) book in
              let id := next_id (loans db) in
              (set_loans (<[id := loan]> (loans db))
                 (set_books (<[bid := book]> (books db)) db),
               Ok (id, loan))
        end
  end.

Definition return_book (now lid : Z) (db : DB) : DB * result Loan :=
  match loans db !! lid with
  | None => (db, Raise (HTTPException 404 "Loan not found"))
  | Some loan =>
      if negb (LoanStatus_eqb (status loan) ACTIVE || LoanStatus_eqb (status loan) OVERDUE)
      then (db, Raise (HTTPException 400 "Only active loans can be returned"))
      else
        let '(db, loan) :=
          match due_date loan with
          | Some due =>
              if now >? due then
                let '(db, settings) := get_settings db in
                let days_late := Datetime.date now - Datetime.date due in
                let days_late := if days_late =? 0 then 1 else days_late in
                if days_late >? 0 then
                  (db, set_fine_amount (fmul days_late (daily_fine_amount settings)) loan)
                else (db, loan)
              else (db, loan)
          | None => (db, loan)
          end in
        let loan := set_status RETURNED loan in
        let loan := set_returned_at (Some now) loan in
        let db := set_loans (<[lid := loan]> (loans db)) db in
        let db :=
          match books db !! book_id loan with
          | Some book =>
              let book := set_available_copies (available_copies book + 1) book in
              let book := set_is_available (available_copies book >? 0) book in
              set_books (<[book_id loan := book]> (books db)) db
          | None => db
          end in
        (db, Ok loan)
  end.

Definition cancel_reservation (now uid lid : Z) (db : DB) : DB * result Loan :=
  match loans db !! lid with
  | None => (db, Raise (HTTPException 404 "Loan not found"))
  | Some loan =>
      if negb (user_id loan =? uid) then
        (db, Raise (HTTPException 403 "You can only cancel your own reservations"))
      else if negb (LoanStatus_eqb (status loan) RESERVED) then
        (db, Raise (HTTPException 400 "Only reserved loans can be cancelled"))
      else
        let loan := set_status CANCELLED loan in
        let loan := set_canceled_at (Some now) loan in
        let db := set_loans (<[lid := loan]> (loans db)) db in
        let db :=
          match books db !! book_id loan with
          | Some book =>
              let book := set_available_copies (available_copies book + 1) book in
              let book := set_is_available (available_copies book >? 0) book in
              set_books (<[book_id loan := book]> (books db)) db
          | None => db
          end in
        (db, Ok loan)
  end.

(** The loop of [_mark_overdue] over the loans of a query result, given by
    their keys; [settings] is the local variable that caches the settings
    row once a loan needs it. *)
Fixpoint _mark_overdue_loop (now : Z) (ids : list Z) (settings : option SystemSettings)
    (db : DB) : DB :=
  match ids with
  | [] => db
  | lid :: ids =>
      match loans db !! lid with
      | Some loan =>
          match due_date loan with
          | Some due =>
              if (LoanStatus_eqb (status loan) ACTIVE || LoanStatus_eqb (status loan) OVERDUE)
                 && (now >? due)
              then
                let loan := set_status OVERDUE loan in
                let '(db, s) :=
                  match settings with
                  | None => get_settings db
                  | Some s => (db, s)
                  end in
                let days_late := Datetime.date now - Datetime.date due in
                let days_late := if days_late =? 0 then 1 else days_late in
                let loan :=
                  if days_late >? 0
                  then set_fine_amount (fmul days_late (daily_fine_amount s)) loan
                  else loan in
                _mark_overdue_loop now ids (Some s) (set_loans (<[lid := loan]> (loans db)) db)
              else _mark_overdue_loop now ids settings db
          | None => _mark_overdue_loop now ids settings db
          end
      | None => _mark_overdue_loop now ids settings db
      end
  end.

Definition _mark_overdue (now : Z) (ids : list Z) (db : DB) : DB :=
  _mark_overdue_loop now ids None db.

Definition get_user_loans (now uid : Z) (db : DB) : DB * list (Z * Loan) :=
  let ids := map fst (List.filter (fun kv => user_id (snd kv) =? uid) (map_to_list (loans db))) in
  let db := _mark_overdue now ids db in
  (db, omap (fun lid => pair lid <$> loans db !! lid) ids).

(** The rows come in the order of the table; here the order of the keys. *)
Definition get_all_loans (now : Z) (skip limit : nat) (db : DB) : DB * list (Z * Loan) :=
  let ids := take limit (drop skip (map fst (map_to_list (loans db)))) in
  let db := _mark_overdue now ids db in
  (db, omap (fun lid => pair lid <$> loans db !! lid) ids).

(** ** Sessions: sequences of service calls *)

(** One call of the service layer, with the clock reading it observes. *)
Inductive Op :=
| CreateBook (book_data : BookCreate.t)
| UpdateBook (bid : Z) (book_data : BookUpdate.t)
| DeleteBook (bid : Z)
| Reserve (now uid : Z) (loan_data : LoanCreate.t)
| AssignLoan (now uid bid : Z)
| ConfirmPickup (now lid : Z)
| ReturnBook (now lid : Z)
| CancelReservation (now uid lid : Z)
| ListUserLoans (now uid : Z)
| ListAllLoans (now : Z) (skip limit : nat)
| GetSettings
| UpdateSettings (now : Z) (updates : SettingsUpdate.t).

(** The request bodies are validated against their schema before the
    service is called. *)
Definition valid_op (o : Op) : bool :=
  match o with
  | CreateBook d => BookCreate.valid d
  | UpdateBook _ d => BookUpdate.valid d
  | UpdateSettings _ u => SettingsUpdate.valid u
  | _ => true
  end.

(** The store a call leaves behind, whether it returns or raises. *)
Definition exec (o : Op) (db : DB) : DB :=
  match o with
  | CreateBook d => fst (create_book d db)
  | UpdateBook bid d => fst (update_book bid d db)
  | DeleteBook bid => fst (delete_book bid db)
  | Reserve now uid d => fst (reserve_book now uid d db)
  | AssignLoan now uid bid => fst (assign_loan now uid bid db)
  | ConfirmPickup now lid => fst (confirm_pickup now lid db)
  | ReturnBook now lid => fst (return_book now lid db)
  | CancelReservation now uid lid => fst (cancel_reservation now uid lid db)
  | ListUserLoans now uid => fst (get_user_loans now uid db)
  | ListAllLoans now skip limit => fst (get_all_loans now skip limit db)
  | GetSettings => fst (get_settings db)
  | UpdateSettings now u => fst (update_settings now u db)
  end.

Definition run (ops : list Op) (db : DB) : DB := foldl (fun db o => exec o db) db ops.

(** A library with registered users, no books and no loans yet. *)
Definition initial_db (us : gmap Z User) : DB := mkDB ∅ ∅ us None.

Inductive reachable : DB -> Prop :=
| reachable_initial us : reachable (initial_db us)
| reachable_step o db : reachable db -> valid_op o = true -> reachable (exec o db).

(** ** Auxiliary notions for the statements *)

(** The effect of a copy being taken from, or given back to, a book. *)
Definition take_copy (book : Book) : Book :=
  set_is_available (available_copies book - 1 >? 0)
    (set_available_copies (available_copies book - 1) book).

Definition give_copy (book : Book) : Book :=
  set_is_available (available_copies book + 1 >? 0)
    (set_available_copies (available_copies book + 1) book).

(** The query for a recent cancellation, read as a statement on the rows. *)
Definition cancelled_since (t uid bid : Z) (db : DB) : Prop :=
  exists lid loan c,
    loans db !! lid = Some loan
    /\ user_id loan = uid /\ book_id loan = bid
    /\ status loan = CANCELLED
    /\ canceled_at loan = Some c /\ c > t.

(** An error detail names a status when it contains the value of the
    status. *)
Definition names_status (detail : string) (s : LoanStatus) : bool :=
  match String.index 0 (LoanStatus_value s) detail with
  | Some _ => true
  | None => false
  end.

(** The sweep as the specification words it: a loan that is ACTIVE or
    OVERDUE and whose due instant has passed becomes OVERDUE with the fine of
    [max 1 (now.date() - due.date())] days at the given rate; every other
    loan is left alone.  The functions of the source are compared with it. *)
Definition overdue_now (now : Z) (loan : Loan) : bool :=
  (LoanStatus_eqb (status loan) ACTIVE || LoanStatus_eqb (status loan) OVERDUE)
  && match due_date loan with Some due => now >? due | None => false end.

Definition sweep_loan (now : Z) (rate : float) (loan : Loan) : Loan :=
  match due_date loan with
  | Some due =>
      if overdue_now now loan then
        set_fine_amount
          (PrimFloat.mul (float_of_int (Z.max 1 (Datetime.date now - Datetime.date due))) rate)
          (set_status OVERDUE loan)
      else loan
  | None => loan
  end.

(** Whether the loop of the sweep meets a loan that is due. *)
Definition any_overdue (now : Z) (ids : list Z) (db : DB) : bool :=
  existsb (fun lid => match loans db !! lid with
                      | Some loan => overdue_now now loan
                      | None => false
                      end) ids.

(** The cached settings row of the loop agrees with the store. *)
Definition cache_ok (cache : option SystemSettings) (db : DB) : Prop :=
  match cache with
  | Some s => get_settings db = (db, s)
  | None => True
  end.

(** The calls that move a loan through its lifecycle, and the listings. *)
Definition loan_op (o : Op) : bool :=
  match o with
  | Reserve _ _ _ | AssignLoan _ _ _ | ConfirmPickup _ _ | ReturnBook _ _
  | CancelReservation _ _ _ | ListUserLoans _ _ | ListAllLoans _ _ _
  | GetSettings | UpdateSettings _ _ => true
  | CreateBook _ | UpdateBook _ _ | DeleteBook _ => false
  end.

(** What such a call does to the table of books: nothing, or one copy of
    one book taken while one was available, or one copy given back. *)
Inductive books_step (m : gmap Z Book) : gmap Z Book -> Prop :=
| books_same : books_step m m
| books_take bid b :
    m !! bid = Some b -> available_copies b > 0 -> books_step m (<[bid := take_copy b]> m)
| books_give bid b :
    m !! bid = Some b -> books_step m (<[bid := give_copy b]> m).

(** The bounds the schemas put on the counters of a book, and the flag as
    the counter determines it. *)
Definition counters_ok (b : Book) : Prop := 0 <= available_copies b /\ 1 <= total_copies b.

Definition flag_ok (b : Book) : Prop := is_available b = (available_copies b >? 0).

(** Referential integrity of [loans.book_id]. *)
Definition loans_have_books (db : DB) : Prop :=
  forall lid loan, loans db !! lid = Some loan -> is_Some (books db !! book_id loan).

(** ** A small library, built by service calls *)

Definition day : Z := Datetime.us_per_day.

Definition ex_users : gmap Z User := {[ 1 := mkUser MEMBER false; 2 := mkUser MEMBER false ]}.

Definition ex_book_data : BookCreate.t :=
  BookCreate.mk "Test Book" "Test Author" "1234567890" (Some "A test book") 1 1.

Definition ex_db_book : DB := run [CreateBook ex_book_data] (initial_db ex_users).

Definition ex_db_reserved : DB :=
  run [Reserve (100 * day) 1 (LoanCreate.mk 1)] ex_db_book.

Definition ex_db_active : DB := run [ConfirmPickup (101 * day) 1] ex_db_reserved.

Definition ex_db_returned : DB := run [ReturnBook (120 * day) 1] ex_db_active.

Definition ex_db_cancelled : DB :=
  run [CancelReservation (100 * day + 5) 1 1] ex_db_reserved.

Definition ex_book : Book :=
  mkBook "Test Book" "Test Author" "1234567890" (Some "A test book") 1 1 true.

Definition ex_loan_reserved : Loan :=
  mkLoan 1 1 RESERVED (100 * day) (Some (102 * day)) None None None None 0.0.

Definition ex_loan_active : Loan :=
  mkLoan 1 1 ACTIVE (100 * day) (Some (102 * day)) (Some (101 * day)) (Some (131 * day))
         None None 0.0.

Definition ex_loan_returned : Loan :=
  mkLoan 1 1 RETURNED (100 * day) (Some (102 * day)) (Some (101 * day)) (Some (131 * day))
         (Some (120 * day)) None 0.0.

(** The library three days after the loan fell due, once the loans have
    been listed, and a settings update that sets the daily fine to zero. *)
Definition ex_db_overdue : DB := run [ListUserLoans (134 * day) 1] ex_db_active.

Definition ex_zero_rate : SettingsUpdate.t := SettingsUpdate.mk 2 30 0.0.

(** A title with two copies, one of them reserved, then reduced to a
    single copy by the librarian, then the reservation cancelled. *)
Definition ex_two_copies : BookCreate.t :=
  BookCreate.mk "Test Book" "Test Author" "1234567890" (Some "A test book") 2 2.

Definition ex_ops_shrink : list Op :=
  [ CreateBook ex_two_copies;
    Reserve (100 * day) 1 (LoanCreate.mk 1);
    UpdateBook 1 (BookUpdate.mk None None None None (Some 1) None);
    CancelReservation (100 * day + 5) 1 1 ].

(** A title entered with no copy on the shelf. *)
Definition ex_none_available : BookCreate.t :=
  BookCreate.mk "Test Book" "Test Author" "1234567890" (Some "A test book") 1 0.

Definition ex_book_held : Book :=
  mkBook "Test Book" "Test Author" "1234567890" (Some "A test book") 1 0 false.

Definition ex_loan_cancelled : Loan :=
  mkLoan 1 1 CANCELLED (100 * day) (Some (102 * day)) None None None (Some (100 * day + 5)) 0.0.

(** The library with the loan running and the daily fine set to 0.75. *)
Definition ex_db_active_075 : DB :=
  run [UpdateSettings (101 * day) (SettingsUpdate.mk 2 30 0.75)] ex_db_active.

(** The library with the daily fine set to 0.5. *)
Definition ex_db_half : DB :=
  run [UpdateSettings (101 * day) (SettingsUpdate.mk 2 30 0.5)] ex_db_book.

(** ** How a call changes the tables *)

(** The calls that write the counters of a book directly, the calls that
    remove a book, and the others. *)
Inductive path := Plain | Updating | Deleting.

Definition path_of (o : Op) : path :=
  match o with
  | UpdateBook _ _ => Updating
  | DeleteBook _ => Deleting
  | _ => Plain
  end.

(** A copy given back to a book of the catalog, when the book is there. *)
Definition release_copy (bid : Z) (m : gmap Z Book) : gmap Z Book :=
  match m !! bid with
  | Some b => <[bid := give_copy b]> m
  | None => m
  end.

(** The loans a reservation and a direct assignment create, and what a
    pickup, an expiry, a cancellation and a return make of a loan. *)
Definition new_reservation (now uid bid pickup_window : Z) : Loan :=
  mkLoan uid bid RESERVED now (Some (now + Datetime.timedelta_days pickup_window))
         None None None None 0.0.

Definition new_assignment (now uid bid loan_days : Z) : Loan :=
  mkLoan uid bid ACTIVE now None (Some now)
         (Some (now + Datetime.timedelta_days loan_days)) None None 0.0.

Definition picked_up (now loan_days : Z) (l : Loan) : Loan :=
  set_due_date (Some (now + Datetime.timedelta_days loan_days))
    (set_start_date (Some now) (set_status ACTIVE l)).

Definition cancelled (now : Z) (l : Loan) : Loan :=
  set_canceled_at (Some now) (set_status CANCELLED l).

Definition returned (now : Z) (l : Loan) : Loan :=
  set_returned_at (Some now) (set_status RETURNED l).

(** The effect of one service call on books and loans, guards resolved:
    each constructor is the committing path of one function. *)
Inductive effect (db db' : DB) : path -> Prop :=
| eff_quiet u :
    books db' = books db -> loans db' = loans db -> effect db db' u
| eff_reserve now uid bid b :
    books db !! bid = Some b -> available_copies b > 0 ->
    loans db' = <[next_id (loans db) :=
                    new_reservation now uid bid (pickup_window_days (snd (get_settings db)))]>
                  (loans db) ->
    books db' = <[bid := take_copy b]> (books db) ->
    effect db db' Plain
| eff_assign now uid bid b :
    books db !! bid = Some b -> available_copies b > 0 ->
    loans db' = <[next_id (loans db) :=
                    new_assignment now uid bid (standard_loan_days (snd (get_settings db)))]>
                  (loans db) ->
    books db' = <[bid := take_copy b]> (books db) ->
    effect db db' Plain
| eff_pickup now lid l :
    loans db !! lid = Some l -> status l = RESERVED ->
    loans db' = <[lid := picked_up now (standard_loan_days (snd (get_settings db))) l]>
                  (loans db) ->
    books db' = books db ->
    effect db db' Plain
| eff_expire lid l :
    loans db !! lid = Some l -> status l = RESERVED ->
    loans db' = <[lid := set_status EXPIRED l]> (loans db) ->
    books db' = release_copy (book_id l) (books db) ->
    effect db db' Plain
| eff_cancel now lid l :
    loans db !! lid = Some l -> status l = RESERVED ->
    loans db' = <[lid := cancelled now l]> (loans db) ->
    books db' = release_copy (book_id l) (books db) ->
    effect db db' Plain
| eff_return now lid l l0 :
    loans db !! lid = Some l -> status l = ACTIVE \/ status l = OVERDUE ->
    l0 = l \/ (exists fine, l0 = set_fine_amount fine l) ->
    loans db' = <[lid := returned now l0]> (loans db) ->
    books db' = release_copy (book_id l) (books db) ->
    effect db db' Plain
| eff_sweep now rate (f : Z -> Loan -> Loan) :
    (forall lid l, f lid l = l \/ f lid l = sweep_loan now rate l) ->
    (forall lid, loans db' !! lid = f lid <$> loans db !! lid) ->
    books db' = books db ->
    effect db db' Plain
| eff_create d :
    BookCreate.valid d = true ->
    books db !! next_id (books db) = None ->
    books db'
    = <[next_id (books db) :=
          mkBook (BookCreate.title d) (BookCreate.author d) (BookCreate.isbn d)
                 (BookCreate.description d) (BookCreate.total_copies d)
                 (Z.min (BookCreate.available_copies d) (BookCreate.total_copies d)) true]>
        (books db) ->
    loans db' = loans db ->
    effect db db' Plain
| eff_update bid b b' :
    books db !! bid = Some b ->
    books db' = <[bid := b']> (books db) ->
    loans db' = loans db ->
    effect db db' Updating
| eff_delete bid :
    books db' = delete bid (books db) ->
    loans db' = filter (fun kv => book_id (snd kv) <> bid) (loans db) ->
    effect db db' Deleting.

(** ** The lifecycle of a loan *)

(** The statuses from which no call moves a loan. *)
Definition terminal (s : LoanStatus) : bool :=
  match s with
  | RETURNED | EXPIRED | CANCELLED => true
  | RESERVED | ACTIVE | OVERDUE => false
  end.

(** The statuses in which a loan holds a copy of its book. *)
Definition holds_copy (s : LoanStatus) : bool :=
  match s with
  | RESERVED | ACTIVE | OVERDUE => true
  | RETURNED | EXPIRED | CANCELLED => false
  end.

(** The status changes the service functions make, staying put included. *)
Definition transition (a b : LoanStatus) : bool :=
  match a, b with
  | RESERVED, (RESERVED | ACTIVE | EXPIRED | CANCELLED) => true
  | ACTIVE, (ACTIVE | OVERDUE | RETURNED) => true
  | OVERDUE, (OVERDUE | RETURNED) => true
  | RETURNED, RETURNED | EXPIRED, EXPIRED | CANCELLED, CANCELLED => true
  | _, _ => false
  end.

(** What one call may make of a loan. *)
Definition evolves (l l' : Loan) : Prop :=
  user_id l' = user_id l /\ book_id l' = book_id l
  /\ reservation_date l' = reservation_date l
  /\ pickup_deadline l' = pickup_deadline l
  /\ transition (status l) (status l') = true
  /\ (terminal (status l) = true -> l' = l)
  /\ (fine_amount l' = fine_amount l \/ status l' = OVERDUE \/ status l' = RETURNED).

(** The dates and the fine a loan carries in each status. *)
Definition timestamps_ok (l : Loan) : Prop :=
  match status l with
  | RESERVED =>
      is_Some (pickup_deadline l) /\ start_date l = None /\ due_date l = None
      /\ returned_at l = None /\ canceled_at l = None /\ fine_amount l = 0%float
  | ACTIVE =>
      is_Some (start_date l) /\ is_Some (due_date l)
      /\ returned_at l = None /\ canceled_at l = None /\ fine_amount l = 0%float
  | OVERDUE =>
      is_Some (start_date l) /\ is_Some (due_date l)
      /\ returned_at l = None /\ canceled_at l = None
  | RETURNED =>
      is_Some (start_date l) /\ is_Some (due_date l)
      /\ is_Some (returned_at l) /\ canceled_at l = None
  | EXPIRED =>
      is_Some (pickup_deadline l) /\ start_date l = None /\ due_date l = None
      /\ returned_at l = None /\ canceled_at l = None /\ fine_amount l = 0%float
  | CANCELLED =>
      is_Some (pickup_deadline l) /\ is_Some (canceled_at l) /\ start_date l = None
      /\ due_date l = None /\ returned_at l = None /\ fine_amount l = 0%float
  end.

(** Sessions that remove no book. *)
Definition keeps_books (o : Op) : bool :=
  match path_of o with
  | Deleting => false
  | _ => true
  end.

(** ** Settings within the bounds of the schema *)

Definition in_bounds (s : SystemSettings) : bool :=
  (1 <=? pickup_window_days s) && (pickup_window_days s <=? 14)
  && (1 <=? standard_loan_days s) && (standard_loan_days s <=? 120)
  && PrimFloat.leb 0.0 (daily_fine_amount s) && PrimFloat.leb (daily_fine_amount s) 100.0.

(** The settings row is absent, or complete and within the bounds. *)
Definition settings_row_ok (row : option SystemSettingsRow) : Prop :=
  match row with
  | Some r => exists s, r = stored s /\ in_bounds s = true
  | None => True
  end.

(** The pickup window and the loan period a loan was given. *)
Definition periods_ok (l : Loan) : Prop :=
  match pickup_deadline l with
  | Some d => exists n, 1 <= n <= 14 /\ d = reservation_date l + Datetime.timedelta_days n
  | None => True
  end
  /\ match start_date l, due_date l with
     | Some s, Some d => exists n, 1 <= n <= 120 /\ d = s + Datetime.timedelta_days n
     | _, _ => True
     end.

(** ** Copies on loan *)

(** The number of loans of a book that hold a copy. *)
Definition held (bid : Z) (m : gmap Z Loan) : Z :=
  Z.of_nat (size (filter (fun kv : Z * Loan =>
                            book_id kv.2 = bid /\ holds_copy (status kv.2) = true) m)).

(** What one loan adds to that number. *)
Definition counts (bid : Z) (l : Loan) : Z :=
  if bool_decide (book_id l = bid) && holds_copy (status l) then 1 else 0.

(** Stores reached without [update_book]. *)
Inductive reachable_without_update : DB -> Prop :=
| rwu_initial us : reachable_without_update (initial_db us)
| rwu_step o db :
    reachable_without_update db -> valid_op o = true -> path_of o <> Updating ->
    reachable_without_update (exec o db).

(** The copies of a book are accounted for: on the shelf or on loan, never
    more than the total. *)
Definition accounted (db : DB) : Prop :=
  forall bid b, books db !! bid = Some b ->
                available_copies b + held bid (loans db) <= total_copies b.

(** ** The book an update stores *)

(** The book [update_book] has built when it commits: the assignments of
    the set fields, then the cut of the available copies. *)
Definition updated_book (d : BookUpdate.t) (book : Book) : Book :=
  let book :=
    apply_field (BookUpdate.available_copies d) set_available_copies
      (apply_field (BookUpdate.total_copies d) set_total_copies
        (apply_field (BookUpdate.description d) set_description
          (apply_field (BookUpdate.isbn d) set_isbn
            (apply_field (BookUpdate.author d) set_author
              (apply_field (BookUpdate.title d) set_title book))))) in
  if bool_decide (is_Some (BookUpdate.total_copies d))
     || bool_decide (is_Some (BookUpdate.available_copies d))
  then
    if available_copies book >? total_copies book
    then set_available_copies (total_copies book) book
    else book
  else book.

(** No two books of the catalog have the same ISBN. *)
Definition isbn_unique (m : gmap Z Book) : Prop :=
  forall bid1 bid2 b1 b2,
    m !! bid1 = Some b1 -> m !! bid2 = Some b2 -> isbn b1 = isbn b2 -> bid1 = bid2.

(** ** The users table *)

Definition set_users (v : gmap Z User) (db : DB) : DB :=
  mkDB (books db) (loans db) v (settings db).

Definition set_role (v : UserRole) (u : User) : User := mkUser v (is_banned u).
Definition set_is_banned (v : bool) (u : User) : User := mkUser (role u) v.

(** ** Access control: app/api/dependencies.py *)

Module Dependencies.

Definition credentials_exception : exn :=
  HTTPException 401 "Could not validate credentials".

(** [sub] is the subject of the decoded token as an integer: [None] when the
    token does not decode, carries no subject, or its subject is not an
    integer.  The user is returned with its key. *)
Definition get_current_user (sub : option Z) (db : DB) : result (Z * User) :=
  match sub with
  | None => Raise credentials_exception
  | Some uid =>
      match users db !! uid with
      | None => Raise credentials_exception
      | Some user => Ok (uid, user)
      end
  end.

Definition get_current_librarian (current_user : result (Z * User)) : result (Z * User) :=
  match current_user with
  | Raise e => Raise e
  | Ok (uid, user) =>
      if negb (UserRole_eqb (role user) LIBRARIAN || UserRole_eqb (role user) ADMIN) then
        Raise (HTTPException 403 "Not enough permissions. Librarian access required.")
      else Ok (uid, user)
  end.

Definition get_current_member (current_user : result (Z * User)) : result (Z * User) :=
  match current_user with
  | Raise e => Raise e
  | Ok (uid, user) =>
      if negb (UserRole_eqb (role user) MEMBER) then
        Raise (HTTPException 403 "Not enough permissions. Member access required.")
      else Ok (uid, user)
  end.

Definition get_current_admin (current_user : result (Z * User)) : result (Z * User) :=
  match current_user with
  | Raise e => Raise e
  | Ok (uid, user) =>
      if negb (UserRole_eqb (role user) ADMIN) then
        Raise (HTTPException 403 "Not enough permissions. Admin access required.")
      else Ok (uid, user)
  end.

End Dependencies.

(** A route: its dependencies are resolved first, then its body runs. *)
Definition route {A} (current_user : result (Z * User)) (db : DB)
    (body : Z * User -> DB * result A) : DB * result A :=
  match current_user with
  | Raise e => (db, Raise e)
  | Ok cu => body cu
  end.

(** [get_user_loans_for_management]: the RETURNED loans of a user; no sweep,
    no commit. *)
Definition get_user_loans_for_management (uid : Z) (db : DB) : list (Z * Loan) :=
  List.filter (fun kv => (user_id (snd kv) =? uid) && LoanStatus_eqb (status (snd kv)) RETURNED)
              (map_to_list (loans db)).

(** ** app/api/users.py *)

Module UsersRoutes.
Import Dependencies.

Definition get_user_loans (sub : option Z) (uid : Z) (db : DB) : DB * result (list (Z * Loan)) :=
  route (get_current_librarian (get_current_user sub db)) db (fun _ =>
    (db, Ok (get_user_loans_for_management uid db))).

Definition ban_user (sub : option Z) (uid : Z) (db : DB) : DB * result User :=
  route (get_current_librarian (get_current_user sub db)) db (fun _ =>
    match users db !! uid with
    | None => (db, Raise (HTTPException 404 "User not found"))
    | Some user =>
        if UserRole_eqb (role user) ADMIN then
          (db, Raise (HTTPException 400 "Cannot ban admin user"))
        else
          let user := set_is_banned true user in
          (set_users (<[uid := user]> (users db)) db, Ok user)
    end).

Definition unban_user (sub : option Z) (uid : Z) (db : DB) : DB * result User :=
  route (get_current_librarian (get_current_user sub db)) db (fun _ =>
    match users db !! uid with
    | None => (db, Raise (HTTPException 404 "User not found"))
    | Some user =>
        let user := set_is_banned false user in
        (set_users (<[uid := user]> (users db)) db, Ok user)
    end).

End UsersRoutes.

(** ** app/api/admin.py *)

Module AdminRoutes.
Import Dependencies.

Definition promote_user_to_librarian (sub : option Z) (uid : Z) (db : DB) : DB * result User :=
  route (get_current_admin (get_current_user sub db)) db (fun _ =>
    match users db !! uid with
    | None => (db, Raise (HTTPException 404 "User not found"))
    | Some user =>
        if UserRole_eqb (role user) ADMIN then
          (db, Raise (HTTPException 400 "Cannot modify admin user"))
        else if UserRole_eqb (role user) LIBRARIAN then
          (db, Raise (HTTPException 400 "User is already a librarian"))
        else
          let user := set_role LIBRARIAN user in
          (set_users (<[uid := user]> (users db)) db, Ok user)
    end).

Definition demote_librarian_to_member (sub : option Z) (uid : Z) (db : DB) : DB * result User :=
  route (get_current_admin (get_current_user sub db)) db (fun _ =>
    match users db !! uid with
    | None => (db, Raise (HTTPException 404 "User not found"))
    | Some user =>
        if UserRole_eqb (role user) ADMIN then
          (db, Raise (HTTPException 400 "Cannot modify admin user"))
        else if negb (UserRole_eqb (role user) LIBRARIAN) then
          (db, Raise (HTTPException 400 "User is not a librarian"))
        else
          let user := set_role MEMBER user in
          (set_users (<[uid := user]> (users db)) db, Ok user)
    end).

(** [db.delete(user)]: the relationship [User.loans] cascades, so the loans
    of the user are deleted with it. *)
Definition delete_user (sub : option Z) (uid : Z) (db : DB) : DB * result unit :=
  route (get_current_admin (get_current_user sub db)) db (fun _ =>
    match users db !! uid with
    | None => (db, Raise (HTTPException 404 "User not found"))
    | Some user =>
        if UserRole_eqb (role user) ADMIN then
          (db, Raise (HTTPException 400 "Cannot delete admin user"))
        else
          (set_users (delete uid (users db))
             (set_loans (filter (fun kv => user_id (snd kv) <> uid) (loans db)) db), Ok tt)
    end).

End AdminRoutes.

(** ** app/api/loans.py *)

Module LoansRoutes.
Import Dependencies.

Definition reserve_book (sub : option Z) (now : Z) (loan_data : LoanCreate.t) (db : DB)
  : DB * result (Z * Loan) :=
  route (get_current_member (get_current_user sub db)) db (fun cu =>
    reserve_book now (fst cu) loan_data db).

Definition assign_loan (sub : option Z) (now uid bid : Z) (db : DB) : DB * result (Z * Loan) :=
  route (get_current_librarian (get_current_user sub db)) db (fun _ =>
    assign_loan now uid bid db).

Definition confirm_pickup (sub : option Z) (now lid : Z) (db : DB) : DB * result Loan :=
  route (get_current_librarian (get_current_user sub db)) db (fun _ =>
    confirm_pickup now lid db).

Definition return_book (sub : option Z) (now lid : Z) (db : DB) : DB * result Loan :=
  route (get_current_librarian (get_current_user sub db)) db (fun _ =>
    return_book now lid db).

Definition cancel_reservation (sub : option Z) (now lid : Z) (db : DB) : DB * result Loan :=
  route (get_current_member (get_current_user sub db)) db (fun cu =>
    cancel_reservation now (fst cu) lid db).

Definition get_my_loans (sub : option Z) (now : Z) (db : DB) : DB * result (list (Z * Loan)) :=
  route (get_current_user sub db) db (fun cu =>
    let '(db, rows) := get_user_loans now (fst cu) db in (db, Ok rows)).

Definition get_all_loans (sub : option Z) (now : Z) (skip limit : nat) (db : DB)
  : DB * result (list (Z * Loan)) :=
  route (get_current_librarian (get_current_user sub db)) db (fun _ =>
    let '(db, rows) := get_all_loans now skip limit db in (db, Ok rows)).

End LoansRoutes.

(** ** Sessions of user management *)

Inductive UserOp :=
| BanUser (sub : option Z) (uid : Z)
| UnbanUser (sub : option Z) (uid : Z)
| PromoteUser (sub : option Z) (uid : Z)
| DemoteUser (sub : option Z) (uid : Z)
| DeleteUser (sub : option Z) (uid : Z).

Definition exec_user (o : UserOp) (db : DB) : DB :=
  match o with
  | BanUser sub uid => fst (UsersRoutes.ban_user sub uid db)
  | UnbanUser sub uid => fst (UsersRoutes.unban_user sub uid db)
  | PromoteUser sub uid => fst (AdminRoutes.promote_user_to_librarian sub uid db)
  | DemoteUser sub uid => fst (AdminRoutes.demote_librarian_to_member sub uid db)
  | DeleteUser sub uid => fst (AdminRoutes.delete_user sub uid db)
  end.

Definition run_users (ops : list UserOp) (db : DB) : DB :=
  foldl (fun db o => exec_user o db) db ops.

(** What one call of user management can do to the store. *)
Inductive user_effect (db : DB) : DB -> Prop :=
| ue_quiet : user_effect db db
| ue_flag cid cu uid u b :
    users db !! cid = Some cu -> role cu <> MEMBER ->
    users db !! uid = Some u ->
    (b = true -> role u <> ADMIN) ->
    user_effect db (set_users (<[uid := set_is_banned b u]> (users db)) db)
| ue_role cid cu uid u r :
    users db !! cid = Some cu -> role cu = ADMIN ->
    users db !! uid = Some u -> role u <> ADMIN -> r <> ADMIN ->
    user_effect db (set_users (<[uid := set_role r u]> (users db)) db)
| ue_delete cid cu uid u :
    users db !! cid = Some cu -> role cu = ADMIN ->
    users db !! uid = Some u -> role u <> ADMIN ->
    user_effect db
      (set_users (delete uid (users db))
         (set_loans (filter (fun kv : Z * Loan => user_id kv.2 <> uid) (loans db)) db)).

(** A library with staff: two members, a librarian and an admin; a title
    with two copies, one of them reserved by the first member. *)
Definition ex_staff : gmap Z User :=
  {[ 1 := mkUser MEMBER false; 2 := mkUser MEMBER false;
     3 := mkUser LIBRARIAN false; 4 := mkUser ADMIN false ]}.

Definition ex_db_staff : DB :=
  run [CreateBook ex_two_copies; Reserve (100 * day) 1 (LoanCreate.mk 1)] (initial_db ex_staff).

Definition ex_book_one_left : Book :=
  mkBook "Test Book" "Test Author" "1234567890" (Some "A test book") 2 1 true.

(** Requests of user management: a ban by the librarian, a promotion and a
    removal by the admin, a ban of the admin, a demotion asked by a member. *)
Definition ex_user_ops : list UserOp :=
  [ BanUser (Some 3) 1; PromoteUser (Some 4) 2; DeleteUser (Some 4) 1;
    BanUser (Some 3) 4; DemoteUser (Some 2) 3 ].

(** Calls after the return of the loan: a reservation by the other member,
    a listing long after, and a change of the settings. *)
Definition ex_ops_after_return : list Op :=
  [ Reserve (121 * day) 2 (LoanCreate.mk 1);
    ListAllLoans (200 * day) 0 100;
    UpdateSettings (201 * day) (SettingsUpdate.mk 3 14 0.25) ].

(** ** Requests to the loan routes *)

Inductive LoanRequest :=
| ReserveRq (now : Z) (loan_data : LoanCreate.t)
| AssignRq (now uid bid : Z)
| PickupRq (now lid : Z)
| ReturnRq (now lid : Z)
| CancelRq (now lid : Z)
| MyLoansRq (now : Z)
| AllLoansRq (now : Z) (skip limit : nat).

(** The store a request with the token subject [sub] leaves behind. *)
Definition exec_request (sub : option Z) (r : LoanRequest) (db : DB) : DB :=
  match r with
  | ReserveRq now d => fst (LoansRoutes.reserve_book sub now d db)
  | AssignRq now uid bid => fst (LoansRoutes.assign_loan sub now uid bid db)
  | PickupRq now lid => fst (LoansRoutes.confirm_pickup sub now lid db)
  | ReturnRq now lid => fst (LoansRoutes.return_book sub now lid db)
  | CancelRq now lid => fst (LoansRoutes.cancel_reservation sub now lid db)
  | MyLoansRq now => fst (LoansRoutes.get_my_loans sub now db)
  | AllLoansRq now skip limit => fst (LoansRoutes.get_all_loans sub now skip limit db)
  end.

Definition UserOp_sub (o : UserOp) : option Z :=
  match o with
  | BanUser sub _ | UnbanUser sub _ | PromoteUser sub _ | DemoteUser sub _
  | DeleteUser sub _ => sub
  end.

(** * Properties *)

(** ** Basic facts *)

Lemma us_per_day_pos : 0 < Datetime.us_per_day.
Proof. reflexivity. Qed.

Lemma date_mono (a b : Z) : a <= b -> Datetime.date a <= Datetime.date b.
Proof.
  intros H. unfold Datetime.date. apply Z.div_le_mono; [apply us_per_day_pos | exact H].
Qed.

(** Adding whole days moves the date by as many days. *)
Lemma date_add_days (t n : Z) :
  Datetime.date (t + Datetime.timedelta_days n) = Datetime.date t + n.
Proof. unfold Datetime.date, Datetime.timedelta_days. apply Z.div_add. discriminate. Qed.

Lemma LoanStatus_eqb_eq a b : LoanStatus_eqb a b = true <-> a = b.
Proof. destruct a, b; simpl; split; congruence. Qed.

(** A key given by [next_id] is not in use. *)
Lemma next_id_fresh {A} (m : gmap Z A) : m !! next_id m = None.
Proof.
  unfold next_id.
  assert (forall k, is_Some (m !! k) -> k <= map_fold (fun k _ acc => Z.max k acc) 0 m) as H.
  { apply (map_fold_weak_ind (fun r m => forall k, is_Some (m !! k) -> k <= r)).
    - intros k [x Hx]. by rewrite lookup_empty in Hx.
    - intros i x m' r Hi IH k Hk. destruct (decide (k = i)) as [->|Hne]; [lia|].
      rewrite lookup_insert_ne in Hk by done. specialize (IH k Hk). lia. }
  destruct (m !! _) eqn:E; [|done].
  specialize (H _ (mk_is_Some _ _ E)). lia.
Qed.

Lemma LoanStatus_eqb_refl s : LoanStatus_eqb s s = true.
Proof. by destruct s. Qed.

(** The day-rounding rule shared by return, sweep and repricing: once the
    due instant has passed the number of days charged is the difference of
    the calendar days, and one when that difference is zero. *)
Lemma days_late_rule (now due : Z) :
  due < now ->
  let d := Datetime.date now - Datetime.date due in
  (if d =? 0 then 1 else d) = Z.max 1 d /\ ((if d =? 0 then 1 else d) >? 0) = true.
Proof.
  intros Hlt d.
  assert (0 <= d) by (pose proof (date_mono due now); lia).
  destruct (Z.eqb_spec d 0); lia.
Qed.

(** The two ways through [get_settings] on a stored row. *)
Lemma get_settings_row (db : DB) (row : SystemSettingsRow) :
  settings db = Some row ->
  (exists pw sl df,
      row = mkRow (Some pw) (Some sl) (Some df)
      /\ in_None_0_05 (Some df) = false
      /\ get_settings db = (db, mkSettings pw sl df))
  \/ (exists s,
        in_None_0_05 (Some (daily_fine_amount s)) = false
        /\ get_settings db = (set_settings (Some (stored s)) db, s)).
Proof.
  intros Hs. unfold get_settings. rewrite Hs. cbn zeta.
  destruct (in_None_0_05 (row_daily_fine_amount row)) eqn:Hin.
  - right. eexists. split; [|by rewrite orb_true_r]. reflexivity.
  - rewrite orb_false_r.
    destruct row as [pw sl [df|]]; [|discriminate Hin].
    cbn [row_pickup_window_days row_standard_loan_days row_daily_fine_amount default id] in *.
    destruct pw as [pw|], sl as [sl|]; cbn [default id];
      [left; by exists pw, sl, df|right..];
      (eexists; split; [|reflexivity]; exact Hin).
Qed.

Section GetSettings.
Variable db : DB.

Lemma get_settings_cases :
  (exists s, in_None_0_05 (Some (daily_fine_amount s)) = false
             /\ settings db = Some (stored s) /\ get_settings db = (db, s))
  \/ (exists s, in_None_0_05 (Some (daily_fine_amount s)) = false
                /\ get_settings db = (set_settings (Some (stored s)) db, s)).
Proof.
  destruct (settings db) as [row|] eqn:Hs.
  - destruct (get_settings_row db row Hs) as [(pw & sl & df & -> & Hin & Hgs)|(s & Hin & Hgs)].
    + left. by exists (mkSettings pw sl df).
    + right. by exists s.
  - right. exists default_settings. unfold get_settings. rewrite Hs. split; reflexivity.
Qed.

Lemma get_settings_books : books (fst (get_settings db)) = books db.
Proof. by destruct get_settings_cases as [(s & _ & _ & ->)|(s & _ & ->)]. Qed.

Lemma get_settings_loans : loans (fst (get_settings db)) = loans db.
Proof. by destruct get_settings_cases as [(s & _ & _ & ->)|(s & _ & ->)]. Qed.

Lemma get_settings_users : users (fst (get_settings db)) = users db.
Proof. by destruct get_settings_cases as [(s & _ & _ & ->)|(s & _ & ->)]. Qed.

(** The row that is stored after the call is the row of the object that is
    returned. *)
Lemma get_settings_stored :
  settings (fst (get_settings db)) = Some (stored (snd (get_settings db))).
Proof. by destruct get_settings_cases as [(s & _ & ? & ->)|(s & _ & ->)]. Qed.

(** The rate that is returned is never one of the coerced values. *)
Lemma get_settings_rate :
  in_None_0_05 (Some (daily_fine_amount (snd (get_settings db)))) = false.
Proof. by destruct get_settings_cases as [(s & ? & _ & ->)|(s & ? & ->)]. Qed.

End GetSettings.

(** A row with all its values and a rate that is not coerced is read as it
    is, and nothing is written. *)
Lemma get_settings_stable (db : DB) (s : SystemSettings) :
  settings db = Some (stored s) ->
  in_None_0_05 (Some (daily_fine_amount s)) = false ->
  get_settings db = (db, s).
Proof.
  intros Hs Hr. unfold get_settings. rewrite Hs. cbn -[in_None_0_05]. rewrite Hr.
  by destruct s.
Qed.

(** A second read changes nothing and returns the same object. *)
Lemma get_settings_idem db :
  get_settings (fst (get_settings db)) = (fst (get_settings db), snd (get_settings db)).
Proof. apply get_settings_stable; [apply get_settings_stored|apply get_settings_rate]. Qed.

(** ** Late returns *)

Lemma return_book_late (db : DB) (now lid : Z) (loan : Loan) (due : Z) :
  loans db !! lid = Some loan ->
  status loan = ACTIVE \/ status loan = OVERDUE ->
  due_date loan = Some due ->
  now > due ->
  let rate := daily_fine_amount (snd (get_settings db)) in
  let fine := PrimFloat.mul (float_of_int (Z.max 1 (Datetime.date now - Datetime.date due))) rate in
  let loan' := set_returned_at (Some now) (set_status RETURNED (set_fine_amount fine loan)) in
  exists db', return_book now lid db = (db', Ok loan') /\ loans db' !! lid = Some loan'.
Proof.
  intros Hl Hst Hdue Hlate rate fine loan'. subst rate fine loan'.
  destruct (days_late_rule now due ltac:(lia)) as [Hmax Hpos].
  unfold return_book. rewrite Hl.
  assert (negb (LoanStatus_eqb (status loan) ACTIVE || LoanStatus_eqb (status loan) OVERDUE)
          = false) as -> by (destruct Hst as [-> | ->]; done).
  rewrite Hdue.
  assert ((now >? due) = true) as -> by lia.
  destruct (get_settings db) as [db1 s] eqn:Hgs.
  rewrite Hpos, Hmax. cbn [snd].
  eexists. split; [reflexivity|].
  destruct (books _ !! _); cbn; by rewrite lookup_insert_eq.
Qed.

(** C2: a loan returned after its due instant is charged
    [max 1 (now.date() - due.date())] days at the rate [get_settings]
    reports; a return later on the due day itself is charged one day, and
    ten days at the rate 0.75 make exactly 7.5. *)
Theorem return_book_late_fine (db : DB) (now lid : Z) (loan : Loan) (due : Z) :
  loans db !! lid = Some loan ->
  status loan = ACTIVE \/ status loan = OVERDUE ->
  due_date loan = Some due ->
  now > due ->
  let rate := daily_fine_amount (snd (get_settings db)) in
  let days_late := Z.max 1 (Datetime.date now - Datetime.date due) in
  exists db' loan',
    return_book now lid db = (db', Ok loan')
    /\ loans db' !! lid = Some loan'
    /\ status loan' = RETURNED
    /\ fine_amount loan' = PrimFloat.mul (float_of_int days_late) rate
    /\ (Datetime.date now = Datetime.date due ->
        days_late = 1 /\ fine_amount loan' = PrimFloat.mul (float_of_int 1) rate)
    /\ (Datetime.date now - Datetime.date due = 10 -> rate = 0.75%float ->
        fine_amount loan' = 7.5%float).
Proof.
  intros Hl Hst Hdue Hlate rate days_late.
  destruct (return_book_late db now lid loan due Hl Hst Hdue Hlate) as (db' & Hret & Hl').
  eexists db', _. split; [exact Hret|]. split; [exact Hl'|].
  cbn [status fine_amount set_returned_at set_status set_fine_amount].
  fold rate days_late. split; [done|]. split; [done|]. split.
  - intros Hsame. assert (days_late = 1) as Hd by (unfold days_late; lia).
    by rewrite Hd.
  - intros H10 Hrate. unfold days_late. rewrite H10, Hrate. reflexivity.
Qed.

(** ** Successful reservations, pickups and returns *)

(** What [get_settings] leaves of the tables, for a destructed call. *)
Lemma get_settings_frame db db1 s :
  get_settings db = (db1, s) ->
  books db1 = books db /\ loans db1 = loans db /\ users db1 = users db
  /\ settings db1 = Some (stored s) /\ get_settings db1 = (db1, s).
Proof.
  intros H.
  pose proof (get_settings_books db). pose proof (get_settings_loans db).
  pose proof (get_settings_users db). pose proof (get_settings_stored db).
  pose proof (get_settings_idem db). rewrite H in *. done.
Qed.

Lemma reserve_book_ok (db : DB) (now uid bid : Z) (book : Book) (user : User) :
  books db !! bid = Some book ->
  available_copies book > 0 ->
  users db !! uid = Some user ->
  is_banned user = false ->
  recent_cancel now uid bid db = false ->
  let db1 := fst (get_settings db) in
  let s := snd (get_settings db) in
  let loan := mkLoan uid bid RESERVED now
                (Some (now + Datetime.timedelta_days (pickup_window_days s)))
                None None None None 0.0 in
  reserve_book now uid (LoanCreate.mk bid) db
  = (set_loans (<[next_id (loans db) := loan]> (loans db))
       (set_books (<[bid := take_copy book]> (books db)) db1),
     Ok (next_id (loans db), loan)).
Proof.
  intros Hb Hav Hu Hban Hrc db1 s loan. subst db1 s loan.
  unfold reserve_book. cbn [LoanCreate.book_id]. rewrite Hb.
  assert ((available_copies book <=? 0) = false) as -> by lia.
  rewrite Hu, Hban, Hrc.
  destruct (get_settings db) as [db1 s] eqn:Hgs.
  destruct (get_settings_frame _ _ _ Hgs) as (Hbk & Hln & _).
  cbn [fst snd]. rewrite Hbk, Hln. reflexivity.
Qed.

Lemma confirm_pickup_ok (db : DB) (now lid : Z) (loan : Loan) :
  loans db !! lid = Some loan ->
  status loan = RESERVED ->
  match pickup_deadline loan with Some d => now <= d | None => True end ->
  let db1 := fst (get_settings db) in
  let s := snd (get_settings db) in
  let loan' :=
    set_due_date (Some (now + Datetime.timedelta_days (standard_loan_days s)))
      (set_start_date (Some now) (set_status ACTIVE loan)) in
  confirm_pickup now lid db = (set_loans (<[lid := loan']> (loans db)) db1, Ok loan').
Proof.
  intros Hl Hst Hd db1 s loan'. subst db1 s loan'.
  unfold confirm_pickup. rewrite Hl, Hst. cbn [LoanStatus_eqb negb].
  assert (match pickup_deadline loan with Some d => now >? d | None => false end = false) as ->
    by (destruct (pickup_deadline loan); [lia | done]).
  destruct (get_settings db) as [db1 s] eqn:Hgs.
  destruct (get_settings_frame _ _ _ Hgs) as (_ & Hln & _).
  cbn [fst snd]. by rewrite Hln.
Qed.

Lemma return_book_on_time (db : DB) (now lid : Z) (loan : Loan) :
  loans db !! lid = Some loan ->
  status loan = ACTIVE \/ status loan = OVERDUE ->
  match due_date loan with Some d => now <= d | None => True end ->
  let loan' := set_returned_at (Some now) (set_status RETURNED loan) in
  let db1 := set_loans (<[lid := loan']> (loans db)) db in
  return_book now lid db
  = (match books db !! book_id loan with
     | Some book => set_books (<[book_id loan := give_copy book]> (books db)) db1
     | None => db1
     end, Ok loan').
Proof.
  intros Hl Hst Hd loan' db1. subst loan' db1.
  unfold return_book. rewrite Hl.
  assert (negb (LoanStatus_eqb (status loan) ACTIVE || LoanStatus_eqb (status loan) OVERDUE)
          = false) as -> by (destruct Hst as [-> | ->]; done).
  destruct (due_date loan) as [d|] eqn:Hdue.
  - assert ((now >? d) = false) as -> by lia. reflexivity.
  - reflexivity.
Qed.

(** ** Expired reservations *)

Lemma confirm_pickup_late (db : DB) (now lid : Z) (loan : Loan) (d : Z) (book : Book) :
  loans db !! lid = Some loan ->
  status loan = RESERVED ->
  pickup_deadline loan = Some d ->
  now > d ->
  books db !! book_id loan = Some book ->
  exists db',
    confirm_pickup now lid db = (db', Raise (HTTPException 400 "Reservation has expired"))
    /\ loans db' !! lid = Some (set_status EXPIRED loan)
    /\ books db' !! book_id loan = Some (give_copy book)
    /\ available_copies (give_copy book) = available_copies book + 1
    /\ (forall lid', lid' <> lid -> loans db' !! lid' = loans db !! lid')
    /\ (forall bid', bid' <> book_id loan -> books db' !! bid' = books db !! bid').
Proof.
  intros Hl Hst Hd Hlate Hb.
  unfold confirm_pickup. rewrite Hl, Hst, Hd. cbn [LoanStatus_eqb negb].
  assert ((now >? d) = true) as -> by lia.
  cbn [books set_loans book_id set_status]. rewrite Hb.
  eexists. split; [reflexivity|]. cbn.
  rewrite !lookup_insert_eq. repeat split; try done.
  - intros lid' Hne. by rewrite lookup_insert_ne.
  - intros bid' Hne. by rewrite lookup_insert_ne.
Qed.

(** [get_settings] looks at the settings row only. *)
Lemma get_settings_set_loans (l : gmap Z Loan) (db : DB) :
  get_settings (set_loans l db)
  = (set_loans l (fst (get_settings db)), snd (get_settings db)).
Proof.
  unfold get_settings. cbn [settings set_loans].
  destruct (settings db) as [row|]; [|reflexivity].
  cbn zeta. by destruct (_ || _).
Qed.

Lemma get_settings_set_books (b : gmap Z Book) (db : DB) :
  get_settings (set_books b db)
  = (set_books b (fst (get_settings db)), snd (get_settings db)).
Proof.
  unfold get_settings. cbn [settings set_books].
  destruct (settings db) as [row|]; [|reflexivity].
  cbn zeta. by destruct (_ || _).
Qed.

Lemma get_settings_after_reserve (l : gmap Z Loan) (b : gmap Z Book) (db : DB) :
  let db1 := set_loans l (set_books b (fst (get_settings db))) in
  get_settings db1 = (db1, snd (get_settings db)).
Proof.
  cbn zeta. rewrite get_settings_set_loans, get_settings_set_books, get_settings_idem.
  reflexivity.
Qed.

Lemma give_take_copy (book : Book) :
  available_copies (give_copy (take_copy book)) = available_copies book.
Proof. cbn. lia. Qed.

(** Reserve, then a pickup attempt after the deadline: the attempt fails,
    the loan is EXPIRED and the book has the copies it had before the
    reservation. *)
Lemma reserve_then_expired_pickup (db : DB) (t0 t1 uid bid : Z) (book : Book) (user : User) :
  books db !! bid = Some book ->
  available_copies book > 0 ->
  users db !! uid = Some user ->
  is_banned user = false ->
  recent_cancel t0 uid bid db = false ->
  t1 > t0 + Datetime.timedelta_days (pickup_window_days (snd (get_settings db))) ->
  exists db1 lid loan db2,
    reserve_book t0 uid (LoanCreate.mk bid) db = (db1, Ok (lid, loan))
    /\ confirm_pickup t1 lid db1 = (db2, Raise (HTTPException 400 "Reservation has expired"))
    /\ status <$> loans db2 !! lid = Some EXPIRED
    /\ available_copies <$> books db2 !! bid = Some (available_copies book).
Proof.
  intros Hb Hav Hu Hban Hrc Hlate.
  pose proof (reserve_book_ok db t0 uid bid book user Hb Hav Hu Hban Hrc) as Hres.
  cbn zeta in Hres. rewrite Hres.
  set (loan := mkLoan _ _ _ _ _ _ _ _ _ _) in *.
  set (db1 := set_loans _ _) in *.
  edestruct (confirm_pickup_late db1 t1 (next_id (loans db)) loan) as (db2 & Hcp & Hl2 & Hb2 & _);
    [by apply lookup_insert_eq | done | done | exact Hlate | by apply lookup_insert_eq |].
  exists db1, (next_id (loans db)), loan, db2.
  split; [done|]. split; [exact Hcp|].
  rewrite Hl2. cbn [book_id loan] in Hb2. rewrite Hb2. split; [done|].
  cbn. f_equal. lia.
Qed.

(** C3: confirming the pickup of a RESERVED loan whose deadline has passed
    raises the error "Reservation has expired" and, in the same call, marks
    the loan EXPIRED and gives the held copy back to the book, whose
    available copies go up by one; no other loan and no other book changes. *)
Theorem confirm_pickup_expired (db : DB) (now lid : Z) (loan : Loan) (d : Z) (book : Book) :
  loans db !! lid = Some loan ->
  status loan = RESERVED ->
  pickup_deadline loan = Some d ->
  now > d ->
  books db !! book_id loan = Some book ->
  exists db' loan' book',
    confirm_pickup now lid db = (db', Raise (HTTPException 400 "Reservation has expired"))
    /\ loans db' !! lid = Some loan' /\ status loan' = EXPIRED
    /\ books db' !! book_id loan = Some book'
    /\ available_copies book' = available_copies book + 1
    /\ is_available book' = (available_copies book' >? 0)
    /\ (forall lid', lid' <> lid -> loans db' !! lid' = loans db !! lid')
    /\ (forall bid', bid' <> book_id loan -> books db' !! bid' = books db !! bid').
Proof.
  intros Hl Hst Hd Hlate Hb.
  destruct (confirm_pickup_late db now lid loan d book Hl Hst Hd Hlate Hb)
    as (db' & Hcp & Hl' & Hb' & Hav & Hol & Hob).
  exists db', (set_status EXPIRED loan), (give_copy book). done.
Qed.

(** ** The regular lifecycle *)

(** C5: for a book with a copy left and a user who may reserve it, a
    reservation, a pickup no later than the pickup deadline and a return no
    later than the due date all succeed; the returned loan has no fine and the
    status RETURNED, and the book has as many available copies as before the
    reservation. *)
Theorem reserve_pickup_return_on_time
    (db : DB) (t0 t1 t2 uid bid : Z) (book : Book) (user : User) :
  books db !! bid = Some book ->
  available_copies book > 0 ->
  users db !! uid = Some user ->
  is_banned user = false ->
  recent_cancel t0 uid bid db = false ->
  let s := snd (get_settings db) in
  let deadline := t0 + Datetime.timedelta_days (pickup_window_days s) in
  let due := t1 + Datetime.timedelta_days (standard_loan_days s) in
  t1 <= deadline ->
  t2 <= due ->
  exists db1 lid l1 db2 l2 db3 l3 book3,
    reserve_book t0 uid (LoanCreate.mk bid) db = (db1, Ok (lid, l1))
    /\ status l1 = RESERVED /\ pickup_deadline l1 = Some deadline
    /\ confirm_pickup t1 lid db1 = (db2, Ok l2)
    /\ status l2 = ACTIVE /\ due_date l2 = Some due
    /\ return_book t2 lid db2 = (db3, Ok l3)
    /\ loans db3 !! lid = Some l3
    /\ status l3 = RETURNED
    /\ fine_amount l3 = 0%float
    /\ books db3 !! bid = Some book3
    /\ available_copies book3 = available_copies book.
Proof.
  intros Hb Hav Hu Hban Hrc s deadline due Ht1 Ht2.
  pose proof (reserve_book_ok db t0 uid bid book user Hb Hav Hu Hban Hrc) as Hres.
  cbn zeta in Hres. fold s in Hres. fold deadline in Hres.
  set (lid := next_id (loans db)) in *.
  set (l1 := mkLoan _ _ _ _ _ _ _ _ _ _) in *.
  set (db1 := set_loans _ _) in *.
  assert (get_settings db1 = (db1, s)) as Hgs1 by apply get_settings_after_reserve.
  assert (loans db1 !! lid = Some l1) as Hl1 by apply lookup_insert_eq.
  pose proof (confirm_pickup_ok db1 t1 lid l1 Hl1 eq_refl Ht1) as Hcp.
  cbn zeta in Hcp. rewrite Hgs1 in Hcp. cbn [fst snd] in Hcp. fold due in Hcp.
  set (l2 := set_due_date _ _) in *.
  set (db2 := set_loans _ db1) in *.
  assert (loans db2 !! lid = Some l2) as Hl2 by apply lookup_insert_eq.
  pose proof (return_book_on_time db2 t2 lid l2 Hl2 (or_introl eq_refl) Ht2) as Hrb.
  cbn zeta in Hrb.
  assert (books db2 !! book_id l2 = Some (take_copy book)) as Hb2 by apply lookup_insert_eq.
  rewrite Hb2 in Hrb.
  set (l3 := set_returned_at _ _) in *.
  eexists db1, lid, l1, db2, l2, _, l3, (give_copy (take_copy book)).
  split; [exact Hres|]. split; [done|]. split; [done|].
  split; [exact Hcp|]. split; [done|]. split; [done|].
  split; [exact Hrb|].
  split; [cbn; by rewrite lookup_insert_eq|].
  split; [done|]. split; [done|].
  split; [cbn; by rewrite lookup_insert_eq|].
  apply give_take_copy.
Qed.

(** ** Cancellations and the waiting period *)

Lemma recent_cancel_spec (now uid bid : Z) (db : DB) :
  recent_cancel now uid bid db = true
  <-> cancelled_since (now - Datetime.timedelta_days 1) uid bid db.
Proof.
  unfold recent_cancel, cancelled_since. rewrite existsb_exists. split.
  - intros ([lid loan] & Hin & Hp). cbn [snd] in Hp.
    apply list_elem_of_In, elem_of_map_to_list in Hin.
    repeat (apply andb_prop in Hp as [Hp ?]).
    destruct (canceled_at loan) as [c|] eqn:Hc; [|done].
    exists lid, loan, c. rewrite <- LoanStatus_eqb_eq. repeat split; try done; lia.
  - intros (lid & loan & c & Hl & Hu & Hb & Hs & Hc & Hgt).
    exists (lid, loan). split.
    + by apply list_elem_of_In, elem_of_map_to_list.
    + cbn [snd]. rewrite Hc, Hs. cbn [LoanStatus_eqb].
      repeat (apply andb_true_intro; split); try done; lia.
Qed.

Lemma recent_cancel_false (now uid bid : Z) (db : DB) :
  (forall lid loan c,
      loans db !! lid = Some loan -> user_id loan = uid -> book_id loan = bid ->
      status loan = CANCELLED -> canceled_at loan = Some c ->
      c <= now - Datetime.timedelta_days 1) ->
  recent_cancel now uid bid db = false.
Proof.
  intros Hold. apply not_true_is_false. rewrite recent_cancel_spec.
  intros (lid & loan & c & Hl & Hu & Hb & Hs & Hc & Hgt).
  specialize (Hold lid loan c Hl Hu Hb Hs Hc). lia.
Qed.

Lemma cancel_reservation_ok (db : DB) (now lid : Z) (loan : Loan) :
  loans db !! lid = Some loan ->
  status loan = RESERVED ->
  let loan' := set_canceled_at (Some now) (set_status CANCELLED loan) in
  let db1 := set_loans (<[lid := loan']> (loans db)) db in
  cancel_reservation now (user_id loan) lid db
  = (match books db !! book_id loan with
     | Some book => set_books (<[book_id loan := give_copy book]> (books db)) db1
     | None => db1
     end, Ok loan').
Proof.
  intros Hl Hst loan' db1. subst loan' db1.
  unfold cancel_reservation. rewrite Hl, Hst, Z.eqb_refl. reflexivity.
Qed.

(** A reservation never goes through while a cancellation of the same user
    for the same book is less than a day old. *)
Lemma reserve_book_recent_cancel (db : DB) (now uid bid : Z) :
  recent_cancel now uid bid db = true ->
  exists e, reserve_book now uid (LoanCreate.mk bid) db = (db, Raise e).
Proof.
  intros Hrc. unfold reserve_book. cbn [LoanCreate.book_id].
  destruct (books db !! bid) as [book|]; [|by eexists].
  destruct (available_copies book <=? 0); [by eexists|].
  destruct (users db !! uid) as [user|]; [|by eexists].
  destruct (is_banned user); [by eexists|].
  rewrite Hrc. by eexists.
Qed.

(** C6: while a CANCELLED reservation of the user for the book has a
    cancellation time within the last 24 hours, [reserve_book] fails, and
    with the other guards holding it fails with the 400 error of the waiting
    period and changes nothing; when every such cancellation is at least 24
    hours old and the other guards hold, it succeeds; and
    [cancel_reservation] by the owner of a RESERVED loan sets the status
    CANCELLED and [canceled_at] to the time of the call and gives the copy
    back to the book. *)
Theorem reserve_after_cancellation (db : DB) (now uid bid : Z) :
  (cancelled_since (now - Datetime.timedelta_days 1) uid bid db ->
   (exists e, reserve_book now uid (LoanCreate.mk bid) db = (db, Raise e))
   /\ forall book user,
       books db !! bid = Some book -> available_copies book > 0 ->
       users db !! uid = Some user -> is_banned user = false ->
       reserve_book now uid (LoanCreate.mk bid) db
       = (db, Raise (HTTPException 400
                       "You must wait 24 hours before reserving this book again")))
  /\ ((forall lid loan c,
          loans db !! lid = Some loan -> user_id loan = uid -> book_id loan = bid ->
          status loan = CANCELLED -> canceled_at loan = Some c ->
          c <= now - Datetime.timedelta_days 1) ->
      forall book user,
        books db !! bid = Some book -> available_copies book > 0 ->
        users db !! uid = Some user -> is_banned user = false ->
        exists db' lid loan,
          reserve_book now uid (LoanCreate.mk bid) db = (db', Ok (lid, loan))
          /\ loans db' !! lid = Some loan
          /\ status loan = RESERVED /\ user_id loan = uid /\ book_id loan = bid
          /\ books db' !! bid = Some (take_copy book))
  /\ (forall lid loan book,
        loans db !! lid = Some loan -> user_id loan = uid -> book_id loan = bid ->
        status loan = RESERVED -> books db !! bid = Some book ->
        exists db' loan',
          cancel_reservation now uid lid db = (db', Ok loan')
          /\ loans db' !! lid = Some loan'
          /\ status loan' = CANCELLED /\ canceled_at loan' = Some now
          /\ books db' !! bid = Some (give_copy book)
          /\ available_copies (give_copy book) = available_copies book + 1
          /\ forall t, t - Datetime.timedelta_days 1 < now ->
                       cancelled_since (t - Datetime.timedelta_days 1) uid bid db').
Proof.
  split; [|split].
  - intros Hrc. apply recent_cancel_spec in Hrc. split.
    + by apply reserve_book_recent_cancel.
    + intros book user Hb Hav Hu Hban.
      unfold reserve_book. cbn [LoanCreate.book_id]. rewrite Hb.
      assert ((available_copies book <=? 0) = false) as -> by lia.
      by rewrite Hu, Hban, Hrc.
  - intros Hold book user Hb Hav Hu Hban.
    apply recent_cancel_false in Hold.
    pose proof (reserve_book_ok db now uid bid book user Hb Hav Hu Hban Hold) as Hres.
    cbn zeta in Hres. rewrite Hres.
    eexists _, _, _. split; [reflexivity|].
    cbn. rewrite !lookup_insert_eq. done.
  - intros lid loan book Hl <- <- Hst Hb.
    pose proof (cancel_reservation_ok db now lid loan Hl Hst) as Hc.
    cbn zeta in Hc. rewrite Hb in Hc. rewrite Hc.
    eexists _, _. split; [reflexivity|].
    cbn. rewrite !lookup_insert_eq. repeat split; try done.
    intros t Ht.
    exists lid, (set_canceled_at (Some now) (set_status CANCELLED loan)), now.
    cbn. rewrite lookup_insert_eq. repeat split; try done. lia.
Qed.

(** ** Calls from a wrong state *)

(** C8 (as the code has it): on a loan whose status is not a source state
    of the operation, [confirm_pickup] and [return_book], and
    [cancel_reservation] called by the owner of the loan, raise a 400 error
    whose fixed detail names the status the operation requires, and leave
    every table as it was; [cancel_reservation] called by another user raises
    403 whatever the status, and changes nothing either. *)
Theorem invalid_state_rejected (db : DB) (now lid : Z) (loan : Loan) :
  loans db !! lid = Some loan ->
  (status loan <> RESERVED ->
   confirm_pickup now lid db
   = (db, Raise (HTTPException 400 "Only reserved loans can be picked up")))
  /\ (status loan <> ACTIVE -> status loan <> OVERDUE ->
      return_book now lid db
      = (db, Raise (HTTPException 400 "Only active loans can be returned")))
  /\ (status loan <> RESERVED ->
      cancel_reservation now (user_id loan) lid db
      = (db, Raise (HTTPException 400 "Only reserved loans can be cancelled")))
  /\ (forall uid, uid <> user_id loan ->
      cancel_reservation now uid lid db
      = (db, Raise (HTTPException 403 "You can only cancel your own reservations"))).
Proof.
  intros Hl. repeat split.
  - intros Hst. unfold confirm_pickup. rewrite Hl. by destruct (status loan).
  - intros Ha Ho. unfold return_book. rewrite Hl. by destruct (status loan).
  - intros Hst. unfold cancel_reservation. rewrite Hl, Z.eqb_refl. by destruct (status loan).
  - intros uid Hne. unfold cancel_reservation. rewrite Hl.
    assert ((user_id loan =? uid) = false) as -> by lia. done.
Qed.

(** ** The overdue sweep *)

Lemma DB_ext (a b : DB) :
  books a = books b -> loans a = loans b -> users a = users b -> settings a = settings b ->
  a = b.
Proof. destruct a, b. cbn. by intros -> -> -> ->. Qed.

Section Sweep.
Variable now : Z.

Lemma overdue_now_due loan :
  overdue_now now loan = true -> exists due, due_date loan = Some due /\ (now >? due) = true.
Proof.
  unfold overdue_now. intros [_ H]%andb_prop.
  destruct (due_date loan) as [due|]; [by exists due|done].
Qed.

Lemma sweep_loan_overdue rate loan due :
  overdue_now now loan = true -> due_date loan = Some due ->
  sweep_loan now rate loan
  = set_fine_amount
      (PrimFloat.mul (float_of_int (Z.max 1 (Datetime.date now - Datetime.date due))) rate)
      (set_status OVERDUE loan).
Proof. unfold sweep_loan. by intros -> ->. Qed.

Lemma sweep_loan_not_overdue rate loan :
  overdue_now now loan = false -> sweep_loan now rate loan = loan.
Proof. unfold sweep_loan. intros ->. by destruct (due_date loan). Qed.

Lemma overdue_now_sweep rate loan :
  overdue_now now (sweep_loan now rate loan) = overdue_now now loan.
Proof.
  destruct (overdue_now now loan) eqn:Ho;
    [|by rewrite (sweep_loan_not_overdue rate loan Ho)].
  destruct (overdue_now_due loan Ho) as (due & Hd & Hlate).
  rewrite (sweep_loan_overdue rate loan due Ho Hd).
  unfold overdue_now. cbn. by rewrite Hd, Hlate.
Qed.

Lemma sweep_loan_idem rate loan :
  sweep_loan now rate (sweep_loan now rate loan) = sweep_loan now rate loan.
Proof.
  destruct (overdue_now now loan) eqn:Ho;
    [|by rewrite !(sweep_loan_not_overdue rate loan Ho)].
  destruct (overdue_now_due loan Ho) as (due & Hd & Hlate).
  rewrite (sweep_loan_overdue rate _ due);
    [| by rewrite overdue_now_sweep | by rewrite (sweep_loan_overdue rate loan due Ho Hd)].
  by rewrite (sweep_loan_overdue rate loan due Ho Hd).
Qed.

Lemma _mark_overdue_loop_spec (ids : list Z) :
  forall (cache : option SystemSettings) (db : DB),
    cache_ok cache db ->
    let r := _mark_overdue_loop now ids cache db in
    let rate := daily_fine_amount (snd (get_settings db)) in
    books r = books db /\ users r = users db
    /\ (forall lid, loans r !! lid
                    = if bool_decide (lid ∈ ids)
                      then sweep_loan now rate <$> loans db !! lid
                      else loans db !! lid)
    /\ settings r = match cache with
                    | Some _ => settings db
                    | None => if any_overdue now ids db
                              then Some (stored (snd (get_settings db)))
                              else settings db
                    end.
Proof.
  induction ids as [|i ids IH]; intros cache db Hc.
  { cbn. repeat split; by destruct cache. }
  cbn zeta. cbn [_mark_overdue_loop any_overdue existsb].
  assert (forall lid, lid <> i ->
            bool_decide (lid ∈ i :: ids) = bool_decide (lid ∈ ids)) as Hmem.
  { intros lid Hne. apply bool_decide_ext. rewrite elem_of_cons. tauto. }
  (* a loan that the loop passes over *)
  assert (match loans db !! i with
          | Some loan => overdue_now now loan = false
          | None => True
          end ->
          let r := _mark_overdue_loop now ids cache db in
          books r = books db /\ users r = users db
          /\ (forall lid, loans r !! lid
                = if bool_decide (lid ∈ i :: ids)
                  then sweep_loan now (daily_fine_amount (snd (get_settings db)))
                         <$> loans db !! lid
                  else loans db !! lid)
          /\ settings r = match cache with
                          | Some _ => settings db
                          | None =>
                              if match loans db !! i with
                                 | Some loan => overdue_now now loan
                                 | None => false
                                 end || any_overdue now ids db
                              then Some (stored (snd (get_settings db)))
                              else settings db
                          end) as Hskip.
  { intros Hno. destruct (IH cache db Hc) as (Hb & Hu & Hl & Hs).
    cbn zeta. split; [done|]. split; [done|]. split.
    - intros lid. rewrite Hl. destruct (decide (lid = i)) as [->|Hne].
      + rewrite (bool_decide_eq_true_2 (i ∈ i :: ids)) by apply list_elem_of_here.
        destruct (loans db !! i) as [loan|] eqn:Hli; cbn.
        * rewrite sweep_loan_not_overdue by done. by case_bool_decide.
        * by case_bool_decide.
      + by rewrite Hmem.
    - rewrite Hs. destruct (loans db !! i) as [loan|]; [by rewrite Hno|done]. }
  destruct (loans db !! i) as [loan|] eqn:Hli; [|by apply Hskip].
  destruct (due_date loan) as [due|] eqn:Hdue;
    [|apply Hskip; unfold overdue_now; rewrite Hdue; apply andb_false_r].
  destruct ((LoanStatus_eqb (status loan) ACTIVE || LoanStatus_eqb (status loan) OVERDUE)
            && (now >? due)) eqn:Hov;
    [|apply Hskip; unfold overdue_now; by rewrite Hdue].
  assert (overdue_now now loan = true) as Hov' by (unfold overdue_now; by rewrite Hdue).
  apply andb_prop in Hov as [Hst Hlate].
  destruct (days_late_rule now due ltac:(lia)) as [Hmax Hpos].
  rewrite Hpos, Hmax.
  (* the settings row the loop works with *)
  set (gs := match cache with Some s => (db, s) | None => get_settings db end).
  assert (gs.2 = snd (get_settings db) /\ get_settings gs.1 = (gs.1, gs.2)
          /\ books gs.1 = books db /\ loans gs.1 = loans db /\ users gs.1 = users db
          /\ settings gs.1 = match cache with
                             | Some _ => settings db
                             | None => Some (stored (snd (get_settings db)))
                             end) as (Hg2 & Hgid & Hgb & Hgl & Hgu & Hgs).
  { subst gs. destruct cache as [s|]; cbn in *.
    - rewrite Hc. done.
    - rewrite get_settings_idem, get_settings_books, get_settings_loans,
        get_settings_users, get_settings_stored. done. }
  destruct gs as [db1 s] eqn:Hgs'. cbn [fst snd] in *. subst s.
  set (loan' := set_fine_amount _ _).
  assert (loan' = sweep_loan now (daily_fine_amount (snd (get_settings db))) loan) as Hloan'.
  { unfold sweep_loan. by rewrite Hdue, Hov'. }
  set (db2 := set_loans _ db1).
  assert (get_settings db2 = (db2, snd (get_settings db))) as Hgs2.
  { subst db2. rewrite get_settings_set_loans, Hgid. done. }
  destruct (IH (Some (snd (get_settings db))) db2 Hgs2) as (Hb & Hu & Hl & Hs).
  rewrite Hgs2 in Hl. cbn [snd] in Hl.
  split; [by rewrite Hb|]. split; [by rewrite Hu|]. split.
  - intros lid. rewrite Hl. subst db2. cbn [loans set_loans]. rewrite Hgl.
    destruct (decide (lid = i)) as [->|Hne].
    + rewrite (bool_decide_eq_true_2 (i ∈ i :: ids)) by apply list_elem_of_here.
      rewrite lookup_insert_eq, Hli, Hloan'. cbn.
      case_bool_decide; [by rewrite sweep_loan_idem|done].
    + rewrite lookup_insert_ne by done. by rewrite Hmem.
  - rewrite Hs. subst db2. cbn [settings set_loans]. rewrite Hgs, Hov'.
    by destruct cache.
Qed.

End Sweep.

Lemma existsb_ext_in {A} (f g : A -> bool) (l : list A) :
  (forall x, x ∈ l -> f x = g x) -> existsb f l = existsb g l.
Proof.
  induction l as [|a l IH]; intros H; [done|].
  cbn. rewrite H by apply list_elem_of_here.
  rewrite IH; [done|]. intros x Hx. apply H. by apply list_elem_of_further.
Qed.

Lemma any_overdue_true (now : Z) (ids : list Z) (db : DB) (lid : Z) (loan : Loan) :
  lid ∈ ids -> loans db !! lid = Some loan -> overdue_now now loan = true ->
  any_overdue now ids db = true.
Proof.
  intros Hin Hl Ho. unfold any_overdue. apply existsb_exists.
  exists lid. split; [by apply list_elem_of_In|]. by rewrite Hl.
Qed.

(** C9: the sweep is idempotent at a fixed time, on the whole store; it
    leaves books and users alone, and on the loans it is handed it is the
    sweep of the specification, at the rate [get_settings] reports: ACTIVE
    and OVERDUE loans past their due instant become OVERDUE with the fine of
    the day-rounding rule, and no other loan changes. *)
Theorem mark_overdue_idempotent (now : Z) (ids : list Z) (db : DB) :
  let swept := _mark_overdue now ids db in
  let rate := daily_fine_amount (snd (get_settings db)) in
  _mark_overdue now ids swept = swept
  /\ books swept = books db
  /\ users swept = users db
  /\ forall lid,
       loans swept !! lid
       = if bool_decide (lid ∈ ids)
         then sweep_loan now rate <$> loans db !! lid
         else loans db !! lid.
Proof.
  cbn zeta. unfold _mark_overdue.
  destruct (_mark_overdue_loop_spec now ids None db I) as (Hb & Hu & Hl & Hs).
  set (r := _mark_overdue_loop now ids None db) in *.
  destruct (_mark_overdue_loop_spec now ids None r I) as (Hb2 & Hu2 & Hl2 & Hs2).
  split; [|done].
  (* the sweep meets a due loan in the swept store iff it did before *)
  assert (any_overdue now ids r = any_overdue now ids db) as Hany.
  { unfold any_overdue. apply existsb_ext_in. intros lid Hin.
    rewrite Hl, bool_decide_eq_true_2 by done.
    destruct (loans db !! lid) as [loan|]; [|done]. cbn. apply overdue_now_sweep. }
  (* and then it reads the same settings row *)
  assert (any_overdue now ids db = true -> get_settings r = (r, snd (get_settings db)))
    as Hgs.
  { intros Ha. rewrite Ha in Hs. apply get_settings_stable; [done|].
    apply get_settings_rate. }
  apply DB_ext; [done|apply map_eq; intros lid|done|].
  - rewrite Hl2, Hl. case_bool_decide as Hin; [|done].
    destruct (loans db !! lid) as [loan|] eqn:Hlid; [|done]. cbn. f_equal.
    destruct (overdue_now now loan) eqn:Ho.
    + rewrite Hgs by eauto using any_overdue_true. apply sweep_loan_idem.
    + by rewrite !(sweep_loan_not_overdue now _ loan Ho).
  - rewrite Hs2, Hany. destruct (any_overdue now ids db) eqn:Ha; [|done].
    rewrite Hgs by done. by rewrite Hs.
Qed.

(** ** Settings updates *)

Lemma _recalculate_overdue_fines_spec (now : Z) (s : SystemSettings) (db : DB) :
  books (_recalculate_overdue_fines now s db) = books db
  /\ users (_recalculate_overdue_fines now s db) = users db
  /\ settings (_recalculate_overdue_fines now s db) = settings db
  /\ forall lid,
       loans (_recalculate_overdue_fines now s db) !! lid
       = sweep_loan now (daily_fine_amount s) <$> loans db !! lid.
Proof.
  repeat split. intros lid. unfold _recalculate_overdue_fines. cbn [loans set_loans].
  rewrite lookup_fmap. destruct (loans db !! lid) as [loan|]; [|done]. cbn. f_equal.
  unfold sweep_loan, overdue_now. destruct (due_date loan) as [due|]; [|by rewrite andb_false_r].
  rewrite (Z.gtb_ltb now due).
  destruct (LoanStatus_eqb (status loan) ACTIVE || LoanStatus_eqb (status loan) OVERDUE);
    [|done].
  cbn [andb]. destruct (Z.ltb_spec due now) as [Hlt|]; [|done].
  destruct (days_late_rule now due Hlt) as [Hmax Hpos]. rewrite Hpos, Hmax.
  by destruct loan.
Qed.

Lemma update_settings_spec (now : Z) (updates : SettingsUpdate.t) (db : DB) :
  let s := mkSettings (SettingsUpdate.pickup_window_days updates)
                      (SettingsUpdate.standard_loan_days updates)
                      (SettingsUpdate.daily_fine_amount updates) in
  let db' := fst (update_settings now updates db) in
  snd (update_settings now updates db) = s
  /\ settings db' = Some (stored s)
  /\ books db' = books db
  /\ users db' = users db
  /\ forall lid, loans db' !! lid
                 = sweep_loan now (SettingsUpdate.daily_fine_amount updates)
                     <$> loans db !! lid.
Proof.
  cbn zeta. unfold update_settings.
  destruct (get_settings db) as [db1 s0] eqn:Hgs.
  destruct (get_settings_frame _ _ _ Hgs) as (Hb & Hl & Hu & _).
  cbn [fst snd].
  match goal with |- context [_recalculate_overdue_fines now ?s ?d] =>
    destruct (_recalculate_overdue_fines_spec now s d) as (Hb' & Hu' & Hs' & Hl')
  end.
  rewrite Hs', Hb', Hu'. cbn [settings books users set_settings].
  repeat split; try done.
  intros lid. rewrite Hl'. cbn [loans set_settings daily_fine_amount]. by rewrite Hl.
Qed.

(** C4: [update_settings] reprices at once, with the rate of the update:
    every loan that is ACTIVE or OVERDUE and past its due instant is, in the
    store the call leaves, OVERDUE with the fine of
    [max 1 (now.date() - due.date())] days at the new rate, the rule of
    [return_book]; no return is involved. *)
Theorem update_settings_reprices
    (db : DB) (now : Z) (updates : SettingsUpdate.t) (lid : Z) (loan : Loan) (due : Z) :
  loans db !! lid = Some loan ->
  status loan = ACTIVE \/ status loan = OVERDUE ->
  due_date loan = Some due ->
  due < now ->
  let rate := SettingsUpdate.daily_fine_amount updates in
  let db' := fst (update_settings now updates db) in
  exists loan',
    loans db' !! lid = Some loan'
    /\ status loan' = OVERDUE
    /\ fine_amount loan'
       = PrimFloat.mul (float_of_int (Z.max 1 (Datetime.date now - Datetime.date due))) rate
    /\ loan' = set_fine_amount (fine_amount loan') (set_status OVERDUE loan)
    /\ daily_fine_amount (snd (update_settings now updates db)) = rate.
Proof.
  intros Hl Hst Hdue Hlt rate db'.
  destruct (update_settings_spec now updates db) as (Hret & _ & _ & _ & Hloans).
  subst db'. rewrite Hloans, Hl, Hret. cbn [fmap option_fmap option_map].
  assert (overdue_now now loan = true) as Ho.
  { unfold overdue_now. rewrite Hdue.
    assert ((now >? due) = true) as -> by lia.
    destruct Hst as [-> | ->]; done. }
  rewrite (sweep_loan_overdue now _ loan due Ho Hdue).
  eexists. split; [reflexivity|]. done.
Qed.

(** ** The coerced rates *)

(** A stored rate equal to 0.0 or to 0.5 is replaced by 0.1 on the next read,
    and the replacement is stored. *)
Lemma get_settings_coerces (db : DB) (row : SystemSettingsRow) :
  settings db = Some row ->
  in_None_0_05 (row_daily_fine_amount row) = true ->
  let s := mkSettings (default 2 (row_pickup_window_days row))
                      (default 30 (row_standard_loan_days row)) 0.1 in
  get_settings db = (set_settings (Some (stored s)) db, s).
Proof. intros Hs Hr. unfold get_settings. by rewrite Hs, Hr, orb_true_r. Qed.

(** C10 (as the code has it): [get_settings] replaces a stored rate of 0.0
    or 0.5 by 0.1 and stores the replacement.  An update that sets the daily
    fine to 0.0, with the two periods in their ranges, passes validation and
    is stored, and the repricing pass of that same call charges the overdue
    loans at 0.0; the next [get_settings] replaces the stored rate by 0.1,
    so every later return and every later sweep charges 0.1 a day. *)
Theorem zero_rate_lost_on_next_read (db : DB) (now : Z) (updates : SettingsUpdate.t) :
  (forall db0 row v,
      settings db0 = Some row -> row_daily_fine_amount row = Some v ->
      v = 0.0%float \/ v = 0.5%float ->
      daily_fine_amount (snd (get_settings db0)) = 0.1%float
      /\ row_daily_fine_amount <$> settings (fst (get_settings db0)) = Some (Some 0.1%float))
  /\ (SettingsUpdate.daily_fine_amount updates = 0.0%float ->
      1 <= SettingsUpdate.pickup_window_days updates <= 14 ->
      1 <= SettingsUpdate.standard_loan_days updates <= 120 ->
      let db1 := fst (update_settings now updates db) in
      let s := mkSettings (SettingsUpdate.pickup_window_days updates)
                          (SettingsUpdate.standard_loan_days updates) 0.0 in
      SettingsUpdate.valid updates = true
      /\ settings db1 = Some (stored s)
      /\ (forall lid, loans db1 !! lid = sweep_loan now 0.0 <$> loans db !! lid)
      /\ get_settings db1
         = (set_settings (Some (stored (set_daily_fine_amount 0.1 s))) db1,
            set_daily_fine_amount 0.1 s)
      /\ (forall t lid loan due,
            loans db1 !! lid = Some loan ->
            status loan = ACTIVE \/ status loan = OVERDUE ->
            due_date loan = Some due -> t > due ->
            exists db2 loan',
              return_book t lid db1 = (db2, Ok loan')
              /\ fine_amount loan'
                 = PrimFloat.mul
                     (float_of_int (Z.max 1 (Datetime.date t - Datetime.date due))) 0.1)
      /\ (forall t ids lid,
            loans (_mark_overdue t ids db1) !! lid
            = if bool_decide (lid ∈ ids)
              then sweep_loan t 0.1 <$> loans db1 !! lid
              else loans db1 !! lid)).
Proof.
  split.
  - intros db0 row v Hs Hv Hcoerced.
    assert (in_None_0_05 (row_daily_fine_amount row) = true) as Hin
      by (rewrite Hv; destruct Hcoerced as [-> | ->]; reflexivity).
    pose proof (get_settings_coerces db0 row Hs Hin) as Hgs. cbn zeta in Hgs.
    by rewrite Hgs.
  - intros Hzero Hpw Hsl db1 s.
    destruct (update_settings_spec now updates db) as (_ & Hs & _ & _ & Hl).
    rewrite Hzero in Hs, Hl. fold db1 in Hs, Hl. fold s in Hs.
    assert (get_settings db1
            = (set_settings (Some (stored (set_daily_fine_amount 0.1 s))) db1,
               set_daily_fine_amount 0.1 s)) as Hgs
      by (by apply (get_settings_coerces db1 (stored s))).
    split.
    { unfold SettingsUpdate.valid. rewrite Hzero.
      repeat (apply andb_true_intro; split); try lia; reflexivity. }
    split; [done|]. split; [done|]. split; [done|]. split.
    + intros t lid loan due Hlid Hst Hdue Hlate.
      destruct (return_book_late db1 t lid loan due Hlid Hst Hdue Hlate) as (db2 & Hret & _).
      rewrite Hgs in Hret. eexists db2, _. split; [exact Hret|]. done.
    + intros t ids lid.
      destruct (_mark_overdue_loop_spec t ids None db1 I) as (_ & _ & Hsw & _).
      unfold _mark_overdue. rewrite Hsw, Hgs. done.
Qed.

(** Reading the settings twice: the second read writes nothing and returns
    what the first returned, and the rate it returns is neither 0.0 nor 0.5. *)
Lemma get_settings_read_twice (db : DB) :
  let first := get_settings db in
  get_settings (fst first) = (fst first, snd first)
  /\ PrimFloat.eqb (daily_fine_amount (snd first)) 0.0 = false
  /\ PrimFloat.eqb (daily_fine_amount (snd first)) 0.5 = false.
Proof.
  cbn zeta. split; [apply get_settings_idem|].
  pose proof (get_settings_rate db) as Hr. cbn in Hr. by apply orb_false_elim in Hr.
Qed.

(** ** The copy counters in reachable stores *)

Lemma reachable_run (ops : list Op) :
  forall db, reachable db -> forallb valid_op ops = true -> reachable (run ops db).
Proof.
  induction ops as [|o ops IH]; intros db Hr Hv; [done|].
  cbn in Hv. apply andb_prop in Hv as [Ho Hv].
  cbn. apply IH; [|done]. by apply reachable_step.
Qed.

Lemma _mark_overdue_books (now : Z) (ids : list Z) (db : DB) :
  books (_mark_overdue now ids db) = books db.
Proof. by destruct (_mark_overdue_loop_spec now ids None db I) as (? & _). Qed.

Lemma give_copy_step (db db1 : DB) (bid : Z) :
  books db1 = books db ->
  books_step (books db)
    (books match books db1 !! bid with
           | Some book =>
               let book := set_available_copies (available_copies book + 1) book in
               let book := set_is_available (available_copies book >? 0) book in
               set_books (<[bid := book]> (books db1)) db1
           | None => db1
           end).
Proof.
  intros Hb. rewrite Hb. destruct (books db !! bid) as [book|] eqn:E.
  - cbn. by apply books_give.
  - rewrite Hb. apply books_same.
Qed.

(** The lifecycle calls touch the books by single copies only. *)
Lemma loan_op_books_step (o : Op) (db : DB) :
  loan_op o = true -> books_step (books db) (books (exec o db)).
Proof.
  destruct o; try discriminate; intros _; cbn [exec].
  - (* Reserve *)
    unfold reserve_book.
    destruct (books db !! _) as [book|] eqn:Hb; [|apply books_same].
    destruct (Z.leb_spec (available_copies book) 0); [apply books_same|].
    destruct (users db !! uid) as [user|]; [|apply books_same].
    destruct (is_banned user); [apply books_same|].
    destruct (recent_cancel _ _ _ _); [apply books_same|].
    destruct (get_settings db) as [db1 s] eqn:Hgs.
    destruct (get_settings_frame _ _ _ Hgs) as (Hbk & _).
    cbn. rewrite Hbk. apply books_take; [done|lia].
  - (* AssignLoan *)
    unfold assign_loan.
    destruct (users db !! uid) as [user|]; [|apply books_same].
    destruct (negb _); [apply books_same|].
    destruct (is_banned user); [apply books_same|].
    destruct (books db !! bid) as [book|] eqn:Hb; [|apply books_same].
    destruct (Z.leb_spec (available_copies book) 0); [apply books_same|].
    destruct (get_settings db) as [db1 s] eqn:Hgs.
    destruct (get_settings_frame _ _ _ Hgs) as (Hbk & _).
    cbn. rewrite Hbk. apply books_take; [done|lia].
  - (* ConfirmPickup *)
    unfold confirm_pickup.
    destruct (loans db !! lid) as [loan|]; [|apply books_same].
    destruct (negb _); [apply books_same|].
    destruct (match pickup_deadline loan with Some d => now >? d | None => false end).
    + cbn [fst]. by apply (give_copy_step db).
    + destruct (get_settings db) as [db1 s] eqn:Hgs.
      destruct (get_settings_frame _ _ _ Hgs) as (Hbk & _).
      cbn. rewrite Hbk. apply books_same.
  - (* ReturnBook *)
    unfold return_book.
    destruct (loans db !! lid) as [loan|]; [|apply books_same].
    destruct (negb _); [apply books_same|].
    match goal with
    | |- context [let '(db0, loan0) := ?e in _] =>
        assert (books (fst e) = books db /\ book_id (snd e) = book_id loan) as [Hb Hl];
        [|destruct e as [db1 loan1]]
    end.
    { destruct (due_date loan) as [due|]; [|done].
      destruct (now >? due); [|done].
      destruct (get_settings db) as [db1 s] eqn:Hgs.
      destruct (get_settings_frame _ _ _ Hgs) as (Hbk & _).
      by destruct (_ >? 0). }
    cbn [fst snd] in *. by apply (give_copy_step db).
  - (* CancelReservation *)
    unfold cancel_reservation.
    destruct (loans db !! lid) as [loan|]; [|apply books_same].
    destruct (negb _); [apply books_same|].
    destruct (negb _); [apply books_same|].
    cbn [fst]. by apply (give_copy_step db).
  - (* ListUserLoans *)
    unfold get_user_loans. cbn [fst]. rewrite _mark_overdue_books. apply books_same.
  - (* ListAllLoans *)
    unfold get_all_loans. cbn [fst]. rewrite _mark_overdue_books. apply books_same.
  - (* GetSettings *)
    rewrite get_settings_books. apply books_same.
  - (* UpdateSettings *)
    destruct (update_settings_spec now updates db) as (_ & _ & -> & _). apply books_same.
Qed.

Lemma books_step_counters (m m' : gmap Z Book) :
  books_step m m' ->
  map_Forall (fun _ b => counters_ok b) m -> map_Forall (fun _ b => counters_ok b) m'.
Proof.
  intros [|bid b Hb Hav|bid b Hb] Hm; [done| |];
    apply map_Forall_insert_2; try done;
    destruct (Hm bid b Hb) as [H0 H1]; unfold counters_ok; cbn; lia.
Qed.

Lemma books_step_flag (m m' : gmap Z Book) :
  books_step m m' ->
  map_Forall (fun _ b => flag_ok b) m -> map_Forall (fun _ b => flag_ok b) m'.
Proof. intros [|bid b Hb Hav|bid b Hb] Hm; [done| |]; by apply map_Forall_insert_2. Qed.

(** The lifecycle calls keep the flag derived from the counter. *)
Lemma loan_op_flag_ok (o : Op) (db : DB) :
  loan_op o = true ->
  map_Forall (fun _ b => flag_ok b) (books db) ->
  map_Forall (fun _ b => flag_ok b) (books (exec o db)).
Proof. intros Ho. apply books_step_flag. by apply loan_op_books_step. Qed.

Lemma create_book_counters (d : BookCreate.t) (db : DB) :
  BookCreate.valid d = true ->
  map_Forall (fun _ b => counters_ok b) (books db) ->
  map_Forall (fun _ b => counters_ok b) (books (fst (create_book d db))).
Proof.
  intros Hv Hm. unfold create_book.
  destruct (isbn_taken _ _ _); [done|]. cbn.
  apply map_Forall_insert_2; [|done].
  unfold BookCreate.valid in Hv. repeat (apply andb_prop in Hv as [Hv ?]).
  unfold counters_ok. cbn. lia.
Qed.

Lemma update_book_counters (bid : Z) (d : BookUpdate.t) (db : DB) :
  BookUpdate.valid d = true ->
  map_Forall (fun _ b => counters_ok b) (books db) ->
  map_Forall (fun _ b => counters_ok b) (books (fst (update_book bid d db))).
Proof.
  intros Hv Hm. unfold update_book.
  destruct (books db !! bid) as [book|] eqn:Hb; [|done].
  destruct (Hm bid book Hb) as [H0 H1].
  destruct (isbn_taken _ _ _); [done|]. cbn [fst books set_books].
  apply map_Forall_insert_2; [|done].
  unfold BookUpdate.valid in Hv. repeat (apply andb_prop in Hv as [Hv ?]).
  destruct d as [t a i ds tc ac]. cbn [BookUpdate.title BookUpdate.author BookUpdate.isbn
    BookUpdate.description BookUpdate.total_copies BookUpdate.available_copies] in *.
  unfold counters_ok.
  destruct t, a, i, ds, tc as [tc|], ac as [ac|]; cbn in *;
    repeat match goal with
           | |- context [?x >? ?y] => destruct (Z.gtb_spec x y); cbn
           end; lia.
Qed.

Lemma delete_book_counters (bid : Z) (db : DB) :
  map_Forall (fun _ b => counters_ok b) (books db) ->
  map_Forall (fun _ b => counters_ok b) (books (fst (delete_book bid db))).
Proof.
  intros Hm. unfold delete_book. destruct (books db !! bid); [|done].
  cbn. by apply map_Forall_delete.
Qed.

(** The lower bound of the counter, and the bound of the total, hold in
    every reachable store. *)
Lemma reachable_counters (db : DB) :
  reachable db -> map_Forall (fun _ b => counters_ok b) (books db).
Proof.
  induction 1 as [us|o db Hr IH Hv].
  - apply map_Forall_empty.
  - destruct (loan_op o) eqn:Hlo.
    + eapply books_step_counters; [by apply loan_op_books_step|done].
    + destruct o; try discriminate; cbn [exec valid_op] in *.
      * by apply create_book_counters.
      * by apply update_book_counters.
      * by apply delete_book_counters.
Qed.

(** C1 (where the code departs from it): with two copies, one of them
    reserved, the librarian reduces the title to one copy, which leaves one
    available copy of one; cancelling the reservation then gives a copy back
    and the book has two available copies of a total of one.  Every store on
    the way is reachable, and the lower bound [0 <= available_copies] holds
    throughout. *)
Theorem available_exceeds_total_after_shrink :
  let db := run ex_ops_shrink (initial_db ex_users) in
  reachable db
  /\ (exists book,
        books (run (take 3 ex_ops_shrink) (initial_db ex_users)) !! 1 = Some book
        /\ total_copies book = 1 /\ available_copies book = 1)
  /\ (exists book,
        books db !! 1 = Some book
        /\ total_copies book = 1 /\ available_copies book = 2
        /\ ~ (0 <= available_copies book <= total_copies book)).
Proof.
  cbn zeta. split; [|split].
  - apply reachable_run; [apply reachable_initial|reflexivity].
  - eexists. split; [vm_compute; reflexivity|]. done.
  - eexists. split; [vm_compute; reflexivity|]. cbn. repeat split; lia.
Qed.

(** C7 (where the code departs from it): a book created with no available
    copy is stored with [is_available = True], and an update that sets the
    available copies of a book to zero leaves the flag as it was; the
    lifecycle calls, in contrast, recompute the flag. *)
Theorem is_available_not_recomputed :
  BookCreate.valid ex_none_available = true
  /\ (let db := exec (CreateBook ex_none_available) (initial_db ex_users) in
      reachable db
      /\ exists book,
          snd (create_book ex_none_available (initial_db ex_users)) = Ok (1, book)
          /\ books db !! 1 = Some book
          /\ available_copies book = 0 /\ is_available book = true)
  /\ (exists book,
        books (fst (update_book 1 (BookUpdate.mk None None None None None (Some 0))
                      ex_db_book)) !! 1 = Some book
        /\ available_copies book = 0 /\ is_available book = true).
Proof.
  split; [reflexivity|]. split.
  - cbn zeta. split.
    + apply reachable_step; [apply reachable_initial|reflexivity].
    + eexists. split; [reflexivity|]. split; [vm_compute; reflexivity|]. done.
  - eexists. split; [vm_compute; reflexivity|]. done.
Qed.

(** ** Loans and their books *)

Lemma fk_same (db db' : DB) :
  books db' = books db -> loans db' = loans db ->
  loans_have_books db -> loans_have_books db'.
Proof. unfold loans_have_books. by intros -> ->. Qed.

Lemma fk_update_loan (db : DB) (lid : Z) (loan loan' : Loan) :
  loans db !! lid = Some loan -> book_id loan' = book_id loan ->
  loans_have_books db -> loans_have_books (set_loans (<[lid := loan']> (loans db)) db).
Proof.
  intros Hl Hb Hfk lid' l. cbn. destruct (decide (lid' = lid)) as [->|Hne].
  - rewrite lookup_insert_eq. intros [= <-]. rewrite Hb. by eapply Hfk.
  - rewrite lookup_insert_ne by done. apply Hfk.
Qed.

Lemma fk_set_book (db : DB) (bid : Z) (book : Book) :
  loans_have_books db -> loans_have_books (set_books (<[bid := book]> (books db)) db).
Proof.
  intros Hfk lid l Hl. cbn in *. destruct (decide (book_id l = bid)) as [->|Hne].
  - rewrite lookup_insert_eq. by eexists.
  - rewrite lookup_insert_ne by done. by eapply Hfk.
Qed.

Lemma fk_give_copy (db : DB) (bid : Z) :
  loans_have_books db ->
  loans_have_books
    match books db !! bid with
    | Some book =>
        let book := set_available_copies (available_copies book + 1) book in
        let book := set_is_available (available_copies book >? 0) book in
        set_books (<[bid := book]> (books db)) db
    | None => db
    end.
Proof. intros Hfk. destruct (books db !! bid); [by apply fk_set_book|done]. Qed.

Lemma fk_new_loan (db : DB) (lid bid : Z) (loan : Loan) (book : Book) :
  book_id loan = bid ->
  loans_have_books db ->
  loans_have_books
    (set_loans (<[lid := loan]> (loans db)) (set_books (<[bid := book]> (books db)) db)).
Proof.
  intros Hb Hfk lid' l. cbn. destruct (decide (lid' = lid)) as [->|Hne].
  - rewrite lookup_insert_eq. intros [= <-]. rewrite Hb, lookup_insert_eq. by eexists.
  - rewrite lookup_insert_ne by done. intros Hl.
    by apply (fk_set_book db bid book Hfk lid' l).
Qed.

Lemma fk_get_settings (db : DB) :
  loans_have_books db -> loans_have_books (fst (get_settings db)).
Proof. apply fk_same; [apply get_settings_books|apply get_settings_loans]. Qed.

Lemma book_id_sweep_loan now rate loan : book_id (sweep_loan now rate loan) = book_id loan.
Proof.
  unfold sweep_loan. destruct (due_date loan); [|done]. by destruct (overdue_now now loan).
Qed.

Lemma fk_pointwise (db db' : DB) (f : Z -> Loan -> Loan) :
  books db' = books db ->
  (forall lid, loans db' !! lid = f lid <$> loans db !! lid) ->
  (forall lid loan, book_id (f lid loan) = book_id loan) ->
  loans_have_books db -> loans_have_books db'.
Proof.
  intros Hb Hl Hf Hfk lid loan'. rewrite Hl, Hb.
  destruct (loans db !! lid) as [loan|] eqn:E; [|done].
  cbn. intros [= <-]. rewrite Hf. by eapply Hfk.
Qed.

Lemma fk_mark_overdue (now : Z) (ids : list Z) (db : DB) :
  loans_have_books db -> loans_have_books (_mark_overdue now ids db).
Proof.
  destruct (_mark_overdue_loop_spec now ids None db I) as (Hb & _ & Hl & _).
  apply (fk_pointwise db _
           (fun lid loan => if bool_decide (lid ∈ ids)
                            then sweep_loan now (daily_fine_amount (snd (get_settings db))) loan
                            else loan)); [done| |].
  - intros lid. unfold _mark_overdue. rewrite Hl.
    case_bool_decide; [done|]. by destruct (loans db !! lid).
  - intros lid loan. case_bool_decide; [apply book_id_sweep_loan|done].
Qed.

(** In every reachable store the book of every loan is in the catalog. *)
Lemma reachable_loans_have_books (db : DB) : reachable db -> loans_have_books db.
Proof.
  induction 1 as [us|o db Hr IH Hv].
  { intros lid loan Hl. cbn in Hl. by rewrite lookup_empty in Hl. }
  destruct o; cbn [exec].
  - (* CreateBook *)
    unfold create_book. destruct (isbn_taken _ _ _); [done|]. by apply fk_set_book.
  - (* UpdateBook *)
    unfold update_book. destruct (books db !! bid); [|done].
    destruct (isbn_taken _ _ _); [done|]. by apply fk_set_book.
  - (* DeleteBook *)
    unfold delete_book. destruct (books db !! bid) eqn:Hb; [|done].
    intros lid loan. cbn. rewrite map_lookup_filter_Some. cbn. intros [Hl Hne].
    rewrite lookup_delete_ne by done. by eapply IH.
  - (* Reserve *)
    unfold reserve_book.
    destruct (books db !! _) as [book|]; [|done].
    destruct (_ <=? 0); [done|].
    destruct (users db !! uid) as [user|]; [|done].
    destruct (is_banned user); [done|].
    destruct (recent_cancel _ _ _ _); [done|].
    pose proof (fk_get_settings db IH) as Hfk.
    destruct (get_settings db) as [db1 s]. by apply fk_new_loan.
  - (* AssignLoan *)
    unfold assign_loan.
    destruct (users db !! uid) as [user|]; [|done].
    destruct (negb _); [done|].
    destruct (is_banned user); [done|].
    destruct (books db !! bid) as [book|]; [|done].
    destruct (_ <=? 0); [done|].
    pose proof (fk_get_settings db IH) as Hfk.
    destruct (get_settings db) as [db1 s]. by apply fk_new_loan.
  - (* ConfirmPickup *)
    unfold confirm_pickup.
    destruct (loans db !! lid) as [loan|] eqn:Hl; [|done].
    destruct (negb _); [done|].
    destruct (match pickup_deadline loan with Some d => now >? d | None => false end).
    + cbn [fst]. apply fk_give_copy. by eapply fk_update_loan.
    + pose proof (fk_get_settings db IH) as Hfk.
      pose proof (get_settings_loans db) as Hloans.
      destruct (get_settings db) as [db1 s]. cbn [fst] in *.
      eapply fk_update_loan; [by rewrite Hloans| |done]. done.
  - (* ReturnBook *)
    unfold return_book.
    destruct (loans db !! lid) as [loan|] eqn:Hl; [|done].
    destruct (negb _); [done|].
    match goal with
    | |- context [let '(db0, loan0) := ?e in _] =>
        assert (loans_have_books (fst e) /\ loans (fst e) = loans db
                /\ book_id (snd e) = book_id loan) as (Hfk & Hloans & Hb);
        [|destruct e as [db1 loan1]]
    end.
    { destruct (due_date loan) as [due|]; [|done].
      destruct (now >? due); [|done].
      pose proof (fk_get_settings db IH) as Hfk.
      pose proof (get_settings_loans db) as Hloans.
      destruct (get_settings db) as [db1 s]. by destruct (_ >? 0). }
    cbn [fst snd] in *. apply fk_give_copy.
    eapply fk_update_loan; [by rewrite Hloans| |done]. done.
  - (* CancelReservation *)
    unfold cancel_reservation.
    destruct (loans db !! lid) as [loan|] eqn:Hl; [|done].
    destruct (negb _); [done|].
    destruct (negb _); [done|].
    cbn [fst]. apply fk_give_copy. by eapply fk_update_loan.
  - (* ListUserLoans *)
    unfold get_user_loans. cbn [fst]. by apply fk_mark_overdue.
  - (* ListAllLoans *)
    unfold get_all_loans. cbn [fst]. by apply fk_mark_overdue.
  - (* GetSettings *)
    by apply fk_get_settings.
  - (* UpdateSettings *)
    destruct (update_settings_spec now updates db) as (_ & _ & Hb & _ & Hl).
    apply (fk_pointwise db _
             (fun _ => sweep_loan now (SettingsUpdate.daily_fine_amount updates)));
      [done|done| |done].
    intros _ loan. apply book_id_sweep_loan.
Qed.

(** In a reachable store the expired pickup always finds the book whose
    copy it gives back. *)
Lemma expired_pickup_in_reachable_store (db : DB) (now lid : Z) (loan : Loan) (d : Z) :
  reachable db ->
  loans db !! lid = Some loan ->
  status loan = RESERVED ->
  pickup_deadline loan = Some d ->
  now > d ->
  exists db' book,
    books db !! book_id loan = Some book
    /\ confirm_pickup now lid db = (db', Raise (HTTPException 400 "Reservation has expired"))
    /\ status <$> loans db' !! lid = Some EXPIRED
    /\ available_copies <$> books db' !! book_id loan = Some (available_copies book + 1).
Proof.
  intros Hr Hl Hst Hd Hlate.
  destruct (reachable_loans_have_books db Hr lid loan Hl) as [book Hb].
  destruct (confirm_pickup_late db now lid loan d book Hl Hst Hd Hlate Hb)
    as (db' & Hcp & Hl' & Hb' & _).
  exists db', book. rewrite Hl', Hb'. done.
Qed.

(** ** The statements at work on the small library *)

Lemma return_book_late_fine_witness :
  exists db' loan',
    return_book (141 * day + 1) 1 ex_db_active_075 = (db', Ok loan')
    /\ status loan' = RETURNED
    /\ fine_amount loan' = 7.5%float.
Proof.
  destruct (return_book_late_fine ex_db_active_075 (141 * day + 1) 1 ex_loan_active (131 * day))
    as (db' & loan' & Hret & _ & Hst & _ & _ & H10).
  - vm_compute; reflexivity.
  - left; reflexivity.
  - reflexivity.
  - reflexivity.
  - exists db', loan'. split; [exact Hret|]. split; [exact Hst|].
    apply H10; vm_compute; reflexivity.
Defined.

Lemma confirm_pickup_expired_witness :
  exists db' loan' book',
    confirm_pickup (103 * day) 1 ex_db_reserved
    = (db', Raise (HTTPException 400 "Reservation has expired"))
    /\ loans db' !! 1 = Some loan' /\ status loan' = EXPIRED
    /\ books db' !! 1 = Some book'
    /\ available_copies book' = 1.
Proof.
  destruct (confirm_pickup_expired ex_db_reserved (103 * day) 1 ex_loan_reserved (102 * day)
              ex_book_held)
    as (db' & loan' & book' & Hcp & Hl & Hst & Hb & Hav & _).
  - vm_compute; reflexivity.
  - reflexivity.
  - reflexivity.
  - reflexivity.
  - vm_compute; reflexivity.
  - exists db', loan', book'. repeat split; assumption.
Defined.

Lemma update_settings_reprices_witness :
  exists loan',
    loans (fst (update_settings (134 * day) (SettingsUpdate.mk 2 30 0.75) ex_db_active)) !! 1
    = Some loan'
    /\ status loan' = OVERDUE
    /\ fine_amount loan' = 2.25%float.
Proof.
  destruct (update_settings_reprices ex_db_active (134 * day) (SettingsUpdate.mk 2 30 0.75)
              1 ex_loan_active (131 * day))
    as (loan' & Hl & Hst & Hfine & _).
  - vm_compute; reflexivity.
  - left; reflexivity.
  - reflexivity.
  - reflexivity.
  - exists loan'. split; [exact Hl|]. split; [exact Hst|].
    rewrite Hfine. vm_compute; reflexivity.
Defined.

Lemma reserve_pickup_return_on_time_witness :
  exists db1 lid l1 db2 l2 db3 l3 book3,
    reserve_book (100 * day) 1 (LoanCreate.mk 1) ex_db_book = (db1, Ok (lid, l1))
    /\ confirm_pickup (101 * day) lid db1 = (db2, Ok l2)
    /\ return_book (120 * day) lid db2 = (db3, Ok l3)
    /\ loans db3 !! lid = Some l3
    /\ status l3 = RETURNED
    /\ fine_amount l3 = 0%float
    /\ books db3 !! 1 = Some book3
    /\ available_copies book3 = 1.
Proof.
  destruct (reserve_pickup_return_on_time ex_db_book (100 * day) (101 * day) (120 * day) 1 1
              ex_book (mkUser MEMBER false))
    as (db1 & lid & l1 & db2 & l2 & db3 & l3 & book3
        & Hres & _ & _ & Hcp & _ & _ & Hret & Hl3 & Hst & Hfine & Hb3 & Hav).
  - vm_compute; reflexivity.
  - reflexivity.
  - vm_compute; reflexivity.
  - reflexivity.
  - vm_compute; reflexivity.
  - vm_compute; discriminate.
  - vm_compute; discriminate.
  - exists db1, lid, l1, db2, l2, db3, l3, book3. repeat split; assumption.
Defined.

Lemma reserve_after_cancellation_witness :
  reserve_book (100 * day + 10) 1 (LoanCreate.mk 1) ex_db_cancelled
  = (ex_db_cancelled,
     Raise (HTTPException 400 "You must wait 24 hours before reserving this book again"))
  /\ (exists db' lid loan,
        reserve_book (101 * day + 5) 1 (LoanCreate.mk 1) ex_db_cancelled = (db', Ok (lid, loan))
        /\ status loan = RESERVED)
  /\ (exists db' loan',
        cancel_reservation (100 * day + 5) 1 1 ex_db_reserved = (db', Ok loan')
        /\ status loan' = CANCELLED /\ canceled_at loan' = Some (100 * day + 5)
        /\ available_copies <$> books db' !! 1 = Some 1).
Proof.
  split; [|split].
  - destruct (reserve_after_cancellation ex_db_cancelled (100 * day + 10) 1 1) as (H & _ & _).
    destruct H as [_ H].
    + exists 1, ex_loan_cancelled, (100 * day + 5).
      repeat split; vm_compute; reflexivity.
    + apply (H ex_book (mkUser MEMBER false)); vm_compute; reflexivity.
  - destruct (reserve_after_cancellation ex_db_cancelled (101 * day + 5) 1 1) as (_ & H & _).
    destruct (H) with (book := ex_book) (user := mkUser MEMBER false)
      as (db' & lid & loan & Hres & _ & Hst & _).
    + intros lid loan c Hl _ _ _ Hc.
      assert (loans ex_db_cancelled = {[1 := ex_loan_cancelled]}) as Hloans
        by (vm_compute; reflexivity).
      rewrite Hloans in Hl. apply lookup_singleton_Some in Hl as [_ <-].
      injection Hc as <-. vm_compute; discriminate.
    + vm_compute; reflexivity.
    + reflexivity.
    + vm_compute; reflexivity.
    + reflexivity.
    + exists db', lid, loan. split; assumption.
  - destruct (reserve_after_cancellation ex_db_reserved (100 * day + 5) 1 1) as (_ & _ & H).
    destruct (H 1 ex_loan_reserved ex_book_held)
      as (db' & loan' & Hc & _ & Hst & Hat & Hb & Hav & _).
    + vm_compute; reflexivity.
    + reflexivity.
    + reflexivity.
    + reflexivity.
    + vm_compute; reflexivity.
    + exists db', loan'. repeat split; try assumption. rewrite Hb. reflexivity.
Defined.

Lemma invalid_state_rejected_witness :
  confirm_pickup (105 * day) 1 ex_db_active
  = (ex_db_active, Raise (HTTPException 400 "Only reserved loans can be picked up"))
  /\ return_book (105 * day) 1 ex_db_reserved
     = (ex_db_reserved, Raise (HTTPException 400 "Only active loans can be returned"))
  /\ cancel_reservation (105 * day) 1 1 ex_db_active
     = (ex_db_active, Raise (HTTPException 400 "Only reserved loans can be cancelled"))
  /\ cancel_reservation (105 * day) 2 1 ex_db_active
     = (ex_db_active, Raise (HTTPException 403 "You can only cancel your own reservations")).
Proof.
  destruct (invalid_state_rejected ex_db_active (105 * day) 1 ex_loan_active)
    as (Hcp & _ & Hca & Hown); [vm_compute; reflexivity|].
  destruct (invalid_state_rejected ex_db_reserved (105 * day) 1 ex_loan_reserved)
    as (_ & Hrb & _); [vm_compute; reflexivity|].
  split; [apply Hcp; discriminate|].
  split; [apply Hrb; discriminate|].
  split; [apply Hca; discriminate|].
  apply Hown; discriminate.
Defined.

(** C8, as stated, fails: the detail of the 400 error raised for an ACTIVE
    loan by [confirm_pickup] names the status the call requires, not the
    status "active" of the loan; and [cancel_reservation] on a RETURNED loan
    by a user who does not own it raises 403, not an invalid-state error. *)
Lemma invalid_state_detail_counterexample :
  loans ex_db_active !! 1 = Some ex_loan_active
  /\ status ex_loan_active = ACTIVE
  /\ confirm_pickup (105 * day) 1 ex_db_active
     = (ex_db_active, Raise (HTTPException 400 "Only reserved loans can be picked up"))
  /\ names_status "Only reserved loans can be picked up" (status ex_loan_active) = false
  /\ loans ex_db_returned !! 1 = Some ex_loan_returned
  /\ status ex_loan_returned = RETURNED
  /\ cancel_reservation (121 * day) 2 1 ex_db_returned
     = (ex_db_returned,
        Raise (HTTPException 403 "You can only cancel your own reservations")).
Proof. repeat split; vm_compute; reflexivity. Qed.

Lemma zero_rate_lost_on_next_read_witness :
  let db1 := fst (update_settings (134 * day) ex_zero_rate ex_db_overdue) in
  SettingsUpdate.valid ex_zero_rate = true
  /\ settings db1 = Some (stored (mkSettings 2 30 0.0))
  /\ snd (get_settings db1) = mkSettings 2 30 0.1
  /\ settings (fst (get_settings db1)) = Some (stored (mkSettings 2 30 0.1))
  /\ (exists db2 loan',
        return_book (135 * day) 1 db1 = (db2, Ok loan')
        /\ fine_amount loan' = PrimFloat.mul (float_of_int 4) 0.1)
  /\ settings ex_db_half = Some (stored (mkSettings 2 30 0.5))
  /\ daily_fine_amount (snd (get_settings ex_db_half)) = 0.1%float.
Proof.
  destruct (zero_rate_lost_on_next_read ex_db_overdue (134 * day) ex_zero_rate) as [Hhalf H].
  destruct H as (Hv & Hs & Hl & Hgs & Hret & _);
    [reflexivity|vm_compute; split; discriminate|vm_compute; split; discriminate|].
  cbn zeta. split; [exact Hv|]. split; [exact Hs|]. rewrite Hgs.
  split; [reflexivity|]. split; [reflexivity|].
  split; [|split; [reflexivity|];
           apply (Hhalf ex_db_half (stored (mkSettings 2 30 0.5)) 0.5%float);
           [reflexivity|reflexivity|right; reflexivity]].
  destruct (Hret (135 * day) 1
              (set_fine_amount (PrimFloat.mul (float_of_int 3) 0.0)
                 (set_status OVERDUE ex_loan_active)) (131 * day))
    as (db2 & loan' & Hrb & Hfine).
  - vm_compute; reflexivity.
  - right; reflexivity.
  - reflexivity.
  - reflexivity.
  - exists db2, loan'. split; [exact Hrb|]. rewrite Hfine. vm_compute; reflexivity.
Defined.

(** C10, as stated, fails in its last part: the rate 0.0 of the update is
    used for a fine computation, by the repricing pass of the update itself.
    The loan, three days overdue and charged three days at 0.1 by the sweep,
    is charged three days at 0.0 by the update. *)
Lemma zero_rate_used_counterexample :
  SettingsUpdate.valid ex_zero_rate = true
  /\ fine_amount <$> loans ex_db_overdue !! 1 = Some (PrimFloat.mul (float_of_int 3) 0.1)
  /\ let db1 := fst (update_settings (134 * day) ex_zero_rate ex_db_overdue) in
     fine_amount <$> loans db1 !! 1 = Some (PrimFloat.mul (float_of_int 3) 0.0)
     /\ PrimFloat.mul (float_of_int 3) 0.0 = 0.0%float
     /\ PrimFloat.eqb (PrimFloat.mul (float_of_int 3) 0.0)
                      (PrimFloat.mul (float_of_int 3) 0.1) = false.
Proof. repeat split; vm_compute; reflexivity. Qed.

Lemma ex_db_reserved_reachable : reachable ex_db_reserved.
Proof.
  apply (reachable_run [CreateBook ex_book_data; Reserve (100 * day) 1 (LoanCreate.mk 1)]);
    [apply reachable_initial|reflexivity].
Defined.

Lemma reachable_counters_witness : counters_ok ex_book_held.
Proof.
  apply (reachable_counters ex_db_reserved ex_db_reserved_reachable 1 ex_book_held).
  vm_compute; reflexivity.
Defined.

Lemma expired_pickup_in_reachable_store_witness :
  exists db' book,
    books ex_db_reserved !! 1 = Some book
    /\ confirm_pickup (103 * day) 1 ex_db_reserved
       = (db', Raise (HTTPException 400 "Reservation has expired"))
    /\ status <$> loans db' !! 1 = Some EXPIRED
    /\ available_copies <$> books db' !! 1 = Some (available_copies book + 1).
Proof.
  apply (expired_pickup_in_reachable_store ex_db_reserved (103 * day) 1 ex_loan_reserved
           (102 * day) ex_db_reserved_reachable).
  - vm_compute; reflexivity.
  - reflexivity.
  - reflexivity.
  - reflexivity.
Defined.

Lemma reserve_then_expired_pickup_witness :
  exists db1 lid loan db2,
    reserve_book (100 * day) 1 (LoanCreate.mk 1) ex_db_book = (db1, Ok (lid, loan))
    /\ confirm_pickup (103 * day) lid db1
       = (db2, Raise (HTTPException 400 "Reservation has expired"))
    /\ status <$> loans db2 !! lid = Some EXPIRED
    /\ available_copies <$> books db2 !! 1 = Some 1.
Proof.
  apply (reserve_then_expired_pickup ex_db_book (100 * day) (103 * day) 1 1 ex_book
           (mkUser MEMBER false)).
  - vm_compute; reflexivity.
  - reflexivity.
  - vm_compute; reflexivity.
  - reflexivity.
  - vm_compute; reflexivity.
  - vm_compute; reflexivity.
Defined.

Lemma loan_op_flag_ok_witness : flag_ok ex_book_held.
Proof.
  apply (loan_op_flag_ok (Reserve (100 * day) 1 (LoanCreate.mk 1)) ex_db_book eq_refl)
    with (i := 1).
  - intros bid book Hb.
    assert (books ex_db_book = {[1 := ex_book]}) as Hbooks by (vm_compute; reflexivity).
    rewrite Hbooks in Hb. apply lookup_singleton_Some in Hb as [_ <-]. reflexivity.
  - vm_compute; reflexivity.
Defined.

(** The sweep on the small library, three days after the due date. *)
Lemma mark_overdue_example :
  loans (_mark_overdue (134 * day) [1] ex_db_active) !! 1
  = Some (set_fine_amount (PrimFloat.mul (float_of_int 3) 0.1)
            (set_status OVERDUE ex_loan_active))
  /\ loans ex_db_overdue !! 1 = loans (_mark_overdue (134 * day) [1] ex_db_active) !! 1.
Proof. split; vm_compute; reflexivity. Qed.

(** * The service calls as steps of the store *)

(** ** The committing paths *)

Lemma release_copy_books (d : DB) (bid : Z) :
  let d' := match books d !! bid with
            | Some book =>
                let book := set_available_copies (available_copies book + 1) book in
                let book := set_is_available (available_copies book >? 0) book in
                set_books (<[bid := book]> (books d)) d
            | None => d
            end in
  books d' = release_copy bid (books d) /\ loans d' = loans d
  /\ users d' = users d /\ settings d' = settings d.
Proof. cbn zeta. unfold release_copy. by destruct (books d !! bid). Qed.

Lemma _mark_overdue_effect (now : Z) (ids : list Z) (db : DB) :
  effect db (_mark_overdue now ids db) Plain.
Proof.
  destruct (_mark_overdue_loop_spec now ids None db I) as (Hb & _ & Hloans & _).
  apply (eff_sweep _ _ now (daily_fine_amount (snd (get_settings db)))
           (fun lid l => if bool_decide (lid ∈ ids)
                         then sweep_loan now (daily_fine_amount (snd (get_settings db))) l
                         else l)); [| |exact Hb].
  - intros lid l. case_bool_decide; auto.
  - intros lid. unfold _mark_overdue. rewrite Hloans.
    case_bool_decide; [done|]. by destruct (loans db !! lid).
Qed.

(** Every call takes one of the committing paths, or leaves books and loans
    as they are. *)
Lemma exec_effect (o : Op) (db : DB) :
  valid_op o = true -> effect db (exec o db) (path_of o).
Proof.
  intros Hv. destruct o; cbn [exec valid_op path_of] in *.
  - (* CreateBook *)
    unfold create_book. destruct (isbn_taken _ _ _); [by apply eff_quiet|].
    by apply (eff_create _ _ book_data); [|apply next_id_fresh| |].
  - (* UpdateBook *)
    unfold update_book. destruct (books db !! bid) as [b|] eqn:Hb; [|by apply eff_quiet].
    destruct (isbn_taken _ _ _); [by apply eff_quiet|].
    by eapply (eff_update _ _ bid b).
  - (* DeleteBook *)
    unfold delete_book. destruct (books db !! bid); [|by apply eff_quiet].
    by apply (eff_delete _ _ bid).
  - (* Reserve *)
    unfold reserve_book.
    destruct (books db !! _) as [book|] eqn:Hb; [|by apply eff_quiet].
    destruct (Z.leb_spec (available_copies book) 0); [by apply eff_quiet|].
    destruct (users db !! uid) as [user|]; [|by apply eff_quiet].
    destruct (is_banned user); [by apply eff_quiet|].
    destruct (recent_cancel _ _ _ _); [by apply eff_quiet|].
    destruct (get_settings db) as [db1 s] eqn:Hgs.
    destruct (get_settings_frame _ _ _ Hgs) as (Hbk & Hln & _).
    apply (eff_reserve _ _ now uid (LoanCreate.book_id loan_data) book);
      [done|lia|cbn; by rewrite Hgs, Hln|cbn; by rewrite Hbk].
  - (* AssignLoan *)
    unfold assign_loan.
    destruct (users db !! uid) as [user|]; [|by apply eff_quiet].
    destruct (negb _); [by apply eff_quiet|].
    destruct (is_banned user); [by apply eff_quiet|].
    destruct (books db !! bid) as [book|] eqn:Hb; [|by apply eff_quiet].
    destruct (Z.leb_spec (available_copies book) 0); [by apply eff_quiet|].
    destruct (get_settings db) as [db1 s] eqn:Hgs.
    destruct (get_settings_frame _ _ _ Hgs) as (Hbk & Hln & _).
    apply (eff_assign _ _ now uid bid book);
      [done|lia|cbn; by rewrite Hgs, Hln|cbn; by rewrite Hbk].
  - (* ConfirmPickup *)
    unfold confirm_pickup.
    destruct (loans db !! lid) as [loan|] eqn:Hl; [|by apply eff_quiet].
    destruct (LoanStatus_eqb (status loan) RESERVED) eqn:Hst; [|by apply eff_quiet].
    apply LoanStatus_eqb_eq in Hst. cbn [negb].
    destruct (match pickup_deadline loan with Some d => now >? d | None => false end).
    + cbn [fst].
      match goal with |- effect _ (match books ?d !! ?b with _ => _ end) _ =>
        destruct (release_copy_books d b) as (Hb' & Hl' & _) end.
      by apply (eff_expire _ _ lid loan).
    + destruct (get_settings db) as [db1 s] eqn:Hgs.
      destruct (get_settings_frame _ _ _ Hgs) as (Hbk & Hln & _).
      apply (eff_pickup _ _ now lid loan); [done|done|cbn; by rewrite Hgs, Hln|done].
  - (* ReturnBook *)
    unfold return_book.
    destruct (loans db !! lid) as [loan|] eqn:Hl; [|by apply eff_quiet].
    destruct (LoanStatus_eqb (status loan) ACTIVE || LoanStatus_eqb (status loan) OVERDUE)
      eqn:Hst; [|by apply eff_quiet].
    apply orb_prop in Hst. rewrite !LoanStatus_eqb_eq in Hst. cbn [negb].
    match goal with
    | |- context [let '(db0, loan0) := ?e in _] =>
        assert (books (fst e) = books db /\ loans (fst e) = loans db
                /\ (snd e = loan \/ exists fine, snd e = set_fine_amount fine loan))
          as (Hbk & Hln & Hl0);
        [|destruct e as [db1 loan1]]
    end.
    { destruct (due_date loan) as [due|]; [|by auto].
      destruct (now >? due); [|by auto].
      destruct (get_settings db) as [db1 s] eqn:Hgs.
      destruct (get_settings_frame _ _ _ Hgs) as (Hbk & Hln & _).
      destruct (_ >? 0); cbn; eauto. }
    cbn [fst snd] in *.
    match goal with |- effect _ (match books ?d !! ?b with _ => _ end) _ =>
      destruct (release_copy_books d b) as (Hb' & Hl' & _) end.
    apply (eff_return _ _ now lid loan loan1); [done|done|done| |].
    + etrans; [apply Hl'|]. cbn. by rewrite Hln.
    + etrans; [apply Hb'|]. cbn. rewrite Hbk. by destruct Hl0 as [->|[fine ->]].
  - (* CancelReservation *)
    unfold cancel_reservation.
    destruct (loans db !! lid) as [loan|] eqn:Hl; [|by apply eff_quiet].
    destruct (negb _); [by apply eff_quiet|].
    destruct (LoanStatus_eqb (status loan) RESERVED) eqn:Hst; [|by apply eff_quiet].
    apply LoanStatus_eqb_eq in Hst. cbn [negb fst].
    match goal with |- effect _ (match books ?d !! ?b with _ => _ end) _ =>
      destruct (release_copy_books d b) as (Hb' & Hl' & _) end.
    by apply (eff_cancel _ _ now lid loan).
  - (* ListUserLoans *)
    apply _mark_overdue_effect.
  - (* ListAllLoans *)
    apply _mark_overdue_effect.
  - (* GetSettings *)
    apply eff_quiet; [apply get_settings_books|apply get_settings_loans].
  - (* UpdateSettings *)
    destruct (update_settings_spec now updates db) as (_ & _ & Hb & _ & Hl).
    apply (eff_sweep _ _ now (SettingsUpdate.daily_fine_amount updates)
             (fun _ => sweep_loan now (SettingsUpdate.daily_fine_amount updates)));
      [by right|done|done].
Qed.

(** ** The lifecycle of a loan *)

Lemma evolves_refl (l : Loan) : evolves l l.
Proof. unfold evolves. repeat split; auto. by destruct (status l). Qed.

Lemma evolves_sweep (now : Z) (rate : float) (l : Loan) : evolves l (sweep_loan now rate l).
Proof.
  destruct (overdue_now now l) eqn:Ho; [|rewrite sweep_loan_not_overdue by done; apply evolves_refl].
  destruct (overdue_now_due now l Ho) as (due & Hd & _).
  rewrite (sweep_loan_overdue now rate l due Ho Hd).
  unfold overdue_now in Ho. apply andb_prop in Ho as [Hst _].
  unfold evolves. cbn. repeat split; auto; destruct (status l); done.
Qed.

Lemma evolves_step (db db' : DB) (u : path) (lid : Z) (l : Loan) :
  effect db db' u ->
  loans db !! lid = Some l ->
  match loans db' !! lid with
  | Some l' => evolves l l'
  | None => books db' !! book_id l = None
  end.
Proof.
  intros He Hl.
  assert (forall lid0 l0 l0',
            loans db !! lid0 = Some l0 -> evolves l0 l0' ->
            match <[lid0 := l0']> (loans db) !! lid with
            | Some l' => evolves l l'
            | None => books db' !! book_id l = None
            end) as Hupd.
  { intros lid0 l0 l0' Hl0 Hev. destruct (decide (lid = lid0)) as [->|Hne].
    - rewrite lookup_insert_eq. by simplify_eq.
    - rewrite lookup_insert_ne, Hl by done. apply evolves_refl. }
  assert (forall l0',
            match <[next_id (loans db) := l0']> (loans db) !! lid with
            | Some l' => evolves l l'
            | None => books db' !! book_id l = None
            end) as Hnew.
  { intros l0'. rewrite lookup_insert_ne, Hl; [apply evolves_refl|].
    intros <-. by rewrite next_id_fresh in Hl. }
  destruct He as [u Hb Hloans|now uid bid b Hb Hav Hloans Hbooks
                 |now uid bid b Hb Hav Hloans Hbooks|now lid0 l0 Hl0 Hst Hloans Hbooks
                 |lid0 l0 Hl0 Hst Hloans Hbooks|now lid0 l0 Hl0 Hst Hloans Hbooks
                 |now lid0 l0 l1 Hl0 Hst Hl1 Hloans Hbooks|now rate f Hf Hloans Hbooks
                 |d Hv Hfresh Hbooks Hloans|bid b b' Hb Hbooks Hloans|bid Hbooks Hloans].
  - rewrite Hloans, Hl. apply evolves_refl.
  - rewrite Hloans. apply Hnew.
  - rewrite Hloans. apply Hnew.
  - rewrite Hloans. apply (Hupd lid0 l0); [done|].
    unfold evolves. cbn. rewrite Hst. repeat split; auto. done.
  - rewrite Hloans. apply (Hupd lid0 l0); [done|].
    unfold evolves. cbn. rewrite Hst. repeat split; auto. done.
  - rewrite Hloans. apply (Hupd lid0 l0); [done|].
    unfold evolves. cbn. rewrite Hst. repeat split; auto. done.
  - rewrite Hloans. apply (Hupd lid0 l0); [done|].
    unfold evolves. destruct Hl1 as [->|[fine ->]]; cbn;
      (repeat split; auto; [by destruct Hst as [-> | ->]|by destruct Hst as [-> | ->]]).
  - rewrite Hloans, Hl. cbn. destruct (Hf lid l) as [-> | ->];
      [apply evolves_refl|apply evolves_sweep].
  - rewrite Hloans, Hl. apply evolves_refl.
  - rewrite Hloans, Hl. apply evolves_refl.
  - rewrite Hloans, Hbooks.
    destruct (filter _ (loans db) !! lid) as [l'|] eqn:Hf.
    + apply map_lookup_filter_Some in Hf as [Hf _]. simplify_eq. apply evolves_refl.
    + destruct (decide (book_id l = bid)) as [->|Hne]; [apply lookup_delete_eq|].
      assert (filter (fun kv : Z * Loan => book_id kv.2 <> bid) (loans db) !! lid = Some l)
        as Hin by (by apply map_lookup_filter_Some).
      by rewrite Hin in Hf.
Qed.

(** Across any service call a loan keeps its user, its book, its
    reservation date and its pickup deadline; its status moves only along
    RESERVED to ACTIVE, EXPIRED or CANCELLED, ACTIVE to OVERDUE or RETURNED,
    OVERDUE to RETURNED; a loan that is RETURNED, EXPIRED or CANCELLED does
    not change at all; the fine changes only on a loan that is then OVERDUE or
    RETURNED; and a loan disappears only together with its book. *)
Theorem loan_evolution (o : Op) (db : DB) (lid : Z) (l : Loan) :
  valid_op o = true ->
  loans db !! lid = Some l ->
  match loans (exec o db) !! lid with
  | Some l' =>
      user_id l' = user_id l /\ book_id l' = book_id l
      /\ reservation_date l' = reservation_date l
      /\ pickup_deadline l' = pickup_deadline l
      /\ transition (status l) (status l') = true
      /\ (terminal (status l) = true -> l' = l)
      /\ (fine_amount l' = fine_amount l \/ status l' = OVERDUE \/ status l' = RETURNED)
  | None => books (exec o db) !! book_id l = None
  end.
Proof. intros Hv Hl. exact (evolves_step db _ _ lid l (exec_effect o db Hv) Hl). Qed.

Lemma effect_keeps_loans (db db' : DB) (u : path) (lid : Z) (l : Loan) :
  effect db db' u -> u <> Deleting ->
  loans db !! lid = Some l -> is_Some (loans db' !! lid).
Proof.
  intros He Hu Hl.
  destruct He as [u Hb Hloans|now uid bid b Hb Hav Hloans Hbooks
                 |now uid bid b Hb Hav Hloans Hbooks|now lid0 l0 Hl0 Hst Hloans Hbooks
                 |lid0 l0 Hl0 Hst Hloans Hbooks|now lid0 l0 Hl0 Hst Hloans Hbooks
                 |now lid0 l0 l1 Hl0 Hst Hl1 Hloans Hbooks|now rate f Hf Hloans Hbooks
                 |d Hv Hfresh Hbooks Hloans|bid b b' Hb Hbooks Hloans|bid Hbooks Hloans];
    try done; rewrite Hloans; try (by rewrite Hl);
    try (apply lookup_insert_is_Some'; right; by rewrite Hl).
Qed.

(** Once a loan is RETURNED, EXPIRED or CANCELLED, no sequence of calls
    that removes no book changes it in any way. *)
Theorem terminal_loans_are_final (ops : list Op) (db : DB) (lid : Z) (l : Loan) :
  forallb (fun o => valid_op o && keeps_books o) ops = true ->
  loans db !! lid = Some l ->
  terminal (status l) = true ->
  loans (run ops db) !! lid = Some l.
Proof.
  revert db. induction ops as [|o ops IH]; intros db Hops Hl Ht; [done|].
  cbn in Hops. apply andb_prop in Hops as [Ho Hops]. apply andb_prop in Ho as [Hv Hk].
  cbn. apply IH; [done| |done].
  pose proof (exec_effect o db Hv) as He.
  assert (path_of o <> Deleting) as Hp
    by (unfold keeps_books in Hk; by destruct (path_of o)).
  destruct (effect_keeps_loans _ _ _ lid l He Hp Hl) as [l' Hl'].
  pose proof (evolves_step _ _ _ lid l He Hl) as Hev. rewrite Hl' in Hev.
  destruct Hev as (_ & _ & _ & _ & _ & Hfin & _). by rewrite Hl', (Hfin Ht).
Qed.

(** ** Dates and fines by status *)

Lemma timestamps_sweep (now : Z) (rate : float) (l : Loan) :
  timestamps_ok l -> timestamps_ok (sweep_loan now rate l).
Proof.
  intros Hok.
  destruct (overdue_now now l) eqn:Ho; [|by rewrite sweep_loan_not_overdue].
  destruct (overdue_now_due now l Ho) as (due & Hd & _).
  rewrite (sweep_loan_overdue now rate l due Ho Hd).
  unfold overdue_now in Ho. apply andb_prop in Ho as [Hst _].
  unfold timestamps_ok in *. cbn. destruct (status l); try done; tauto.
Qed.

Lemma timestamps_step (db db' : DB) (u : path) :
  effect db db' u ->
  map_Forall (fun _ l => timestamps_ok l) (loans db) ->
  map_Forall (fun _ l => timestamps_ok l) (loans db').
Proof.
  intros He Hok.
  destruct He as [u Hb Hloans|now uid bid b Hb Hav Hloans Hbooks
                 |now uid bid b Hb Hav Hloans Hbooks|now lid0 l0 Hl0 Hst Hloans Hbooks
                 |lid0 l0 Hl0 Hst Hloans Hbooks|now lid0 l0 Hl0 Hst Hloans Hbooks
                 |now lid0 l0 l1 Hl0 Hst Hl1 Hloans Hbooks|now rate f Hf Hloans Hbooks
                 |d Hv Hfresh Hbooks Hloans|bid b b' Hb Hbooks Hloans|bid Hbooks Hloans];
    try (by rewrite Hloans).
  - rewrite Hloans. apply map_Forall_insert_2; [|done].
    unfold timestamps_ok. cbn. by repeat split.
  - rewrite Hloans. apply map_Forall_insert_2; [|done].
    unfold timestamps_ok. cbn. by repeat split.
  - rewrite Hloans. apply map_Forall_insert_2; [|done].
    pose proof (Hok lid0 l0 Hl0) as H0. unfold timestamps_ok in *. cbn. rewrite Hst in H0.
    destruct H0 as (_ & _ & _ & ? & ? & ?). by repeat split.
  - rewrite Hloans. apply map_Forall_insert_2; [|done].
    pose proof (Hok lid0 l0 Hl0) as H0. unfold timestamps_ok in *. cbn. by rewrite Hst in H0.
  - rewrite Hloans. apply map_Forall_insert_2; [|done].
    pose proof (Hok lid0 l0 Hl0) as H0. unfold timestamps_ok in *. cbn. rewrite Hst in H0.
    destruct H0 as (? & ? & ? & ? & _ & ?). by repeat split.
  - rewrite Hloans. apply map_Forall_insert_2; [|done].
    pose proof (Hok lid0 l0 Hl0) as H0. unfold timestamps_ok in *.
    destruct Hl1 as [->|[fine ->]]; cbn;
      (destruct Hst as [Hst|Hst]; rewrite Hst in H0;
       [destruct H0 as (? & ? & _ & ? & _)|destruct H0 as (? & ? & _ & ?)];
       by repeat split).
  - intros lid l' Hl'. rewrite Hloans in Hl'.
    destruct (loans db !! lid) as [l|] eqn:Hl; [|done]. cbn in Hl'. simplify_eq.
    destruct (Hf lid l) as [-> | ->]; [by eapply Hok|].
    apply timestamps_sweep. by eapply Hok.
  - intros lid l' Hl'. rewrite Hloans in Hl'.
    apply map_lookup_filter_Some in Hl' as [Hl' _]. by eapply Hok.
Qed.

Lemma reachable_timestamps_ok (db : DB) :
  reachable db -> map_Forall (fun _ l => timestamps_ok l) (loans db).
Proof.
  induction 1 as [us|o db Hr IH Hv]; [apply map_Forall_empty|].
  by eapply timestamps_step; [apply exec_effect|].
Qed.

(** In every reachable store the dates of a loan fit its status: a
    RESERVED loan has a pickup deadline and nothing else; an ACTIVE or OVERDUE
    loan has a start and a due date and is neither returned nor cancelled; a
    RETURNED loan has its return date; a CANCELLED loan has its cancellation
    date; and only OVERDUE and RETURNED loans carry a fine other than 0. *)
Theorem reachable_loans_well_dated (db : DB) (lid : Z) (l : Loan) :
  reachable db ->
  loans db !! lid = Some l ->
  match status l with
  | RESERVED | EXPIRED =>
      is_Some (pickup_deadline l) /\ start_date l = None /\ due_date l = None
      /\ returned_at l = None /\ canceled_at l = None /\ fine_amount l = 0%float
  | CANCELLED =>
      is_Some (pickup_deadline l) /\ is_Some (canceled_at l) /\ start_date l = None
      /\ due_date l = None /\ returned_at l = None /\ fine_amount l = 0%float
  | ACTIVE =>
      is_Some (start_date l) /\ is_Some (due_date l)
      /\ returned_at l = None /\ canceled_at l = None /\ fine_amount l = 0%float
  | OVERDUE =>
      is_Some (start_date l) /\ is_Some (due_date l)
      /\ returned_at l = None /\ canceled_at l = None
  | RETURNED =>
      is_Some (start_date l) /\ is_Some (due_date l)
      /\ is_Some (returned_at l) /\ canceled_at l = None
  end.
Proof.
  intros Hr Hl. pose proof (reachable_timestamps_ok db Hr lid l Hl) as Hok.
  unfold timestamps_ok in Hok. by destruct (status l).
Qed.

(** ** Settings and periods *)

Lemma get_settings_in_bounds (db : DB) :
  settings_row_ok (settings db) ->
  in_bounds (snd (get_settings db)) = true
  /\ settings_row_ok (settings (fst (get_settings db))).
Proof.
  intros Hok.
  assert (in_bounds (snd (get_settings db)) = true) as Hin.
  { unfold get_settings. destruct (settings db) as [row|]; [|reflexivity].
    destruct Hok as (s & -> & Hs). cbn -[in_None_0_05].
    destruct (in_None_0_05 (Some (daily_fine_amount s))); cbn [snd]; [|by destruct s].
    unfold in_bounds in *. cbn [pickup_window_days standard_loan_days daily_fine_amount].
    repeat (apply andb_prop in Hs as [Hs ?]).
    repeat (apply andb_true_intro; split); try done. }
  split; [done|]. rewrite get_settings_stored. by eexists.
Qed.

(** The settings row a call leaves: the one it found, the one [get_settings]
    writes, or the one a valid update writes. *)
Lemma exec_settings (o : Op) (db : DB) :
  valid_op o = true ->
  settings (exec o db) = settings db
  \/ settings (exec o db) = settings (fst (get_settings db))
  \/ exists s, in_bounds s = true /\ settings (exec o db) = Some (stored s).
Proof.
  intros Hv. destruct o; cbn [exec valid_op] in *.
  - left. unfold create_book. by destruct (isbn_taken _ _ _).
  - left. unfold update_book. destruct (books db !! bid); [|done].
    by destruct (isbn_taken _ _ _).
  - left. unfold delete_book. by destruct (books db !! bid).
  - unfold reserve_book.
    destruct (books db !! _) as [book|]; [|by left].
    destruct (_ <=? 0); [by left|].
    destruct (users db !! uid) as [user|]; [|by left].
    destruct (is_banned user); [by left|].
    destruct (recent_cancel _ _ _ _); [by left|].
    right; left. by destruct (get_settings db).
  - unfold assign_loan.
    destruct (users db !! uid) as [user|]; [|by left].
    destruct (negb _); [by left|].
    destruct (is_banned user); [by left|].
    destruct (books db !! bid) as [book|]; [|by left].
    destruct (_ <=? 0); [by left|].
    right; left. by destruct (get_settings db).
  - unfold confirm_pickup.
    destruct (loans db !! lid) as [loan|]; [|by left].
    destruct (negb _); [by left|].
    destruct (match pickup_deadline loan with Some d => now >? d | None => false end).
    + left. cbn [fst].
      match goal with |- settings (match books ?d !! ?b with _ => _ end) = _ =>
        destruct (release_copy_books d b) as (_ & _ & _ & Hs) end.
      etrans; [apply Hs|done].
    + right; left. by destruct (get_settings db).
  - unfold return_book.
    destruct (loans db !! lid) as [loan|]; [|by left].
    destruct (negb _); [by left|].
    match goal with
    | |- context [let '(db0, loan0) := ?e in _] =>
        assert (settings (fst e) = settings db
                \/ settings (fst e) = settings (fst (get_settings db))) as He;
        [|destruct e as [db1 loan1]]
    end.
    { destruct (due_date loan) as [due|]; [|by left].
      destruct (now >? due); [|by left].
      right. destruct (get_settings db) as [db1 s]. by destruct (_ >? 0). }
    cbn [fst snd] in *.
    match goal with |- settings (match books ?d !! ?b with _ => _ end) = _ \/ _ =>
      destruct (release_copy_books d b) as (_ & _ & _ & Hs) end.
    destruct He as [He|He]; [left|right; left]; (etrans; [apply Hs|exact He]).
  - left. unfold cancel_reservation.
    destruct (loans db !! lid) as [loan|]; [|done].
    destruct (negb _); [done|]. destruct (negb _); [done|]. cbn [fst].
    match goal with |- settings (match books ?d !! ?b with _ => _ end) = _ =>
      destruct (release_copy_books d b) as (_ & _ & _ & Hs) end.
    etrans; [apply Hs|done].
  - unfold get_user_loans. cbn [fst]. unfold _mark_overdue.
    match goal with |- context [_mark_overdue_loop ?n ?ids None db] =>
      destruct (_mark_overdue_loop_spec n ids None db I) as (_ & _ & _ & Hs);
      rewrite Hs; destruct (any_overdue n ids db) end;
      [right; left; by rewrite get_settings_stored|by left].
  - unfold get_all_loans. cbn [fst]. unfold _mark_overdue.
    match goal with |- context [_mark_overdue_loop ?n ?ids None db] =>
      destruct (_mark_overdue_loop_spec n ids None db I) as (_ & _ & _ & Hs);
      rewrite Hs; destruct (any_overdue n ids db) end;
      [right; left; by rewrite get_settings_stored|by left].
  - by right; left.
  - right; right. destruct (update_settings_spec now updates db) as (_ & Hs & _).
    eexists. split; [|exact Hs]. exact Hv.
Qed.

Lemma periods_sweep (now : Z) (rate : float) (l : Loan) :
  periods_ok l -> periods_ok (sweep_loan now rate l).
Proof.
  intros Hok. unfold sweep_loan. destruct (due_date l) as [due|] eqn:Hd; [|done].
  destruct (overdue_now now l); [|done].
  exact Hok.
Qed.

Lemma periods_step (db db' : DB) (u : path) :
  effect db db' u ->
  in_bounds (snd (get_settings db)) = true ->
  map_Forall (fun _ l => periods_ok l) (loans db) ->
  map_Forall (fun _ l => periods_ok l) (loans db').
Proof.
  intros He Hs Hok.
  unfold in_bounds in Hs. repeat (apply andb_prop in Hs as [Hs ?]).
  destruct He as [u Hb Hloans|now uid bid b Hb Hav Hloans Hbooks
                 |now uid bid b Hb Hav Hloans Hbooks|now lid0 l0 Hl0 Hst Hloans Hbooks
                 |lid0 l0 Hl0 Hst Hloans Hbooks|now lid0 l0 Hl0 Hst Hloans Hbooks
                 |now lid0 l0 l1 Hl0 Hst Hl1 Hloans Hbooks|now rate f Hf Hloans Hbooks
                 |d Hv Hfresh Hbooks Hloans|bid b b' Hb Hbooks Hloans|bid Hbooks Hloans];
    try (by rewrite Hloans).
  - rewrite Hloans. apply map_Forall_insert_2; [|done].
    split; cbn; [|done]. eexists. split; [|reflexivity]. lia.
  - rewrite Hloans. apply map_Forall_insert_2; [|done].
    split; cbn; [done|]. eexists. split; [|reflexivity]. lia.
  - rewrite Hloans. apply map_Forall_insert_2; [|done].
    destruct (Hok lid0 l0 Hl0) as [Hdl _]. split; cbn; [done|].
    eexists. split; [|reflexivity]. lia.
  - rewrite Hloans. apply map_Forall_insert_2; [|done]. exact (Hok lid0 l0 Hl0).
  - rewrite Hloans. apply map_Forall_insert_2; [|done]. exact (Hok lid0 l0 Hl0).
  - rewrite Hloans. apply map_Forall_insert_2; [|done].
    pose proof (Hok lid0 l0 Hl0) as Hl0ok. by destruct Hl1 as [->|[fine ->]].
  - intros lid l' Hl'. rewrite Hloans in Hl'.
    destruct (loans db !! lid) as [l|] eqn:Hl; [|done]. cbn in Hl'. simplify_eq.
    destruct (Hf lid l) as [-> | ->]; [by eapply Hok|].
    apply periods_sweep. by eapply Hok.
  - intros lid l' Hl'. rewrite Hloans in Hl'.
    apply map_lookup_filter_Some in Hl' as [Hl' _]. by eapply Hok.
Qed.

Lemma reachable_periods_ok (db : DB) :
  reachable db ->
  settings_row_ok (settings db) /\ map_Forall (fun _ l => periods_ok l) (loans db).
Proof.
  induction 1 as [us|o db Hr [IHs IHl] Hv]; [split; [done|apply map_Forall_empty]|].
  destruct (get_settings_in_bounds db IHs) as [Hin Hrow]. split.
  - destruct (exec_settings o db Hv) as [-> | [-> | (s & Hs & ->)]]; [done|done|].
    by exists s.
  - by eapply periods_step; [apply exec_effect| |].
Qed.

(** In every reachable store the settings a call reads are within the
    bounds of the schema, every pickup deadline lies between 1 and 14 days
    after the reservation, and every due date between 1 and 120 days after the
    start of the loan. *)
Theorem reachable_periods_in_bounds (db : DB) :
  reachable db ->
  (let s := snd (get_settings db) in
   1 <= pickup_window_days s <= 14 /\ 1 <= standard_loan_days s <= 120
   /\ PrimFloat.leb 0.0 (daily_fine_amount s) = true
   /\ PrimFloat.leb (daily_fine_amount s) 100.0 = true)
  /\ forall lid l,
       loans db !! lid = Some l ->
       (forall d, pickup_deadline l = Some d ->
                  exists n, 1 <= n <= 14
                            /\ d = reservation_date l + Datetime.timedelta_days n)
       /\ (forall s d, start_date l = Some s -> due_date l = Some d ->
                       exists n, 1 <= n <= 120 /\ d = s + Datetime.timedelta_days n).
Proof.
  intros Hr. destruct (reachable_periods_ok db Hr) as [Hs Hl]. split.
  - destruct (get_settings_in_bounds db Hs) as [Hin _]. cbn zeta.
    unfold in_bounds in Hin. repeat (apply andb_prop in Hin as [Hin ?]).
    repeat split; try done; lia.
  - intros lid l Hlid. destruct (Hl lid l Hlid) as [H1 H2]. split.
    + intros d Hd. by rewrite Hd in H1.
    + intros s d Hst Hd. by rewrite Hst, Hd in H2.
Qed.

(** ** Copies on the shelf and copies on loan *)

Lemma counts_spec (bid : Z) (l : Loan) :
  (book_id l = bid /\ holds_copy (status l) = true -> counts bid l = 1)
  /\ (~ (book_id l = bid /\ holds_copy (status l) = true) -> counts bid l = 0).
Proof.
  unfold counts. split.
  - intros [-> ->]. by rewrite bool_decide_eq_true_2.
  - intros Hn. case_bool_decide; [|done]. destruct (holds_copy (status l)); [|done].
    by destruct Hn.
Qed.

Lemma held_nonneg (bid : Z) (m : gmap Z Loan) : 0 <= held bid m.
Proof. unfold held. lia. Qed.

Lemma held_empty (bid : Z) : held bid ∅ = 0.
Proof. unfold held. by rewrite map_filter_empty, map_size_empty. Qed.

Lemma held_insert (bid : Z) (m : gmap Z Loan) (i : Z) (l : Loan) :
  held bid (<[i := l]> m)
  = held bid m - match m !! i with Some l0 => counts bid l0 | None => 0 end + counts bid l.
Proof.
  unfold held.
  set (P := fun kv : Z * Loan => book_id kv.2 = bid /\ holds_copy (status kv.2) = true).
  (* what the old row at [i] contributes to the filtered map *)
  assert (match m !! i with
          | Some l0 => (filter P m !! i = Some l0 /\ counts bid l0 = 1)
                       \/ (filter P m !! i = None /\ counts bid l0 = 0)
          | None => filter P m !! i = None
          end) as Hold.
  { destruct (m !! i) as [l0|] eqn:Hi.
    - destruct (decide (P (i, l0))) as [HP|HP].
      + left. split; [by apply map_lookup_filter_Some_2|]. by apply counts_spec.
      + right. split; [|by apply counts_spec].
        apply map_lookup_filter_None_2. right. intros x Hx. by simplify_eq.
    - apply map_lookup_filter_None_2. by left. }
  rewrite map_filter_insert. destruct (decide (P (i, l))) as [HP|HP].
  - rewrite (proj1 (counts_spec bid l)) by done. rewrite map_size_insert.
    destruct (m !! i) as [l0|]; [destruct Hold as [[-> ->]|[-> ->]]|rewrite Hold]; cbn; lia.
  - rewrite (proj2 (counts_spec bid l)) by done. rewrite map_filter_delete, map_size_delete.
    destruct (m !! i) as [l0|]; [destruct Hold as [[Hf ->]|[-> ->]]|rewrite Hold]; cbn;
      try lia.
    rewrite Hf. pose proof (map_size_ne_0_lookup_2 (filter P m) i (mk_is_Some _ _ Hf)). lia.
Qed.

Lemma held_insert_new (bid : Z) (m : gmap Z Loan) (i : Z) (l : Loan) :
  m !! i = None -> held bid (<[i := l]> m) = held bid m + counts bid l.
Proof. intros Hi. rewrite held_insert, Hi. lia. Qed.

Lemma held_insert_same (bid : Z) (m : gmap Z Loan) (i : Z) (l0 l : Loan) :
  m !! i = Some l0 -> counts bid l = counts bid l0 -> held bid (<[i := l]> m) = held bid m.
Proof. intros Hi Hc. rewrite held_insert, Hi. lia. Qed.

(** A change of the rows that keeps their books and whether they hold a
    copy keeps the number. *)
Lemma held_pointwise (bid : Z) (m m' : gmap Z Loan) (f : Z -> Loan -> Loan) :
  (forall lid, m' !! lid = f lid <$> m !! lid) ->
  (forall lid l, counts bid (f lid l) = counts bid l) ->
  held bid m' = held bid m.
Proof.
  intros Hm Hf. unfold held. f_equal.
  rewrite <- !(size_dom (D := gset Z)). f_equal. apply set_eq. intros lid.
  rewrite !elem_of_dom. unfold is_Some.
  setoid_rewrite map_lookup_filter_Some. cbn. split.
  - intros (l' & Hl' & HP). rewrite Hm in Hl'.
    destruct (m !! lid) as [l|] eqn:Hl; [|done]. cbn in Hl'. simplify_eq.
    exists l. split; [done|].
    destruct (decide (book_id l = bid /\ holds_copy (status l) = true)) as [|Hn]; [done|].
    apply (counts_spec bid) in Hn. apply (counts_spec bid) in HP. rewrite Hf in HP. lia.
  - intros (l & Hl & HP). exists (f lid l). rewrite Hm, Hl. split; [done|].
    destruct (decide (book_id (f lid l) = bid /\ holds_copy (status (f lid l)) = true))
      as [|Hn]; [done|].
    apply (counts_spec bid) in Hn. apply (counts_spec bid) in HP. rewrite Hf in Hn. lia.
Qed.

(** Removing the loans of another book does not change the number. *)
Lemma held_filter_other (bid bid0 : Z) (m : gmap Z Loan) :
  bid <> bid0 ->
  held bid (filter (fun kv : Z * Loan => book_id kv.2 <> bid0) m) = held bid m.
Proof.
  intros Hne. unfold held. f_equal. f_equal. rewrite map_filter_filter.
  apply map_filter_ext. intros i l _. cbn. split; [tauto|]. intros [Hb Hh]. split; [done|].
  by rewrite Hb.
Qed.

(** No loan, no copy on loan. *)
Lemma held_none (bid : Z) (m : gmap Z Loan) :
  (forall lid l, m !! lid = Some l -> book_id l <> bid) -> held bid m = 0.
Proof.
  intros Hno. unfold held. replace (filter _ m) with (∅ : gmap Z Loan);
    [by rewrite map_size_empty|].
  symmetry. apply map_empty_filter. intros lid l Hl [Hb _]. by eapply Hno.
Qed.

Lemma counts_sweep (bid now : Z) (rate : float) (l : Loan) :
  counts bid (sweep_loan now rate l) = counts bid l.
Proof.
  destruct (overdue_now now l) eqn:Ho; [|by rewrite sweep_loan_not_overdue].
  destruct (overdue_now_due now l Ho) as (due & Hd & _).
  rewrite (sweep_loan_overdue now rate l due Ho Hd).
  unfold overdue_now in Ho. apply andb_prop in Ho as [Hst _].
  unfold counts. cbn. by destruct (status l).
Qed.

Lemma release_copy_lookup (bid bid0 : Z) (m : gmap Z Book) (b : Book) :
  m !! bid = Some b ->
  release_copy bid0 m !! bid = Some (if decide (bid = bid0) then give_copy b else b).
Proof.
  intros Hb. unfold release_copy. case_decide as Heq.
  - subst. by rewrite Hb, lookup_insert_eq.
  - destruct (m !! bid0); [by rewrite lookup_insert_ne|done].
Qed.

(** A call other than an update or a removal of a book keeps, for every
    book, the sum of the copies on the shelf and the copies on loan. *)
Lemma conservation_step (db db' : DB) (bid : Z) (b : Book) :
  effect db db' Plain ->
  books db !! bid = Some b ->
  exists b',
    books db' !! bid = Some b'
    /\ total_copies b' = total_copies b
    /\ available_copies b' + held bid (loans db')
       = available_copies b + held bid (loans db).
Proof.
  intros He Hb.
  assert (forall lid0 l0 l',
            loans db !! lid0 = Some l0 -> holds_copy (status l0) = true ->
            holds_copy (status l') = false -> book_id l' = book_id l0 ->
            loans db' = <[lid0 := l']> (loans db) ->
            books db' = release_copy (book_id l0) (books db) ->
            exists b',
              books db' !! bid = Some b'
              /\ total_copies b' = total_copies b
              /\ available_copies b' + held bid (loans db')
                 = available_copies b + held bid (loans db)) as Hrelease.
  { intros lid0 l0 l' Hl0 Hh0 Hh' Hbid Hloans Hbooks.
    rewrite Hloans, Hbooks, held_insert, Hl0, (release_copy_lookup _ _ _ b Hb).
    eexists. split; [reflexivity|]. unfold counts. rewrite Hbid, Hh0, Hh'.
    case_decide as Heq; [subst; rewrite bool_decide_eq_true_2 by done
                        |rewrite bool_decide_eq_false_2 by done]; cbn; lia. }
  assert (forall bid0 b0 l',
            books db !! bid0 = Some b0 -> book_id l' = bid0 ->
            holds_copy (status l') = true ->
            loans db' = <[next_id (loans db) := l']> (loans db) ->
            books db' = <[bid0 := take_copy b0]> (books db) ->
            exists b',
              books db' !! bid = Some b'
              /\ total_copies b' = total_copies b
              /\ available_copies b' + held bid (loans db')
                 = available_copies b + held bid (loans db)) as Htake.
  { intros bid0 b0 l' Hb0 Hbid Hh Hloans Hbooks.
    rewrite Hloans, Hbooks, held_insert_new by apply next_id_fresh.
    unfold counts. rewrite Hbid, Hh. destruct (decide (bid = bid0)) as [->|Hne].
    - rewrite lookup_insert_eq, bool_decide_eq_true_2 by done. simplify_eq.
      eexists. split; [reflexivity|]. cbn. lia.
    - rewrite lookup_insert_ne, bool_decide_eq_false_2 by done.
      exists b. split; [done|]. cbn. lia. }
  inversion He as [u Hbk Hloans|now uid bid0 b0 Hb0 Hav Hloans Hbooks
                  |now uid bid0 b0 Hb0 Hav Hloans Hbooks|now lid0 l0 Hl0 Hst Hloans Hbooks
                  |lid0 l0 Hl0 Hst Hloans Hbooks|now lid0 l0 Hl0 Hst Hloans Hbooks
                  |now lid0 l0 l1 Hl0 Hst Hl1 Hloans Hbooks|now rate f Hf Hloans Hbooks
                  |d Hv Hfresh Hbooks Hloans| |].
  - exists b. by rewrite Hbk, Hloans.
  - eapply (Htake bid0 b0); [exact Hb0| | |exact Hloans|exact Hbooks]; done.
  - eapply (Htake bid0 b0); [exact Hb0| | |exact Hloans|exact Hbooks]; done.
  - exists b. rewrite Hbooks, Hloans. split; [done|]. split; [done|].
    rewrite (held_insert_same bid _ lid0 l0); [done|done|].
    unfold counts. cbn. by rewrite Hst.
  - eapply (Hrelease lid0 l0); [exact Hl0| | | |exact Hloans|exact Hbooks];
      [by rewrite Hst|done|done].
  - eapply (Hrelease lid0 l0); [exact Hl0| | | |exact Hloans|exact Hbooks];
      [by rewrite Hst|done|done].
  - eapply (Hrelease lid0 l0); [exact Hl0| | | |exact Hloans|exact Hbooks].
    + by destruct Hst as [-> | ->].
    + done.
    + by destruct Hl1 as [->|[fine ->]].
  - exists b. rewrite Hbooks. split; [done|]. split; [done|].
    rewrite (held_pointwise bid (loans db) (loans db') f Hloans); [done|].
    intros lid l. destruct (Hf lid l) as [-> | ->]; [done|apply counts_sweep].
  - exists b. rewrite Hbooks, Hloans. split; [|done].
    rewrite lookup_insert_ne; [done|]. intros <-. by rewrite Hfresh in Hb.
Qed.

(** A call on one of the plain paths keeps, for every book of the catalog,
    its total and the sum of its available copies and the loans that hold a
    copy of it: a copy leaves the shelf exactly when a loan starts to hold it
    and comes back exactly when the loan stops. *)
Theorem lifecycle_conserves_copies (o : Op) (db : DB) (bid : Z) (b : Book) :
  valid_op o = true ->
  path_of o = Plain ->
  books db !! bid = Some b ->
  exists b',
    books (exec o db) !! bid = Some b'
    /\ total_copies b' = total_copies b
    /\ available_copies b' + held bid (loans (exec o db))
       = available_copies b + held bid (loans db).
Proof.
  intros Hv Hp Hb. pose proof (exec_effect o db Hv) as He. rewrite Hp in He.
  by apply conservation_step.
Qed.

Lemma reachable_counters_ok (db : DB) :
  reachable db -> map_Forall (fun _ b => counters_ok b) (books db).
Proof.
  induction 1 as [us|o db Hr IH Hv]; [apply map_Forall_empty|].
  destruct (loan_op o) eqn:Hlo.
  - eapply books_step_counters; [by apply loan_op_books_step|done].
  - destruct o; try discriminate; cbn [exec valid_op] in *;
      [by apply create_book_counters|by apply update_book_counters
      |by apply delete_book_counters].
Qed.

Lemma reachable_without_update_reachable (db : DB) :
  reachable_without_update db -> reachable db.
Proof. induction 1; [apply reachable_initial|by apply reachable_step]. Qed.

Lemma accounted_step (db db' : DB) (u : path) :
  effect db db' u -> u <> Updating ->
  loans_have_books db -> accounted db -> accounted db'.
Proof.
  intros He Hu Hfk Hacc bid b' Hb'.
  (* a book that was there before the call *)
  assert (forall b, books db !! bid = Some b -> effect db db' Plain ->
                    available_copies b' + held bid (loans db') <= total_copies b') as Hold.
  { intros b Hb Hplain.
    destruct (conservation_step db db' bid b Hplain Hb) as (b'' & Hb'' & Ht & Hsum).
    simplify_eq. specialize (Hacc bid b Hb). lia. }
  destruct He as [u Hbk Hloans|now uid bid0 b0 Hb0 Hav Hloans Hbooks
                 |now uid bid0 b0 Hb0 Hav Hloans Hbooks|now lid0 l0 Hl0 Hst Hloans Hbooks
                 |lid0 l0 Hl0 Hst Hloans Hbooks|now lid0 l0 Hl0 Hst Hloans Hbooks
                 |now lid0 l0 l1 Hl0 Hst Hl1 Hloans Hbooks|now rate f Hf Hloans Hbooks
                 |d Hv Hfresh Hbooks Hloans|bid0 b0 b0' Hb0 Hbooks Hloans|bid0 Hbooks Hloans];
    try done.
  - rewrite Hloans. rewrite Hbk in Hb'. by apply Hacc.
  - assert (is_Some (books db !! bid)) as [b Hb].
    { rewrite Hbooks in Hb'. destruct (decide (bid = bid0)) as [->|Hne]; [done|].
      by rewrite lookup_insert_ne in Hb'. }
    apply (Hold b Hb). exact (eff_reserve _ _ now uid bid0 b0 Hb0 Hav Hloans Hbooks).
  - assert (is_Some (books db !! bid)) as [b Hb].
    { rewrite Hbooks in Hb'. destruct (decide (bid = bid0)) as [->|Hne]; [done|].
      by rewrite lookup_insert_ne in Hb'. }
    apply (Hold b Hb). exact (eff_assign _ _ now uid bid0 b0 Hb0 Hav Hloans Hbooks).
  - apply (Hold b'); [by rewrite <- Hbooks|]. exact (eff_pickup _ _ now lid0 l0 Hl0 Hst Hloans Hbooks).
  - assert (is_Some (books db !! bid)) as [b Hb].
    { rewrite Hbooks in Hb'. unfold release_copy in Hb'.
      destruct (books db !! book_id l0) eqn:E; [|done].
      destruct (decide (bid = book_id l0)) as [->|Hne]; [done|].
      by rewrite lookup_insert_ne in Hb'. }
    apply (Hold b Hb). exact (eff_expire _ _ lid0 l0 Hl0 Hst Hloans Hbooks).
  - assert (is_Some (books db !! bid)) as [b Hb].
    { rewrite Hbooks in Hb'. unfold release_copy in Hb'.
      destruct (books db !! book_id l0) eqn:E; [|done].
      destruct (decide (bid = book_id l0)) as [->|Hne]; [done|].
      by rewrite lookup_insert_ne in Hb'. }
    apply (Hold b Hb). exact (eff_cancel _ _ now lid0 l0 Hl0 Hst Hloans Hbooks).
  - assert (is_Some (books db !! bid)) as [b Hb].
    { rewrite Hbooks in Hb'. unfold release_copy in Hb'.
      destruct (books db !! book_id l0) eqn:E; [|done].
      destruct (decide (bid = book_id l0)) as [->|Hne]; [done|].
      by rewrite lookup_insert_ne in Hb'. }
    apply (Hold b Hb). exact (eff_return _ _ now lid0 l0 l1 Hl0 Hst Hl1 Hloans Hbooks).
  - apply (Hold b'); [by rewrite <- Hbooks|]. exact (eff_sweep _ _ now rate f Hf Hloans Hbooks).
  - destruct (decide (bid = next_id (books db))) as [->|Hne].
    + (* the new book: no loan refers to it *)
      rewrite Hbooks, lookup_insert_eq in Hb'. simplify_eq. rewrite Hloans.
      rewrite held_none.
      * unfold BookCreate.valid in Hv. repeat (apply andb_prop in Hv as [Hv ?]). cbn. lia.
      * intros lid l Hl Hbid. destruct (Hfk lid l Hl) as [b Hb].
        by rewrite Hbid, Hfresh in Hb.
    + rewrite Hbooks, lookup_insert_ne in Hb' by done. rewrite Hloans. by apply Hacc.
  - rewrite Hbooks in Hb'. apply lookup_delete_Some in Hb' as [Hne Hb'].
    rewrite Hloans, held_filter_other by done. by apply Hacc.
Qed.

Lemma reachable_without_update_accounted (db : DB) :
  reachable_without_update db -> accounted db.
Proof.
  induction 1 as [us|o db Hr IH Hv Hp].
  - intros bid b Hb. cbn in Hb. by rewrite lookup_empty in Hb.
  - eapply accounted_step; [by apply exec_effect|done| |done].
    by apply reachable_loans_have_books, reachable_without_update_reachable.
Qed.

(** In every store reached without [update_book], each book has
    [0 <= available_copies <= total_copies], and its available copies
    together with the loans that hold a copy of it never exceed its total:
    no copy is lent twice. *)
Theorem copies_accounted_without_update (db : DB) (bid : Z) (b : Book) :
  reachable_without_update db ->
  books db !! bid = Some b ->
  0 <= available_copies b <= total_copies b
  /\ available_copies b + held bid (loans db) <= total_copies b.
Proof.
  intros Hr Hb.
  pose proof (reachable_without_update_accounted db Hr bid b Hb) as Hacc.
  destruct (reachable_counters_ok db (reachable_without_update_reachable db Hr) bid b Hb)
    as [H0 _].
  pose proof (held_nonneg bid (loans db)). lia.
Qed.

(** * The catalog *)

Lemma isbn_taken_spec (i : string) (except : option Z) (m : gmap Z Book) :
  isbn_taken i except m = true
  <-> exists bid b, m !! bid = Some b /\ isbn b = i /\ except <> Some bid.
Proof.
  unfold isbn_taken. rewrite existsb_exists. split.
  - intros ([bid b] & Hin & Hp). cbn in Hp.
    apply list_elem_of_In, elem_of_map_to_list in Hin.
    apply andb_prop in Hp as [Hi He]. apply String.eqb_eq in Hi.
    exists bid, b. split; [done|]. split; [done|].
    destruct except as [k|]; [|done]. intros [= ->]. by rewrite Z.eqb_refl in He.
  - intros (bid & b & Hb & Hi & He). exists (bid, b). split.
    + by apply list_elem_of_In, elem_of_map_to_list.
    + cbn. apply andb_true_intro. split; [by apply String.eqb_eq|].
      destruct except as [k|]; [|done]. apply negb_true_iff, Z.eqb_neq. congruence.
Qed.

Lemma isbn_taken_false (i : string) (except : option Z) (m : gmap Z Book) :
  isbn_taken i except m = false
  <-> forall bid b, m !! bid = Some b -> isbn b = i -> except = Some bid.
Proof.
  rewrite <- not_true_iff_false, isbn_taken_spec. split.
  - intros Hn bid b Hb Hi. destruct (decide (except = Some bid)) as [|Hne]; [done|].
    destruct Hn. by exists bid, b.
  - intros H (bid & b & Hb & Hi & He). by apply He, (H bid b).
Qed.

(** [create_book] succeeds exactly when no book has the ISBN.  It then
    stores the book under a key that was free, with the available copies cut
    down to the total and the flag set, leaves every other book and every loan
    as they were, and a second creation with the same ISBN is refused. *)
Theorem create_book_spec (d : BookCreate.t) (db : DB) :
  ((exists bid b, books db !! bid = Some b /\ isbn b = BookCreate.isbn d) ->
   create_book d db = (db, Raise (HTTPException 400 "Book with this ISBN already exists")))
  /\ ((forall bid b, books db !! bid = Some b -> isbn b <> BookCreate.isbn d) ->
      exists db' bid book,
        create_book d db = (db', Ok (bid, book))
        /\ books db !! bid = None
        /\ get_book bid db' = Some book
        /\ (forall bid', bid' <> bid -> get_book bid' db' = get_book bid' db)
        /\ loans db' = loans db /\ users db' = users db /\ settings db' = settings db
        /\ isbn book = BookCreate.isbn d
        /\ total_copies book = BookCreate.total_copies d
        /\ available_copies book
           = Z.min (BookCreate.available_copies d) (BookCreate.total_copies d)
        /\ is_available book = true
        /\ forall d', BookCreate.isbn d' = BookCreate.isbn d ->
                      create_book d' db'
                      = (db', Raise (HTTPException 400 "Book with this ISBN already exists"))).
Proof.
  split.
  - intros (bid & b & Hb & Hi). unfold create_book. cbn [isbn].
    assert (isbn_taken (BookCreate.isbn d) None (books db) = true) as ->; [|done].
    apply isbn_taken_spec. by exists bid, b.
  - intros Hfree. unfold create_book. cbn [isbn].
    assert (isbn_taken (BookCreate.isbn d) None (books db) = false) as ->.
    { apply isbn_taken_false. intros bid b Hb Hi. by destruct (Hfree bid b Hb). }
    eexists _, _, _. split; [reflexivity|].
    split; [apply next_id_fresh|].
    split; [unfold get_book; cbn; apply lookup_insert_eq|].
    split; [intros bid' Hne; unfold get_book; cbn; by rewrite lookup_insert_ne|].
    repeat (split; [done|]).
    intros d' Hd'. unfold create_book. cbn [isbn books set_books].
    assert (isbn_taken (BookCreate.isbn d') None
              (<[next_id (books db) := _]> (books db)) = true) as ->; [|done].
    apply isbn_taken_spec. eexists _, _. split; [apply lookup_insert_eq|]. by rewrite Hd'.
Qed.

Lemma update_book_unfold (bid : Z) (d : BookUpdate.t) (db : DB) :
  update_book bid d db
  = match books db !! bid with
    | None => (db, Raise (HTTPException 404 "Book not found"))
    | Some b =>
        if isbn_taken (isbn (updated_book d b)) (Some bid) (books db)
        then (db, Raise IntegrityError)
        else (set_books (<[bid := updated_book d b]> (books db)) db, Ok (updated_book d b))
    end.
Proof. reflexivity. Qed.



(** [delete_book] removes the book and, with it, exactly the loans of the
    book: afterwards the book is not found, no loan refers to it, every other
    book and every loan of another book is as before, and a pickup, a return
    or a cancellation of one of the removed loans reports that the loan is not
    found.  A book that is missing is reported and nothing changes. *)
Theorem delete_book_spec (bid : Z) (db : DB) :
  (books db !! bid = None ->
   delete_book bid db = (db, Raise (HTTPException 404 "Book not found")))
  /\ (is_Some (books db !! bid) ->
      exists db',
        delete_book bid db = (db', Ok tt)
        /\ get_book bid db' = None
        /\ (forall bid', bid' <> bid -> get_book bid' db' = get_book bid' db)
        /\ (forall lid l, loans db' !! lid = Some l
                          <-> loans db !! lid = Some l /\ book_id l <> bid)
        /\ users db' = users db /\ settings db' = settings db
        /\ forall now uid lid l,
             loans db !! lid = Some l -> book_id l = bid ->
             confirm_pickup now lid db' = (db', Raise (HTTPException 404 "Loan not found"))
             /\ return_book now lid db' = (db', Raise (HTTPException 404 "Loan not found"))
             /\ cancel_reservation now uid lid db'
                = (db', Raise (HTTPException 404 "Loan not found"))).
Proof.
  unfold delete_book. split; [by intros ->|]. intros [b Hb]. rewrite Hb.
  eexists. split; [reflexivity|].
  split; [unfold get_book; cbn; apply lookup_delete_eq|].
  split; [intros bid' Hne; unfold get_book; cbn; by rewrite lookup_delete_ne|].
  split; [intros lid l; cbn; by rewrite map_lookup_filter_Some|].
  split; [done|]. split; [done|].
  intros now uid lid l Hl Hbid.
  assert (filter (fun kv : Z * Loan => book_id kv.2 <> bid) (loans db) !! lid = None) as Hgone.
  { apply map_lookup_filter_None_2. right. intros l' Hl'. simplify_eq. cbn. tauto. }
  unfold confirm_pickup, return_book, cancel_reservation. cbn [loans set_loans set_books].
  by rewrite Hgone.
Qed.

(** ** One book per ISBN *)

Lemma isbn_unique_insert (m : gmap Z Book) (bid : Z) (b : Book) :
  isbn_unique m ->
  (forall bid' b', m !! bid' = Some b' -> isbn b' = isbn b -> bid' = bid) ->
  isbn_unique (<[bid := b]> m).
Proof.
  intros Hu Hfree bid1 bid2 b1 b2 H1 H2 Hi.
  destruct (decide (bid1 = bid)) as [->|Hn1], (decide (bid2 = bid)) as [->|Hn2]; [done| | |].
  - rewrite lookup_insert_eq in H1. rewrite lookup_insert_ne in H2 by done. simplify_eq.
    symmetry. by apply (Hfree bid2 b2).
  - rewrite lookup_insert_eq in H2. rewrite lookup_insert_ne in H1 by done. simplify_eq.
    by apply (Hfree bid1 b1).
  - rewrite lookup_insert_ne in H1, H2 by done. by eapply Hu.
Qed.

Lemma books_step_isbn (m m' : gmap Z Book) :
  books_step m m' -> isbn_unique m -> isbn_unique m'.
Proof.
  intros [|bid b Hb Hav|bid b Hb] Hu; [done| |];
    (apply isbn_unique_insert; [done|]; intros bid' b' Hb' Hi; by eapply Hu).
Qed.

Lemma reachable_isbn_unique_books (db : DB) : reachable db -> isbn_unique (books db).
Proof.
  induction 1 as [us|o db Hr IH Hv].
  { intros bid1 bid2 b1 b2 H1. cbn in H1. by rewrite lookup_empty in H1. }
  destruct (loan_op o) eqn:Hlo.
  { eapply books_step_isbn; [by apply loan_op_books_step|done]. }
  destruct o; try discriminate; cbn [exec].
  - unfold create_book. destruct (isbn_taken _ _ _) eqn:Ht; [done|]. cbn.
    apply isbn_unique_insert; [done|]. intros bid' b' Hb' Hi.
    by pose proof (proj1 (isbn_taken_false _ _ _) Ht bid' b' Hb' Hi).
  - rewrite update_book_unfold. destruct (books db !! bid) as [b|] eqn:Hb; [|done].
    destruct (isbn_taken _ _ _) eqn:Ht; [done|]. cbn.
    apply isbn_unique_insert; [done|]. intros bid' b' Hb' Hi.
    pose proof (proj1 (isbn_taken_false _ _ _) Ht bid' b' Hb' Hi). by simplify_eq.
  - unfold delete_book. destruct (books db !! bid) as [b|] eqn:Hb; [|done]. cbn.
    intros bid1 bid2 b1 b2 H1 H2. apply lookup_delete_Some in H1 as [_ H1].
    apply lookup_delete_Some in H2 as [_ H2]. by eapply IH.
Qed.

(** In every reachable store no two books have the same ISBN. *)
Theorem reachable_isbn_unique (db : DB) (bid1 bid2 : Z) (b1 b2 : Book) :
  reachable db ->
  books db !! bid1 = Some b1 ->
  books db !! bid2 = Some b2 ->
  isbn b1 = isbn b2 ->
  bid1 = bid2.
Proof. intros Hr. by apply reachable_isbn_unique_books. Qed.

(** In a reachable store an update that sets no field succeeds, changes
    nothing and returns the book as it is. *)
Theorem update_book_unset (db : DB) (bid : Z) (b : Book) :
  reachable db ->
  books db !! bid = Some b ->
  update_book bid BookUpdate.unset db = (db, Ok b).
Proof.
  intros Hr Hb. rewrite update_book_unfold, Hb.
  assert (updated_book BookUpdate.unset b = b) as -> by (by destruct b).
  assert (isbn_taken (isbn b) (Some bid) (books db) = false) as ->.
  { apply isbn_taken_false. intros bid' b' Hb' Hi. f_equal.
    by apply (reachable_isbn_unique_books db Hr bid bid' b b'). }
  rewrite insert_id by done. by destruct db.
Qed.

(** * Reservations and assignments *)

Lemma assign_loan_ok (db : DB) (now uid bid : Z) (user : User) (book : Book) :
  users db !! uid = Some user ->
  role user = MEMBER ->
  is_banned user = false ->
  books db !! bid = Some book ->
  available_copies book > 0 ->
  let loan := new_assignment now uid bid (standard_loan_days (snd (get_settings db))) in
  assign_loan now uid bid db
  = (set_loans (<[next_id (loans db) := loan]> (loans db))
       (set_books (<[bid := take_copy book]> (books db)) (fst (get_settings db))),
     Ok (next_id (loans db), loan)).
Proof.
  intros Hu Hr Hban Hb Hav. cbn zeta. unfold assign_loan. rewrite Hu, Hr, Hban, Hb.
  cbn [UserRole_eqb negb].
  assert ((available_copies book <=? 0) = false) as -> by lia.
  destruct (get_settings db) as [db1 s] eqn:Hgs.
  destruct (get_settings_frame _ _ _ Hgs) as (Hbk & Hln & _).
  cbn [fst snd]. by rewrite Hbk, Hln.
Qed.

(** A member takes the last copy: the reservation succeeds, the book is
    left with no available copy and the flag off; from then on every
    reservation of the book, by anybody at any time, and every assignment of
    it to a member in good standing is refused as not available, and nothing
    changes; when the member cancels, the copy is available again. *)
Theorem last_copy_is_reserved_once
    (db : DB) (now uid bid : Z) (b : Book) (user : User) :
  books db !! bid = Some b ->
  available_copies b = 1 ->
  users db !! uid = Some user ->
  is_banned user = false ->
  recent_cancel now uid bid db = false ->
  exists db1 lid l b1,
    reserve_book now uid (LoanCreate.mk bid) db = (db1, Ok (lid, l))
    /\ books db1 !! bid = Some b1
    /\ available_copies b1 = 0 /\ is_available b1 = false
    /\ (forall now' uid',
          reserve_book now' uid' (LoanCreate.mk bid) db1
          = (db1, Raise (HTTPException 400 "Book is not available for reservation")))
    /\ (forall now' uid' user',
          users db1 !! uid' = Some user' -> role user' = MEMBER -> is_banned user' = false ->
          assign_loan now' uid' bid db1
          = (db1, Raise (HTTPException 400 "Book is not available for loan")))
    /\ (forall now', exists db2 l2 b2,
          cancel_reservation now' uid lid db1 = (db2, Ok l2)
          /\ books db2 !! bid = Some b2
          /\ available_copies b2 = 1 /\ is_available b2 = true).
Proof.
  intros Hb Hav Hu Hban Hrc.
  pose proof (reserve_book_ok db now uid bid b user Hb ltac:(lia) Hu Hban Hrc) as Hres.
  cbn zeta in Hres.
  set (l := mkLoan _ _ _ _ _ _ _ _ _ _) in *.
  set (db1 := set_loans _ _) in *.
  assert (books db1 !! bid = Some (take_copy b)) as Hb1 by apply lookup_insert_eq.
  exists db1, (next_id (loans db)), l, (take_copy b).
  split; [done|]. split; [done|]. split; [cbn; lia|].
  split; [cbn; rewrite Hav; reflexivity|]. split; [|split].
  - intros now' uid'. unfold reserve_book. cbn [LoanCreate.book_id]. rewrite Hb1.
    assert ((available_copies (take_copy b) <=? 0) = true) as -> by (cbn; lia). done.
  - intros now' uid' user' Hu' Hr' Hban'. unfold assign_loan.
    rewrite Hu', Hr', Hban', Hb1. cbn [UserRole_eqb negb].
    assert ((available_copies (take_copy b) <=? 0) = true) as -> by (cbn; lia). done.
  - intros now'.
    assert (loans db1 !! next_id (loans db) = Some l) as Hl1 by apply lookup_insert_eq.
    pose proof (cancel_reservation_ok db1 now' _ l Hl1 eq_refl) as Hc.
    cbn zeta in Hc. cbn [user_id book_id l] in Hc. rewrite Hb1 in Hc.
    eexists _, _, (give_copy (take_copy b)). split; [exact Hc|].
    split; [cbn; apply lookup_insert_eq|]. split; [cbn; lia|]. cbn. by rewrite Hav.
Qed.

(** A direct assignment to a member in good standing of a book with a copy
    left succeeds: the loan is ACTIVE from the time of the call and due after
    the standard loan period, and has no pickup deadline; returned no later
    than the due date it ends RETURNED without a fine, and the book has its
    available copies back. *)
Theorem assign_then_return_on_time
    (db : DB) (t0 t1 uid bid : Z) (user : User) (book : Book) :
  users db !! uid = Some user ->
  role user = MEMBER ->
  is_banned user = false ->
  books db !! bid = Some book ->
  available_copies book > 0 ->
  let due := t0 + Datetime.timedelta_days (standard_loan_days (snd (get_settings db))) in
  t1 <= due ->
  exists db1 lid l1 db2 l2 book2,
    assign_loan t0 uid bid db = (db1, Ok (lid, l1))
    /\ loans db !! lid = None
    /\ status l1 = ACTIVE /\ start_date l1 = Some t0 /\ due_date l1 = Some due
    /\ pickup_deadline l1 = None
    /\ available_copies <$> books db1 !! bid = Some (available_copies book - 1)
    /\ return_book t1 lid db1 = (db2, Ok l2)
    /\ loans db2 !! lid = Some l2
    /\ status l2 = RETURNED /\ fine_amount l2 = 0%float /\ returned_at l2 = Some t1
    /\ books db2 !! bid = Some book2
    /\ available_copies book2 = available_copies book.
Proof.
  intros Hu Hr Hban Hb Hav due Ht1.
  pose proof (assign_loan_ok db t0 uid bid user book Hu Hr Hban Hb Hav) as Has.
  cbn zeta in Has. fold due in Has.
  set (lid := next_id (loans db)) in *.
  set (l1 := new_assignment _ _ _ _) in *.
  set (db1 := set_loans _ _) in *.
  assert (loans db1 !! lid = Some l1) as Hl1 by apply lookup_insert_eq.
  assert (books db1 !! bid = Some (take_copy book)) as Hb1 by apply lookup_insert_eq.
  pose proof (return_book_on_time db1 t1 lid l1 Hl1 (or_introl eq_refl) Ht1) as Hrb.
  cbn zeta in Hrb. cbn [book_id l1 new_assignment] in Hrb. rewrite Hb1 in Hrb.
  eexists db1, lid, l1, _, _, (give_copy (take_copy book)).
  split; [exact Has|]. split; [apply next_id_fresh|].
  repeat (split; [done|]).
  split; [by rewrite Hb1|].
  split; [exact Hrb|].
  split; [cbn; by rewrite lookup_insert_eq|].
  repeat (split; [done|]).
  split; [cbn; by rewrite lookup_insert_eq|].
  apply give_take_copy.
Qed.

(** ** Calls that do not look at the users *)

Lemma get_settings_set_users (us : gmap Z User) (db : DB) :
  get_settings (set_users us db)
  = (set_users us (fst (get_settings db)), snd (get_settings db)).
Proof.
  unfold get_settings. cbn [settings set_users].
  destruct (settings db) as [row|]; [|reflexivity].
  cbn zeta. by destruct (_ || _).
Qed.


Lemma confirm_pickup_set_users (us : gmap Z User) (now lid : Z) (db : DB) :
  confirm_pickup now lid (set_users us db)
  = (set_users us (fst (confirm_pickup now lid db)), snd (confirm_pickup now lid db)).
Proof.
  unfold confirm_pickup. cbn [loans set_users].
  destruct (loans db !! lid) as [loan|]; [|done].
  destruct (negb _); [done|].
  destruct (match pickup_deadline loan with Some d => now >? d | None => false end).
  - cbn. by destruct (books db !! book_id loan).
  - rewrite get_settings_set_users. by destruct (get_settings db).
Qed.

Lemma return_book_set_users (us : gmap Z User) (now lid : Z) (db : DB) :
  return_book now lid (set_users us db)
  = (set_users us (fst (return_book now lid db)), snd (return_book now lid db)).
Proof.
  unfold return_book. cbn [loans set_users].
  destruct (loans db !! lid) as [loan|]; [|done].
  destruct (negb _); [done|].
  destruct (due_date loan) as [due|].
  - destruct (now >? due).
    + rewrite get_settings_set_users. destruct (get_settings db) as [db1 s].
      destruct (_ >? 0); cbn; by destruct (books db1 !! book_id loan).
    + cbn. by destruct (books db !! book_id loan).
  - cbn. by destruct (books db !! book_id loan).
Qed.

Lemma cancel_reservation_set_users (us : gmap Z User) (now uid lid : Z) (db : DB) :
  cancel_reservation now uid lid (set_users us db)
  = (set_users us (fst (cancel_reservation now uid lid db)),
     snd (cancel_reservation now uid lid db)).
Proof.
  unfold cancel_reservation. cbn [loans set_users].
  destruct (loans db !! lid) as [loan|]; [|done].
  destruct (negb _); [done|]. destruct (negb _); [done|].
  cbn. by destruct (books db !! book_id loan).
Qed.



(** * The listings *)

Lemma filter_keys_sublist {A} (f : Z * A -> bool) (l : list (Z * A)) :
  map fst (List.filter f l) `sublist_of` l.*1.
Proof.
  induction l as [|x l IH]; [constructor|].
  cbn. destruct (f x); cbn; by constructor.
Qed.

Lemma listing_rows (m : gmap Z Loan) (ids : list Z) :
  (forall i, i ∈ ids -> is_Some (m !! i)) ->
  let rows := omap (fun lid => pair lid <$> m !! lid) ids in
  rows.*1 = ids
  /\ forall lid l, (lid, l) ∈ rows <-> lid ∈ ids /\ m !! lid = Some l.
Proof.
  intros Hin. cbn zeta. split.
  - induction ids as [|i ids IH]; [done|].
    destruct (Hin i) as [l Hl]; [apply list_elem_of_here|].
    cbn. rewrite Hl. cbn. f_equal. apply IH. intros j Hj. apply Hin. by apply list_elem_of_further.
  - intros lid l. rewrite list_elem_of_omap. split.
    + intros (i & Hi & Heq). destruct (m !! i) as [l'|] eqn:Hl; [|done].
      cbn in Heq. by simplify_eq.
    + intros [Hi Hl]. exists lid. split; [done|]. by rewrite Hl.
Qed.

Lemma sweep_loan_user_id (now : Z) (rate : float) (l : Loan) :
  user_id (sweep_loan now rate l) = user_id l.
Proof. unfold sweep_loan. destruct (due_date l); [|done]. by destruct (overdue_now now l). Qed.

Lemma sweep_loan_settled (now : Z) (rate : float) (l : Loan) :
  overdue_now now (sweep_loan now rate l) = true -> status (sweep_loan now rate l) = OVERDUE.
Proof.
  rewrite overdue_now_sweep. intros Ho.
  destruct (overdue_now_due now l Ho) as (due & Hd & _).
  by rewrite (sweep_loan_overdue now rate l due Ho Hd).
Qed.

Lemma user_loan_ids (uid : Z) (m : gmap Z Loan) :
  let ids := map fst (List.filter (fun kv => user_id (snd kv) =? uid) (map_to_list m)) in
  NoDup ids
  /\ forall lid, lid ∈ ids <-> exists l, m !! lid = Some l /\ user_id l = uid.
Proof.
  cbn zeta. split.
  - eapply sublist_NoDup; [apply (NoDup_fst_map_to_list m)|apply filter_keys_sublist].
  - intros lid. rewrite list_elem_of_In, in_map_iff. split.
    + intros ([i l] & <- & [Hin Hu]%filter_In). exists l. cbn in *.
      split; [|lia]. by apply elem_of_map_to_list, list_elem_of_In.
    + intros (l & Hl & Hu). exists (lid, l). split; [done|].
      apply filter_In. split; [|cbn; lia].
      by apply list_elem_of_In, elem_of_map_to_list.
Qed.

(** The listing of a user's loans returns exactly the loans of that user in
    the table after the call, each once.  Each row is the stored loan after
    the overdue sweep at the current settings rate, so no row is shown as
    ACTIVE after its due date.  The loans of every other user, the books and
    the users are left as they were. *)
Theorem get_user_loans_spec (now uid : Z) (db : DB) :
  let db' := fst (get_user_loans now uid db) in
  let rows := snd (get_user_loans now uid db) in
  let rate := daily_fine_amount (snd (get_settings db)) in
  books db' = books db /\ users db' = users db
  /\ NoDup rows.*1
  /\ (forall lid l, (lid, l) ∈ rows <-> loans db' !! lid = Some l /\ user_id l = uid)
  /\ (forall lid l, (lid, l) ∈ rows ->
        (exists l0, loans db !! lid = Some l0 /\ l = sweep_loan now rate l0)
        /\ (overdue_now now l = true -> status l = OVERDUE))
  /\ (forall lid l, loans db !! lid = Some l -> user_id l <> uid -> loans db' !! lid = Some l).
Proof.
  cbn zeta. unfold get_user_loans. cbn [fst snd].
  set (ids := map fst _).
  destruct (user_loan_ids uid (loans db)) as [Hnd Hids]. cbn zeta in Hnd, Hids.
  fold ids in Hnd, Hids.
  destruct (_mark_overdue_loop_spec now ids None db I) as (Hb & Hu & Hl & _).
  cbn zeta in Hb, Hu, Hl. fold (_mark_overdue now ids db) in Hb, Hu, Hl.
  set (db' := _mark_overdue now ids db) in *.
  set (rate := daily_fine_amount _) in *.
  assert (forall i, i ∈ ids -> is_Some (loans db' !! i)) as Hsome.
  { intros i Hi. rewrite Hl, bool_decide_eq_true_2 by done.
    apply Hids in Hi as (l & -> & _). by eexists. }
  destruct (listing_rows (loans db') ids Hsome) as [Hfst Hrows]. cbn zeta in Hfst, Hrows.
  split; [done|]. split; [done|]. split; [by rewrite Hfst|].
  split; [|split].
  - intros lid l. rewrite Hrows. split.
    + intros [Hi Hl']. split; [done|].
      apply Hids in Hi as (l0 & Hl0 & Hu0).
      rewrite Hl, bool_decide_eq_true_2, Hl0 in Hl' by (apply Hids; eauto).
      cbn in Hl'. simplify_eq. by rewrite sweep_loan_user_id.
    + intros [Hl' Hu']. split; [|done]. apply Hids.
      rewrite Hl in Hl'. case_bool_decide as Hi.
      * by apply Hids in Hi.
      * by exists l.
  - intros lid l [Hi Hl']%Hrows.
    pose proof Hi as (l0 & Hl0 & Hu0)%Hids.
    rewrite Hl, bool_decide_eq_true_2, Hl0 in Hl' by done. cbn in Hl'. simplify_eq.
    split; [by exists l0|]. apply sweep_loan_settled.
  - intros lid l Hl0 Hne. rewrite Hl, bool_decide_eq_false_2; [done|].
    intros (l' & Hl' & Hu')%Hids. by simplify_eq.
Qed.


(** * Settings read back *)

Lemma _recalculate_overdue_fines_settled (now : Z) (s : SystemSettings) (db : DB) :
  (forall lid l, loans db !! lid = Some l -> sweep_loan now (daily_fine_amount s) l = l) ->
  _recalculate_overdue_fines now s db = db.
Proof.
  intros Hfix.
  destruct (_recalculate_overdue_fines_spec now s db) as (Hb & Hu & Hs & Hl).
  apply DB_ext; [done| |done|done].
  apply map_eq. intros lid. rewrite Hl.
  destruct (loans db !! lid) as [l|] eqn:Hlid; [|done]. cbn. f_equal. by eapply Hfix.
Qed.

(** An update whose daily fine is neither 0.0 nor 0.5 is read back exactly
    as written, and the read writes nothing.  Right after it, at the same
    instant, the overdue sweep of any listing and a repetition of the update
    leave the store as it is: the update has already brought every overdue
    loan to the new rate. *)
Theorem update_settings_read_back (now : Z) (updates : SettingsUpdate.t) (db : DB) :
  in_None_0_05 (Some (SettingsUpdate.daily_fine_amount updates)) = false ->
  let db' := fst (update_settings now updates db) in
  let s := mkSettings (SettingsUpdate.pickup_window_days updates)
                      (SettingsUpdate.standard_loan_days updates)
                      (SettingsUpdate.daily_fine_amount updates) in
  snd (update_settings now updates db) = s
  /\ get_settings db' = (db', s)
  /\ (forall ids, _mark_overdue now ids db' = db')
  /\ update_settings now updates db' = (db', s).
Proof.
  intros Hrate db' s.
  destruct (update_settings_spec now updates db) as (Hret & Hs & Hb & Hu & Hl).
  fold db' in Hs, Hb, Hu, Hl. fold s in Hret, Hs.
  assert (get_settings db' = (db', s)) as Hgs by (by apply get_settings_stable).
  assert (forall lid l, loans db' !! lid = Some l ->
            sweep_loan now (daily_fine_amount s) l = l) as Hfix.
  { intros lid l. rewrite Hl. destruct (loans db !! lid) as [l0|]; [|done].
    cbn. intros [= <-]. apply sweep_loan_idem. }
  split; [done|]. split; [done|]. split.
  - intros ids. unfold _mark_overdue.
    destruct (_mark_overdue_loop_spec now ids None db' I) as (Hb2 & Hu2 & Hl2 & Hs2).
    rewrite Hgs in Hl2, Hs2. cbn [snd] in Hl2, Hs2.
    apply DB_ext; [done| |done|].
    + apply map_eq. intros lid. rewrite Hl2. case_bool_decide; [|done].
      destruct (loans db' !! lid) as [l|] eqn:Hlid; [|done]. cbn. f_equal. by eapply Hfix.
    + rewrite Hs2. by destruct (any_overdue now ids db').
  - unfold update_settings. rewrite Hgs. fold s.
    assert (set_settings (Some (stored s)) db' = db') as ->
      by (by apply DB_ext).
    by rewrite (_recalculate_overdue_fines_settled now s db' Hfix).
Qed.

(** * Access control and user management *)

Section Guards.
Import Dependencies.

Lemma get_current_user_Ok (sub : option Z) (db : DB) (cid : Z) (cu : User) :
  get_current_user sub db = Ok (cid, cu) <-> sub = Some cid /\ users db !! cid = Some cu.
Proof.
  unfold get_current_user. destruct sub as [i|]; [|by split; [|intros []]].
  destruct (users db !! i) as [u|] eqn:Hu; split.
  - by intros [= <- <-].
  - intros [[= <-] Hc]. by simplify_eq.
  - done.
  - intros [[= <-] Hc]. by simplify_eq.
Qed.

Ltac guard_cases sub db :=
  destruct sub as [?i|]; [|split; [done|by intros [? _]]];
  destruct (users db !! i) as [[[] ?]|] eqn:?; cbn;
  (split; [try done; by intros [= <- <-]|]);
  intros ([= <-] & ? & ?); by simplify_eq.

Lemma get_current_librarian_Ok (sub : option Z) (db : DB) (cid : Z) (cu : User) :
  get_current_librarian (get_current_user sub db) = Ok (cid, cu)
  <-> sub = Some cid /\ users db !! cid = Some cu /\ role cu <> MEMBER.
Proof. unfold get_current_librarian, get_current_user. guard_cases sub db. Qed.

Lemma get_current_admin_Ok (sub : option Z) (db : DB) (cid : Z) (cu : User) :
  get_current_admin (get_current_user sub db) = Ok (cid, cu)
  <-> sub = Some cid /\ users db !! cid = Some cu /\ role cu = ADMIN.
Proof. unfold get_current_admin, get_current_user. guard_cases sub db. Qed.

Lemma get_current_member_Ok (sub : option Z) (db : DB) (cid : Z) (cu : User) :
  get_current_member (get_current_user sub db) = Ok (cid, cu)
  <-> sub = Some cid /\ users db !! cid = Some cu /\ role cu = MEMBER.
Proof. unfold get_current_member, get_current_user. guard_cases sub db. Qed.

End Guards.

Lemma exec_user_effect (o : UserOp) (db : DB) : user_effect db (exec_user o db).
Proof.
  destruct o as [sub uid|sub uid|sub uid|sub uid|sub uid]; cbn [exec_user];
    [unfold UsersRoutes.ban_user|unfold UsersRoutes.unban_user
    |unfold AdminRoutes.promote_user_to_librarian
    |unfold AdminRoutes.demote_librarian_to_member|unfold AdminRoutes.delete_user];
    unfold route.
  - destruct (Dependencies.get_current_librarian _) as [[cid cu]|e] eqn:Hg; [|constructor].
    apply get_current_librarian_Ok in Hg as (_ & Hc & Hrole).
    destruct (users db !! uid) as [u|] eqn:Hu; [|constructor].
    destruct (UserRole_eqb (role u) ADMIN) eqn:Hr; [constructor|]. cbn.
    apply (ue_flag db cid cu uid u true Hc Hrole Hu). intros _ Ha. by rewrite Ha in Hr.
  - destruct (Dependencies.get_current_librarian _) as [[cid cu]|e] eqn:Hg; [|constructor].
    apply get_current_librarian_Ok in Hg as (_ & Hc & Hrole).
    destruct (users db !! uid) as [u|] eqn:Hu; [|constructor]. cbn.
    by apply (ue_flag db cid cu uid u false Hc Hrole Hu).
  - destruct (Dependencies.get_current_admin _) as [[cid cu]|e] eqn:Hg; [|constructor].
    apply get_current_admin_Ok in Hg as (_ & Hc & Hrole).
    destruct (users db !! uid) as [u|] eqn:Hu; [|constructor].
    destruct (UserRole_eqb (role u) ADMIN) eqn:Hr; [constructor|].
    destruct (UserRole_eqb (role u) LIBRARIAN); [constructor|]. cbn.
    apply (ue_role db cid cu uid u LIBRARIAN Hc Hrole Hu); [|done].
    intros Ha. by rewrite Ha in Hr.
  - destruct (Dependencies.get_current_admin _) as [[cid cu]|e] eqn:Hg; [|constructor].
    apply get_current_admin_Ok in Hg as (_ & Hc & Hrole).
    destruct (users db !! uid) as [u|] eqn:Hu; [|constructor].
    destruct (UserRole_eqb (role u) ADMIN) eqn:Hr; [constructor|].
    destruct (negb (UserRole_eqb (role u) LIBRARIAN)); [constructor|]. cbn.
    apply (ue_role db cid cu uid u MEMBER Hc Hrole Hu); [|done].
    intros Ha. by rewrite Ha in Hr.
  - destruct (Dependencies.get_current_admin _) as [[cid cu]|e] eqn:Hg; [|constructor].
    apply get_current_admin_Ok in Hg as (_ & Hc & Hrole).
    destruct (users db !! uid) as [u|] eqn:Hu; [|constructor].
    destruct (UserRole_eqb (role u) ADMIN) eqn:Hr; [constructor|]. cbn.
    apply (ue_delete db cid cu uid u Hc Hrole Hu). intros Ha. by rewrite Ha in Hr.
Qed.

Lemma user_effect_admins (db db' : DB) (uid : Z) :
  user_effect db db' ->
  role <$> users db' !! uid = Some ADMIN <-> role <$> users db !! uid = Some ADMIN.
Proof.
  intros [|cid cu uid0 u b Hc Hrc Hu Hb|cid cu uid0 u r Hc Hrc Hu Hr Hr'|cid cu uid0 u Hc Hrc Hu Hr];
    [done|..]; cbn [users set_users set_loans].
  - destruct (decide (uid = uid0)) as [->|Hne].
    + by rewrite lookup_insert_eq, Hu.
    + by rewrite lookup_insert_ne.
  - destruct (decide (uid = uid0)) as [->|Hne].
    + rewrite lookup_insert_eq, Hu. cbn. split; intros [= ?]; done.
    + by rewrite lookup_insert_ne.
  - destruct (decide (uid = uid0)) as [->|Hne].
    + rewrite lookup_delete_eq, Hu. cbn. split; [done|]. intros [= ?]. done.
    + by rewrite lookup_delete_ne.
Qed.

Lemma user_effect_frame (db db' : DB) :
  user_effect db db' ->
  books db' = books db /\ settings db' = settings db
  /\ forall lid l, loans db' !! lid = Some l -> loans db !! lid = Some l.
Proof.
  intros [| | |]; cbn; repeat split; try done.
  intros lid l [Hl _]%map_lookup_filter_Some. done.
Qed.

Lemma user_effect_no_admin (db db' : DB) :
  (forall uid u, users db !! uid = Some u -> role u <> ADMIN) ->
  user_effect db db' ->
  loans db' = loans db /\ forall uid, role <$> users db' !! uid = role <$> users db !! uid.
Proof.
  intros Hno [|cid cu uid0 u b Hc Hrc Hu Hb|cid cu uid0 u r Hc Hrc Hu Hr Hr'|cid cu uid0 u Hc Hrc Hu Hr];
    [done| |by destruct (Hno cid cu Hc)..].
  cbn. split; [done|]. intros uid. destruct (decide (uid = uid0)) as [->|Hne].
  - by rewrite lookup_insert_eq, Hu.
  - by rewrite lookup_insert_ne.
Qed.

Lemma user_effect_members (db db' : DB) :
  (forall uid u, users db !! uid = Some u -> role u = MEMBER) ->
  user_effect db db' -> db' = db.
Proof.
  intros Hm [|cid cu uid0 u b Hc Hrc Hu Hb|cid cu uid0 u r Hc Hrc Hu Hr Hr'|cid cu uid0 u Hc Hrc Hu Hr];
    [done|..]; pose proof (Hm cid cu Hc) as Hcm; congruence.
Qed.

(** Whatever sequence of bans, unbans, promotions, demotions and removals
    is requested, by whatever callers: the books and the settings are not
    touched and no loan is created or changed; the users that are ADMIN
    afterwards are exactly those that were before.  Where no user is an
    ADMIN, no role changes, no user and no loan is removed; where every user
    is a MEMBER, nothing changes at all. *)
Theorem user_management_invariants (ops : list UserOp) (db : DB) :
  let db' := run_users ops db in
  books db' = books db /\ settings db' = settings db
  /\ (forall lid l, loans db' !! lid = Some l -> loans db !! lid = Some l)
  /\ (forall uid, role <$> users db' !! uid = Some ADMIN <-> role <$> users db !! uid = Some ADMIN)
  /\ ((forall uid u, users db !! uid = Some u -> role u <> ADMIN) ->
      loans db' = loans db
      /\ forall uid, role <$> users db' !! uid = role <$> users db !! uid)
  /\ ((forall uid u, users db !! uid = Some u -> role u = MEMBER) -> db' = db).
Proof.
  cbn zeta. revert db. induction ops as [|o ops IH]; intros db; [done|].
  cbn [run_users foldl]. fold (run_users ops (exec_user o db)).
  pose proof (exec_user_effect o db) as He.
  destruct (IH (exec_user o db)) as (Hb & Hs & Hl & Ha & Hno & Hm).
  destruct (user_effect_frame _ _ He) as (Hb1 & Hs1 & Hl1).
  split; [congruence|]. split; [congruence|]. split; [eauto|].
  split; [intros uid; by rewrite Ha, (user_effect_admins _ _ uid He)|].
  split.
  - intros Hnone. destruct (user_effect_no_admin _ _ Hnone He) as [Hl2 Hr2].
    destruct Hno as [Hl3 Hr3].
    { intros uid u Hu Hadm. specialize (Hr2 uid). rewrite Hu in Hr2. cbn in Hr2.
      destruct (users db !! uid) as [u0|] eqn:Hu0; [|done]. cbn in Hr2.
      apply (Hnone uid u0 Hu0). congruence. }
    split; [congruence|]. intros uid. by rewrite Hr3, Hr2.
  - intros Hall. rewrite (user_effect_members _ _ Hall He) in *. by apply Hm.
Qed.

Lemma route_Ok {A} (g : result (Z * User)) (cu : Z * User) (db : DB)
    (body : Z * User -> DB * result A) :
  g = Ok cu -> route g db body = body cu.
Proof. by intros ->. Qed.

(** A ban issued by a librarian or an admin on a user that is not an admin
    sets the flag and touches nothing else.  From then on the user's
    reservations are refused with 403, and so are assignments to the user;
    the loans the user already has are picked up, returned and cancelled
    with the same outcome as without the ban.  Unbanning a user that was not
    banned before restores the store as it was. *)
Theorem ban_blocks_borrowing
    (sub : option Z) (caller : Z * User) (uid : Z) (u : User) (db : DB) :
  Dependencies.get_current_librarian (Dependencies.get_current_user sub db) = Ok caller ->
  users db !! uid = Some u ->
  role u <> ADMIN ->
  let db1 := set_users (<[uid := set_is_banned true u]> (users db)) db in
  UsersRoutes.ban_user sub uid db = (db1, Ok (set_is_banned true u))
  /\ (forall now bid b,
        books db !! bid = Some b -> available_copies b > 0 ->
        reserve_book now uid (LoanCreate.mk bid) db1
        = (db1, Raise (HTTPException 403 "You are banned from reserving books")))
  /\ (role u = MEMBER ->
      forall now bid,
        assign_loan now uid bid db1
        = (db1, Raise (HTTPException 403 "User is banned from reserving books")))
  /\ (forall now lid,
        snd (confirm_pickup now lid db1) = snd (confirm_pickup now lid db)
        /\ snd (return_book now lid db1) = snd (return_book now lid db)
        /\ snd (cancel_reservation now uid lid db1) = snd (cancel_reservation now uid lid db))
  /\ (is_banned u = false -> UsersRoutes.unban_user sub uid db1 = (db, Ok u)).
Proof.
  intros Hg Hu Hr db1. destruct caller as [cid cu].
  pose proof Hg as (Hsub & Hc & Hrc)%get_current_librarian_Ok.
  assert (users db1 !! uid = Some (set_is_banned true u)) as Hu1 by apply lookup_insert_eq.
  split; [|split; [|split; [|split]]].
  - unfold UsersRoutes.ban_user. rewrite (route_Ok _ _ _ _ Hg), Hu.
    by destruct u as [[] bn].
  - intros now bid b Hb Hav. unfold reserve_book. cbn [LoanCreate.book_id books db1 set_users].
    rewrite Hb. assert ((available_copies b <=? 0) = false) as -> by lia.
    fold db1. by rewrite Hu1.
  - intros Hm now bid. unfold assign_loan. rewrite Hu1. cbn. by rewrite Hm.
  - intros now lid. unfold db1.
    by rewrite confirm_pickup_set_users, return_book_set_users, cancel_reservation_set_users.
  - intros Hnb. unfold UsersRoutes.unban_user.
    assert (Dependencies.get_current_librarian (Dependencies.get_current_user sub db1)
            = Ok (cid, if bool_decide (cid = uid) then set_is_banned true u else cu)) as Hg1.
    { apply get_current_librarian_Ok. split; [done|]. case_bool_decide as Hcu.
      - subst cid. split; [done|]. cbn. by simplify_eq.
      - split; [|done]. unfold db1. cbn. by rewrite lookup_insert_ne. }
    rewrite (route_Ok _ _ _ _ Hg1), Hu1.
    assert (set_is_banned false (set_is_banned true u) = u) as ->
      by (destruct u; cbn in *; by subst).
    cbn zeta. f_equal. unfold db1. cbn [users set_users].
    rewrite insert_insert_eq, insert_id by done. by destruct db.
Qed.

(** A promotion by an admin turns a member into a librarian and touches
    nothing else: the loans of the user stay.  As a librarian the user is
    refused by the member routes: no new reservation and no cancellation of
    an own reservation (403 at the guard), and no loan can be assigned to
    the user (400).  A demotion by the admin restores the store as it was. *)
Theorem promotion_closes_member_routes
    (sub : option Z) (caller : Z * User) (uid : Z) (u : User) (db : DB) :
  Dependencies.get_current_admin (Dependencies.get_current_user sub db) = Ok caller ->
  users db !! uid = Some u ->
  role u = MEMBER ->
  let db1 := set_users (<[uid := set_role LIBRARIAN u]> (users db)) db in
  let refused := HTTPException 403 "Not enough permissions. Member access required." in
  AdminRoutes.promote_user_to_librarian sub uid db = (db1, Ok (set_role LIBRARIAN u))
  /\ loans db1 = loans db /\ books db1 = books db
  /\ (forall now d, LoansRoutes.reserve_book (Some uid) now d db1 = (db1, Raise refused))
  /\ (forall now lid, LoansRoutes.cancel_reservation (Some uid) now lid db1 = (db1, Raise refused))
  /\ (forall now bid,
        assign_loan now uid bid db1
        = (db1, Raise (HTTPException 400 "Loans can only be assigned to members")))
  /\ AdminRoutes.demote_librarian_to_member sub uid db1 = (db, Ok u).
Proof.
  intros Hg Hu Hr db1 refused. destruct caller as [cid cu].
  pose proof Hg as (Hsub & Hc & Hrc)%get_current_admin_Ok.
  assert (users db1 !! uid = Some (set_role LIBRARIAN u)) as Hu1 by apply lookup_insert_eq.
  assert (cid <> uid) as Hne by (intros ->; simplify_eq; congruence).
  split; [|split; [done|split; [done|split; [|split; [|split]]]]].
  - unfold AdminRoutes.promote_user_to_librarian. rewrite (route_Ok _ _ _ _ Hg), Hu.
    by rewrite Hr.
  - intros now d. unfold LoansRoutes.reserve_book, Dependencies.get_current_user.
    by rewrite Hu1.
  - intros now lid. unfold LoansRoutes.cancel_reservation, Dependencies.get_current_user.
    by rewrite Hu1.
  - intros now bid. unfold assign_loan. by rewrite Hu1.
  - unfold AdminRoutes.demote_librarian_to_member.
    assert (Dependencies.get_current_admin (Dependencies.get_current_user sub db1)
            = Ok (cid, cu)) as Hg1.
    { apply get_current_admin_Ok. split; [done|]. split; [|done].
      unfold db1. cbn. by rewrite lookup_insert_ne. }
    rewrite (route_Ok _ _ _ _ Hg1), Hu1. cbn.
    assert (set_role MEMBER (set_role LIBRARIAN u) = u) as ->
      by (destruct u; cbn in *; by subst).
    f_equal. unfold db1. cbn [users set_users].
    rewrite insert_insert_eq, insert_id by done. by destruct db.
Qed.

(** Removing a user, for an admin and a user that is not an admin, removes
    the user and every loan of the user whatever its status, and leaves the
    books and the settings as they are.  The removed loans are unknown to
    pickup, return and cancellation afterwards (404), and a copy that such a
    loan held is not given back: for its book, the available copies plus the
    copies held by loans are fewer than before. *)
Theorem delete_user_drops_loans
    (sub : option Z) (caller : Z * User) (uid : Z) (u : User) (db : DB) :
  Dependencies.get_current_admin (Dependencies.get_current_user sub db) = Ok caller ->
  users db !! uid = Some u ->
  role u <> ADMIN ->
  let db' := fst (AdminRoutes.delete_user sub uid db) in
  snd (AdminRoutes.delete_user sub uid db) = Ok tt
  /\ users db' = delete uid (users db)
  /\ books db' = books db /\ settings db' = settings db
  /\ (forall lid,
        loans db' !! lid
        = match loans db !! lid with
          | Some l => if bool_decide (user_id l = uid) then None else Some l
          | None => None
          end)
  /\ (forall lid l,
        loans db !! lid = Some l -> user_id l = uid ->
        (forall now,
            confirm_pickup now lid db' = (db', Raise (HTTPException 404 "Loan not found"))
            /\ return_book now lid db' = (db', Raise (HTTPException 404 "Loan not found"))
            /\ forall uid',
                 cancel_reservation now uid' lid db'
                 = (db', Raise (HTTPException 404 "Loan not found")))
        /\ (holds_copy (status l) = true ->
            forall b, books db !! book_id l = Some b ->
              books db' !! book_id l = Some b
              /\ available_copies b + held (book_id l) (loans db')
                 < available_copies b + held (book_id l) (loans db))).
Proof.
  intros Hg Hu Hr. cbn zeta. unfold AdminRoutes.delete_user.
  rewrite (route_Ok _ _ _ _ Hg), Hu.
  assert (UserRole_eqb (role u) ADMIN = false) as -> by (by destruct u as [[] bn]).
  cbn [fst snd users books settings loans set_users set_loans].
  set (m' := filter _ (loans db)).
  assert (forall lid, m' !! lid
            = match loans db !! lid with
              | Some l => if bool_decide (user_id l = uid) then None else Some l
              | None => None
              end) as Hm'.
  { intros lid. unfold m'. destruct (loans db !! lid) as [l|] eqn:Hl.
    - case_bool_decide as Hd.
      + apply map_lookup_filter_None. right. intros l' Hl' Hne. cbn in Hne. by simplify_eq.
      + by apply map_lookup_filter_Some.
    - apply map_lookup_filter_None. by left. }
  repeat (split; [done|]).
  intros lid l Hl Hul.
  assert (m' !! lid = None) as Hnone by (by rewrite Hm', Hl, bool_decide_eq_true_2).
  split.
  - intros now. unfold confirm_pickup, return_book, cancel_reservation.
    cbn [loans set_users set_loans]. fold m'. by rewrite Hnone.
  - intros Hh b Hb. split; [done|].
    assert (held (book_id l) m' < held (book_id l) (loans db)); [|lia].
    unfold held. apply inj_lt, map_subset_size. split.
    + apply map_filter_subseteq_mono, map_filter_subseteq.
    + intros Hsub.
      assert (filter (fun kv : Z * Loan =>
                        book_id kv.2 = book_id l /\ holds_copy (status kv.2) = true)
                     (loans db) !! lid = Some l) as Hin
        by (by apply map_lookup_filter_Some).
      eapply lookup_weaken in Hin; [|exact Hsub].
      apply map_lookup_filter_Some in Hin as [Hin _]. congruence.
Qed.

(** * The staff view of a user's loans *)

Lemma get_user_loans_rows (now uid : Z) (db : DB) (lid : Z) (l : Loan) :
  (lid, l) ∈ snd (get_user_loans now uid db)
  <-> exists l0, loans db !! lid = Some l0 /\ user_id l0 = uid
                 /\ l = sweep_loan now (daily_fine_amount (snd (get_settings db))) l0.
Proof.
  unfold get_user_loans. cbn [fst snd].
  set (ids := map fst _).
  destruct (user_loan_ids uid (loans db)) as [_ Hids]. cbn zeta in Hids. fold ids in Hids.
  destruct (_mark_overdue_loop_spec now ids None db I) as (_ & _ & Hl & _).
  cbn zeta in Hl. fold (_mark_overdue now ids db) in Hl.
  set (db' := _mark_overdue now ids db) in *.
  assert (forall i, i ∈ ids -> is_Some (loans db' !! i)) as Hsome.
  { intros i Hi. rewrite Hl, bool_decide_eq_true_2 by done.
    apply Hids in Hi as (l' & -> & _). by eexists. }
  destruct (listing_rows (loans db') ids Hsome) as [_ Hrows]. cbn zeta in Hrows.
  rewrite Hrows. split.
  - intros [Hi Hl']. pose proof Hi as (l0 & Hl0 & Hu0)%Hids.
    rewrite Hl, bool_decide_eq_true_2, Hl0 in Hl' by done. cbn in Hl'. simplify_eq.
    by exists l0.
  - intros (l0 & Hl0 & Hu0 & ->).
    assert (lid ∈ ids) as Hi by (apply Hids; eauto).
    split; [done|]. by rewrite Hl, bool_decide_eq_true_2, Hl0.
Qed.

(** The staff view lists exactly the RETURNED loans of the user, each once,
    and changes nothing.  In a store reached by service calls every row has
    its start, due and return instants and no cancellation instant, and
    appears unchanged in the user's own listing, at whatever time that is
    taken. *)
Theorem get_user_loans_for_management_spec (uid : Z) (db : DB) :
  reachable db ->
  let rows := get_user_loans_for_management uid db in
  NoDup rows.*1
  /\ (forall lid l,
        (lid, l) ∈ rows
        <-> loans db !! lid = Some l /\ user_id l = uid /\ status l = RETURNED)
  /\ (forall lid l,
        (lid, l) ∈ rows ->
        is_Some (start_date l) /\ is_Some (due_date l) /\ is_Some (returned_at l)
        /\ canceled_at l = None
        /\ forall now, (lid, l) ∈ snd (get_user_loans now uid db)).
Proof.
  intros Hreach rows.
  assert (forall lid l,
            (lid, l) ∈ rows
            <-> loans db !! lid = Some l /\ user_id l = uid /\ status l = RETURNED) as Hrows.
  { intros lid l. unfold rows, get_user_loans_for_management.
    rewrite list_elem_of_In, filter_In, <- list_elem_of_In, elem_of_map_to_list.
    cbn. rewrite andb_true_iff, Z.eqb_eq.
    assert (LoanStatus_eqb (status l) RETURNED = true <-> status l = RETURNED) as ->
      by (by destruct (status l)).
    done. }
  split; [|split; [done|]].
  - eapply sublist_NoDup; [apply (NoDup_fst_map_to_list (loans db))|].
    apply (filter_keys_sublist _ (map_to_list (loans db))).
  - intros lid l (Hl & Hu & Hst)%Hrows.
    pose proof (reachable_timestamps_ok db Hreach lid l Hl) as Hok.
    unfold timestamps_ok in Hok. rewrite Hst in Hok. destruct Hok as (? & ? & ? & ?).
    repeat (split; [done|]).
    intros now. apply get_user_loans_rows. exists l. repeat (split; [done|]).
    symmetry. apply sweep_loan_not_overdue. unfold overdue_now. by rewrite Hst.
Qed.

(** * Instances *)

Lemma ex_db_reserved_without_update : reachable_without_update ex_db_reserved.
Proof.
  refine (rwu_step (Reserve (100 * day) 1 (LoanCreate.mk 1))
            (exec (CreateBook ex_book_data) (initial_db ex_users)) _ _ _);
    [|reflexivity|discriminate].
  refine (rwu_step (CreateBook ex_book_data) (initial_db ex_users) _ _ _);
    [apply rwu_initial|reflexivity|discriminate].
Defined.

Lemma loan_evolution_witness :
  match loans (exec (ConfirmPickup (101 * day) 1) ex_db_reserved) !! 1 with
  | Some l' =>
      user_id l' = 1 /\ book_id l' = 1
      /\ reservation_date l' = 100 * day
      /\ pickup_deadline l' = Some (102 * day)
      /\ transition RESERVED (status l') = true
      /\ (terminal RESERVED = true -> l' = ex_loan_reserved)
      /\ (fine_amount l' = 0%float \/ status l' = OVERDUE \/ status l' = RETURNED)
  | None => books (exec (ConfirmPickup (101 * day) 1) ex_db_reserved) !! 1 = None
  end.
Proof.
  apply (loan_evolution (ConfirmPickup (101 * day) 1) ex_db_reserved 1 ex_loan_reserved).
  - reflexivity.
  - vm_compute; reflexivity.
Defined.

Lemma terminal_loans_are_final_witness :
  loans (run ex_ops_after_return ex_db_returned) !! 1 = Some ex_loan_returned.
Proof.
  apply (terminal_loans_are_final ex_ops_after_return ex_db_returned 1 ex_loan_returned).
  - vm_compute; reflexivity.
  - vm_compute; reflexivity.
  - reflexivity.
Defined.

Lemma reachable_loans_well_dated_witness :
  is_Some (pickup_deadline ex_loan_reserved) /\ start_date ex_loan_reserved = None
  /\ due_date ex_loan_reserved = None /\ returned_at ex_loan_reserved = None
  /\ canceled_at ex_loan_reserved = None /\ fine_amount ex_loan_reserved = 0%float.
Proof.
  apply (reachable_loans_well_dated ex_db_reserved 1 ex_loan_reserved
           ex_db_reserved_reachable).
  vm_compute; reflexivity.
Defined.

Lemma reachable_periods_in_bounds_witness :
  1 <= pickup_window_days (snd (get_settings ex_db_reserved)) <= 14
  /\ exists n, 1 <= n <= 14 /\ 102 * day = 100 * day + Datetime.timedelta_days n.
Proof.
  destruct (reachable_periods_in_bounds ex_db_reserved ex_db_reserved_reachable)
    as [(Hp & _) Hl].
  split; [exact Hp|].
  destruct (Hl 1 ex_loan_reserved) as [Hd _]; [vm_compute; reflexivity|].
  apply (Hd (102 * day)). reflexivity.
Defined.

Lemma lifecycle_conserves_copies_witness :
  exists b',
    books (exec (CancelReservation (100 * day + 5) 1 1) ex_db_reserved) !! 1 = Some b'
    /\ total_copies b' = 1
    /\ available_copies b'
       + held 1 (loans (exec (CancelReservation (100 * day + 5) 1 1) ex_db_reserved))
       = 0 + held 1 (loans ex_db_reserved).
Proof.
  apply (lifecycle_conserves_copies (CancelReservation (100 * day + 5) 1 1)
           ex_db_reserved 1 ex_book_held).
  - reflexivity.
  - reflexivity.
  - vm_compute; reflexivity.
Defined.

Lemma copies_accounted_without_update_witness :
  0 <= 0 <= 1 /\ 0 + held 1 (loans ex_db_reserved) <= 1.
Proof.
  apply (copies_accounted_without_update ex_db_reserved 1 ex_book_held
           ex_db_reserved_without_update).
  vm_compute; reflexivity.
Defined.

Lemma reachable_isbn_unique_witness : 1 = 1.
Proof.
  apply (reachable_isbn_unique ex_db_reserved 1 1 ex_book_held ex_book_held
           ex_db_reserved_reachable).
  - vm_compute; reflexivity.
  - vm_compute; reflexivity.
  - reflexivity.
Defined.

Lemma update_book_unset_witness :
  update_book 1 BookUpdate.unset ex_db_reserved = (ex_db_reserved, Ok ex_book_held).
Proof.
  apply (update_book_unset ex_db_reserved 1 ex_book_held ex_db_reserved_reachable).
  vm_compute; reflexivity.
Defined.


Lemma create_book_spec_witness :
  create_book ex_book_data ex_db_book
  = (ex_db_book, Raise (HTTPException 400 "Book with this ISBN already exists"))
  /\ exists db' bid book,
       create_book ex_book_data (initial_db ex_users) = (db', Ok (bid, book))
       /\ available_copies book = 1.
Proof.
  split.
  - apply (proj1 (create_book_spec ex_book_data ex_db_book)).
    exists 1, ex_book. split; vm_compute; reflexivity.
  - destruct (proj2 (create_book_spec ex_book_data (initial_db ex_users)))
      as (db' & bid & book & Hc & _ & _ & _ & _ & _ & _ & _ & _ & Hav & _).
    + intros bid b Hb. vm_compute in Hb. discriminate Hb.
    + exists db', bid, book. split; [exact Hc|]. rewrite Hav. reflexivity.
Defined.


Lemma delete_book_spec_witness :
  delete_book 7 ex_db_reserved = (ex_db_reserved, Raise (HTTPException 404 "Book not found"))
  /\ exists db',
       delete_book 1 ex_db_reserved = (db', Ok tt)
       /\ get_book 1 db' = None
       /\ return_book (120 * day) 1 db' = (db', Raise (HTTPException 404 "Loan not found")).
Proof.
  split.
  - apply (proj1 (delete_book_spec 7 ex_db_reserved)). vm_compute; reflexivity.
  - destruct (proj2 (delete_book_spec 1 ex_db_reserved))
      as (db' & Hd & Hg & _ & _ & _ & _ & Hgone).
    + exists ex_book_held. vm_compute; reflexivity.
    + destruct (Hgone (120 * day) 1 1 ex_loan_reserved) as (_ & Hr & _).
      * vm_compute; reflexivity.
      * reflexivity.
      * exists db'. split; [exact Hd|]. split; [exact Hg|exact Hr].
Defined.

Lemma last_copy_is_reserved_once_witness :
  exists db1 lid l,
    reserve_book (100 * day) 1 (LoanCreate.mk 1) ex_db_book = (db1, Ok (lid, l))
    /\ reserve_book (100 * day + 1) 2 (LoanCreate.mk 1) db1
       = (db1, Raise (HTTPException 400 "Book is not available for reservation"))
    /\ assign_loan (100 * day + 1) 2 1 db1
       = (db1, Raise (HTTPException 400 "Book is not available for loan"))
    /\ exists db2 l2 b2,
         cancel_reservation (100 * day + 5) 1 lid db1 = (db2, Ok l2)
         /\ books db2 !! 1 = Some b2 /\ available_copies b2 = 1.
Proof.
  destruct (last_copy_is_reserved_once ex_db_book (100 * day) 1 1 ex_book
              (mkUser MEMBER false))
    as (db1 & lid & l & b1 & Hres & _ & _ & _ & Hno & Hassign & Hcancel);
    [vm_compute; reflexivity..|].
  assert (fst (reserve_book (100 * day) 1 (LoanCreate.mk 1) ex_db_book) = db1) as Hdb
    by (rewrite Hres; reflexivity).
  exists db1, lid, l. split; [exact Hres|]. split; [apply Hno|]. split.
  - apply (Hassign (100 * day + 1) 2 (mkUser MEMBER false)).
    + rewrite <- Hdb. vm_compute; reflexivity.
    + reflexivity.
    + reflexivity.
  - destruct (Hcancel (100 * day + 5)) as (db2 & l2 & b2 & Hc & Hb2 & Hav & _).
    exists db2, l2, b2. split; [exact Hc|]. split; [exact Hb2|exact Hav].
Defined.

Lemma assign_then_return_on_time_witness :
  exists db1 lid l1 db2 l2,
    assign_loan (100 * day) 1 1 ex_db_book = (db1, Ok (lid, l1))
    /\ status l1 = ACTIVE
    /\ return_book (110 * day) lid db1 = (db2, Ok l2)
    /\ status l2 = RETURNED /\ fine_amount l2 = 0%float.
Proof.
  destruct (assign_then_return_on_time ex_db_book (100 * day) (110 * day) 1 1
              (mkUser MEMBER false) ex_book)
    as (db1 & lid & l1 & db2 & l2 & book2 & Has & _ & Hst & _ & _ & _ & _ & Hrb & _
        & Hst2 & Hfine & _).
  - vm_compute; reflexivity.
  - reflexivity.
  - reflexivity.
  - vm_compute; reflexivity.
  - vm_compute; reflexivity.
  - vm_compute. discriminate.
  - exists db1, lid, l1, db2, l2. split; [exact Has|]. split; [exact Hst|].
    split; [exact Hrb|]. split; [exact Hst2|exact Hfine].
Defined.

Lemma get_user_loans_spec_witness :
  let db' := fst (get_user_loans (134 * day) 1 ex_db_active) in
  let l := sweep_loan (134 * day) 0.1 ex_loan_active in
  loans db' !! 1 = Some l /\ user_id l = 1 /\ status l = OVERDUE.
Proof.
  intros db' l.
  destruct (get_user_loans_spec (134 * day) 1 ex_db_active)
    as (_ & _ & _ & Hrows & Hsw & _).
  assert ((1, l) ∈ snd (get_user_loans (134 * day) 1 ex_db_active)) as Hin
    by (vm_compute; apply list_elem_of_here).
  destruct (proj1 (Hrows 1 l) Hin) as [Hl Hu].
  split; [exact Hl|]. split; [exact Hu|].
  apply (proj2 (Hsw 1 l Hin)). vm_compute; reflexivity.
Defined.


Lemma update_settings_read_back_witness :
  let db' := fst (update_settings (134 * day) (SettingsUpdate.mk 3 14 0.25) ex_db_active) in
  get_settings db' = (db', mkSettings 3 14 0.25)
  /\ _mark_overdue (134 * day) [1] db' = db'.
Proof.
  intros db'.
  destruct (update_settings_read_back (134 * day) (SettingsUpdate.mk 3 14 0.25) ex_db_active)
    as (_ & Hgs & Hsw & _).
  - vm_compute; reflexivity.
  - split; [exact Hgs|apply Hsw].
Defined.


Lemma ex_db_returned_reachable : reachable ex_db_returned.
Proof.
  apply (reachable_run [CreateBook ex_book_data; Reserve (100 * day) 1 (LoanCreate.mk 1);
                        ConfirmPickup (101 * day) 1; ReturnBook (120 * day) 1]);
    [apply reachable_initial|reflexivity].
Defined.

Lemma user_management_invariants_witness :
  role <$> users (run_users ex_user_ops ex_db_staff) !! 4 = Some ADMIN
  /\ loans (run_users ex_user_ops ex_db_reserved) = loans ex_db_reserved
  /\ run_users ex_user_ops ex_db_reserved = ex_db_reserved.
Proof.
  assert (forall uid u, users ex_db_reserved !! uid = Some u -> role u = MEMBER) as Hm.
  { intros uid u Hu.
    assert (users ex_db_reserved = ex_users) as Hus by (vm_compute; reflexivity).
    rewrite Hus in Hu. unfold ex_users in Hu.
    apply lookup_insert_Some in Hu as [[_ <-]|[_ Hu]]; [reflexivity|].
    apply lookup_singleton_Some in Hu as [_ <-]. reflexivity. }
  split; [|split].
  - destruct (user_management_invariants ex_user_ops ex_db_staff)
      as (_ & _ & _ & Hadm & _).
    apply Hadm. vm_compute; reflexivity.
  - destruct (user_management_invariants ex_user_ops ex_db_reserved)
      as (_ & _ & _ & _ & Hno & _).
    apply Hno. intros uid u Hu Ha. rewrite (Hm uid u Hu) in Ha. discriminate Ha.
  - destruct (user_management_invariants ex_user_ops ex_db_reserved)
      as (_ & _ & _ & _ & _ & Hall).
    apply Hall. exact Hm.
Defined.

Lemma ban_blocks_borrowing_witness :
  let db1 := set_users (<[1 := set_is_banned true (mkUser MEMBER false)]> (users ex_db_staff))
               ex_db_staff in
  UsersRoutes.ban_user (Some 3) 1 ex_db_staff = (db1, Ok (mkUser MEMBER true))
  /\ reserve_book (101 * day) 1 (LoanCreate.mk 1) db1
     = (db1, Raise (HTTPException 403 "You are banned from reserving books"))
  /\ assign_loan (101 * day) 1 1 db1
     = (db1, Raise (HTTPException 403 "User is banned from reserving books"))
  /\ UsersRoutes.unban_user (Some 3) 1 db1 = (ex_db_staff, Ok (mkUser MEMBER false)).
Proof.
  intros db1.
  destruct (ban_blocks_borrowing (Some 3) (3, mkUser LIBRARIAN false) 1
              (mkUser MEMBER false) ex_db_staff)
    as (Hban & Hres & Has & _ & Hunban).
  - vm_compute; reflexivity.
  - vm_compute; reflexivity.
  - discriminate.
  - split; [exact Hban|]. split; [|split].
    + apply (Hres (101 * day) 1 ex_book_one_left); vm_compute; reflexivity.
    + apply Has. reflexivity.
    + apply Hunban. reflexivity.
Defined.

Lemma promotion_closes_member_routes_witness :
  let db1 := set_users (<[1 := set_role LIBRARIAN (mkUser MEMBER false)]> (users ex_db_staff))
               ex_db_staff in
  AdminRoutes.promote_user_to_librarian (Some 4) 1 ex_db_staff
  = (db1, Ok (mkUser LIBRARIAN false))
  /\ LoansRoutes.cancel_reservation (Some 1) (100 * day + 5) 1 db1
     = (db1, Raise (HTTPException 403 "Not enough permissions. Member access required."))
  /\ AdminRoutes.demote_librarian_to_member (Some 4) 1 db1
     = (ex_db_staff, Ok (mkUser MEMBER false)).
Proof.
  intros db1.
  destruct (promotion_closes_member_routes (Some 4) (4, mkUser ADMIN false) 1
              (mkUser MEMBER false) ex_db_staff)
    as (Hp & _ & _ & _ & Hc & _ & Hd).
  - vm_compute; reflexivity.
  - vm_compute; reflexivity.
  - reflexivity.
  - split; [exact Hp|]. split; [apply Hc|exact Hd].
Defined.

Lemma delete_user_drops_loans_witness :
  let db' := fst (AdminRoutes.delete_user (Some 4) 1 ex_db_staff) in
  users db' = delete 1 (users ex_db_staff)
  /\ return_book (120 * day) 1 db' = (db', Raise (HTTPException 404 "Loan not found"))
  /\ books db' !! 1 = Some ex_book_one_left
  /\ 1 + held 1 (loans db') < 1 + held 1 (loans ex_db_staff).
Proof.
  intros db'.
  destruct (delete_user_drops_loans (Some 4) (4, mkUser ADMIN false) 1
              (mkUser MEMBER false) ex_db_staff)
    as (_ & Hus & _ & _ & _ & Hgone).
  - vm_compute; reflexivity.
  - vm_compute; reflexivity.
  - discriminate.
  - destruct (Hgone 1 ex_loan_reserved) as [H404 Hleak].
    + vm_compute; reflexivity.
    + reflexivity.
    + destruct (H404 (120 * day)) as (_ & Hr & _).
      destruct (Hleak eq_refl ex_book_one_left) as [Hb Hlt]; [vm_compute; reflexivity|].
      split; [exact Hus|]. split; [exact Hr|]. split; [exact Hb|exact Hlt].
Defined.

Lemma get_user_loans_for_management_spec_witness :
  (1, ex_loan_returned) ∈ get_user_loans_for_management 1 ex_db_returned
  /\ is_Some (returned_at ex_loan_returned)
  /\ forall now, (1, ex_loan_returned) ∈ snd (get_user_loans now 1 ex_db_returned).
Proof.
  destruct (get_user_loans_for_management_spec 1 ex_db_returned ex_db_returned_reachable)
    as (_ & Hrows & Hfacts).
  assert ((1, ex_loan_returned) ∈ get_user_loans_for_management 1 ex_db_returned) as Hin.
  { apply Hrows. split; [vm_compute; reflexivity|]. split; reflexivity. }
  destruct (Hfacts 1 ex_loan_returned Hin) as (_ & _ & Hret & _ & Hown).
  split; [exact Hin|]. split; [exact Hret|exact Hown].
Defined.


(** * What a member can reach *)

Lemma reserve_book_others (now uid : Z) (d : LoanCreate.t) (db : DB) (lid : Z) (l : Loan) :
  user_id l <> uid ->
  loans (fst (reserve_book now uid d db)) !! lid = Some l <-> loans db !! lid = Some l.
Proof.
  intros Hne. unfold reserve_book.
  destruct (books db !! LoanCreate.book_id d) as [b|]; [|done].
  destruct (available_copies b <=? 0); [done|].
  destruct (users db !! uid) as [u|]; [|done].
  destruct (is_banned u); [done|].
  destruct (recent_cancel now uid (LoanCreate.book_id d) db); [done|].
  destruct (get_settings db) as [db1 s] eqn:Hgs.
  destruct (get_settings_frame _ _ _ Hgs) as (_ & Hln & _).
  cbn [fst loans set_loans set_books]. rewrite Hln.
  destruct (decide (lid = next_id (loans db))) as [->|Hlid].
  - rewrite lookup_insert_eq, next_id_fresh. split; [|done]. intros [= <-]. done.
  - by rewrite lookup_insert_ne.
Qed.

Lemma cancel_reservation_others (now uid lid0 : Z) (db : DB) (lid : Z) (l : Loan) :
  user_id l <> uid ->
  loans (fst (cancel_reservation now uid lid0 db)) !! lid = Some l <-> loans db !! lid = Some l.
Proof.
  intros Hne. unfold cancel_reservation.
  destruct (loans db !! lid0) as [l0|] eqn:Hl0; [|done].
  destruct (negb (user_id l0 =? uid)) eqn:Hown; [done|].
  assert (user_id l0 = uid) as Hu0 by (apply negb_false_iff in Hown; lia).
  clear Hown. destruct (negb _); [done|].
  cbn. destruct (books db !! book_id l0); cbn;
    (destruct (decide (lid = lid0)) as [->|Hlid];
     [rewrite lookup_insert_eq, Hl0; split; intros [= <-]; cbn in Hne; congruence
     |by rewrite lookup_insert_ne]).
Qed.

Lemma get_user_loans_others (now uid : Z) (db : DB) (lid : Z) (l : Loan) :
  user_id l <> uid ->
  loans (fst (get_user_loans now uid db)) !! lid = Some l <-> loans db !! lid = Some l.
Proof.
  intros Hne. unfold get_user_loans. cbn [fst].
  set (ids := map fst _).
  destruct (user_loan_ids uid (loans db)) as [_ Hids]. cbn zeta in Hids. fold ids in Hids.
  destruct (_mark_overdue_loop_spec now ids None db I) as (_ & _ & Hl & _).
  cbn zeta in Hl. fold (_mark_overdue now ids db) in Hl. rewrite Hl.
  case_bool_decide as Hi; [|done].
  apply Hids in Hi as (l0 & Hl0 & Hu0). rewrite Hl0. cbn.
  split; intros [= <-]; [by rewrite sweep_loan_user_id in Hne|done].
Qed.

Lemma reserve_book_users (now uid : Z) (d : LoanCreate.t) (db : DB) :
  users (fst (reserve_book now uid d db)) = users db.
Proof.
  unfold reserve_book.
  destruct (books db !! LoanCreate.book_id d) as [b|]; [|done].
  destruct (available_copies b <=? 0); [done|].
  destruct (users db !! uid) as [u|]; [|done].
  destruct (is_banned u); [done|].
  destruct (recent_cancel now uid (LoanCreate.book_id d) db); [done|].
  destruct (get_settings db) as [db1 s] eqn:Hgs.
  by destruct (get_settings_frame _ _ _ Hgs) as (_ & _ & Hus & _).
Qed.

Lemma cancel_reservation_users (now uid lid : Z) (db : DB) :
  users (fst (cancel_reservation now uid lid db)) = users db.
Proof.
  unfold cancel_reservation.
  destruct (loans db !! lid) as [l|]; [|done].
  destruct (negb _); [done|]. destruct (negb _); [done|].
  cbn. by destruct (books db !! book_id l).
Qed.

Lemma get_user_loans_users (now uid : Z) (db : DB) :
  users (fst (get_user_loans now uid db)) = users db.
Proof.
  unfold get_user_loans. cbn [fst].
  by destruct (_mark_overdue_loop_spec now
                 (map fst (List.filter (fun kv => user_id (snd kv) =? uid)
                                       (map_to_list (loans db)))) None db I)
    as (_ & Hus & _).
Qed.

(** Whatever a member requests from the loan routes, the users stay as they
    are and the loans of every other user stay exactly as they are: none is
    changed, removed or added.  The requests of a member to the routes of
    user management change nothing at all. *)
Theorem member_requests_touch_own_loans_only
    (sub : option Z) (cid : Z) (cu : User) (r : LoanRequest) (db : DB) :
  Dependencies.get_current_user sub db = Ok (cid, cu) ->
  role cu = MEMBER ->
  let db' := exec_request sub r db in
  users db' = users db
  /\ (forall lid l, user_id l <> cid ->
        loans db' !! lid = Some l <-> loans db !! lid = Some l)
  /\ (forall o, UserOp_sub o = sub -> exec_user o db = db).
Proof.
  intros Hcu Hrole. cbn zeta.
  assert (Dependencies.get_current_member (Dependencies.get_current_user sub db)
          = Ok (cid, cu)) as Hmem
    by (rewrite Hcu; destruct cu as [[] bn]; cbn in *; done).
  assert (exists e, Dependencies.get_current_librarian (Dependencies.get_current_user sub db)
                    = Raise e) as [e1 Hlib]
    by (rewrite Hcu; destruct cu as [[] bn]; cbn in *; try done; by eexists).
  assert (exists e, Dependencies.get_current_admin (Dependencies.get_current_user sub db)
                    = Raise e) as [e2 Hadm]
    by (rewrite Hcu; destruct cu as [[] bn]; cbn in *; try done; by eexists).
  split; [|split].
  - destruct r; cbn [exec_request];
      [unfold LoansRoutes.reserve_book|unfold LoansRoutes.assign_loan
      |unfold LoansRoutes.confirm_pickup|unfold LoansRoutes.return_book
      |unfold LoansRoutes.cancel_reservation|unfold LoansRoutes.get_my_loans
      |unfold LoansRoutes.get_all_loans];
      rewrite ?Hmem, ?Hlib, ?Hcu; cbn [route fst]; try done.
    + apply reserve_book_users.
    + apply cancel_reservation_users.
    + pose proof (get_user_loans_users now cid db) as Hus.
      by destruct (get_user_loans now cid db) as [db1 rows].
  - intros lid l Hne.
    destruct r; cbn [exec_request];
      [unfold LoansRoutes.reserve_book|unfold LoansRoutes.assign_loan
      |unfold LoansRoutes.confirm_pickup|unfold LoansRoutes.return_book
      |unfold LoansRoutes.cancel_reservation|unfold LoansRoutes.get_my_loans
      |unfold LoansRoutes.get_all_loans];
      rewrite ?Hmem, ?Hlib, ?Hcu; cbn [route fst]; try done.
    + by apply reserve_book_others.
    + by apply cancel_reservation_others.
    + pose proof (get_user_loans_others now cid db lid l Hne) as Ho.
      by destruct (get_user_loans now cid db) as [db1 rows].
  - intros o <-.
    destruct o; cbn [exec_user UserOp_sub] in *;
      [unfold UsersRoutes.ban_user|unfold UsersRoutes.unban_user
      |unfold AdminRoutes.promote_user_to_librarian
      |unfold AdminRoutes.demote_librarian_to_member|unfold AdminRoutes.delete_user];
      by rewrite ?Hlib, ?Hadm.
Qed.


Lemma member_requests_touch_own_loans_only_witness :
  loans (exec_request (Some 2) (CancelRq (101 * day) 1) ex_db_staff) !! 1
  = Some ex_loan_reserved
  /\ exec_user (BanUser (Some 2) 1) ex_db_staff = ex_db_staff.
Proof.
  destruct (member_requests_touch_own_loans_only (Some 2) 2 (mkUser MEMBER false)
              (CancelRq (101 * day) 1) ex_db_staff)
    as (_ & Hothers & Husers).
  - vm_compute; reflexivity.
  - reflexivity.
  - split.
    + apply (Hothers 1 ex_loan_reserved); [discriminate|vm_compute; reflexivity].
    + apply Husers. reflexivity.
Defined.
